(** * The CoreAudio output driver and the console wrapper, as programs over
      their external calls

    Sources embedded here:
      - audio/out/ao_coreaudio.c         (the CoreAudio [ao] driver)
      - audio/out/ao_coreaudio_common.c  (property helpers it includes)
      - osdep/win32-console-wrapper.c    (the console relaunch helper)

    The driver is glue over functions that live elsewhere: the CoreAudio
    framework, the ring buffer of core/mp_ring.h, the channel-map and
    message helpers.  Each such function is an _event_: a driver function is
    a finite tree whose nodes are calls, branching on the value the callee
    answers.  Statements quantified over every handler therefore hold for
    every behaviour of the framework and of the ring buffer; statements about
    the queue itself are made against the ring buffer as the specification
    describes it ([Ring], below).

    Conventions.  C integers are [Z] with the conversion written where the C
    code converts ([int_of], [UInt32_of], [OSErr_of]).  Volumes are C floats:
    IEEE 754 values with the rounding of each operation ([Float32],
    [double], below).  Sample rates, which the code only stores, compares
    and converts, are rationals.  Allocation and release of temporaries
    (talloc, malloc, free, CFRelease) are not events.  A message event keeps
    the format of the message; the messages of ao_coreaudio_common.c also
    keep their arguments, the numbers formatted into the driver's own
    messages are not kept. *)

From Stdlib Require Import ZArith List Bool Lia String Ascii QArith.
From Stdlib Require Import DecimalString SpecFloat.
Import ListNotations.
Local Open Scope string_scope.
Local Open Scope Z_scope.

Set Implicit Arguments.

(** ** Machine integers *)

(** Value of a 32-bit unsigned object holding [z] modulo 2^32. *)
Definition UInt32_of (z : Z) : Z := z mod 2 ^ 32.

(** Value of a 32-bit two's-complement [int] after conversion from [z]. *)
Definition int_of (z : Z) : Z := (z + 2 ^ 31) mod 2 ^ 32 - 2 ^ 31.

(** Value of a 16-bit [OSErr] after conversion from [z]. *)
Definition OSErr_of (z : Z) : Z := (z + 2 ^ 15) mod 2 ^ 16 - 2 ^ 15.

(** Float to [int] conversion: truncation toward zero. *)
Definition Qtrunc (q : Q) : Z := Z.quot (Qnum q) (Z.pos (Qden q)).

(** C truth value of an integer. *)
Definition truthy (z : Z) : bool := negb (z =? 0).

(** ** Floating-point values *)

(** C [float] (CoreAudio's Float32) and [double]: IEEE 754 binary32 and
    binary64 values, as the Standard Library's [SpecFloat] specifies them.
    Every operation rounds to nearest, ties to even, in the type C gives
    the expression; NaN, the infinities and the signed zeros are values. *)
Definition Float32 : Type := spec_float.
Definition double : Type := spec_float.

(** Conversion of a [double] to [float]: rounds, and overflows to an
    infinity. *)
Definition float_of_double (d : double) : Float32 :=
  match d with
  | S754_finite s m e => binary_round 24 128 s m e
  | _ => d
  end.

(** Promotion of a [float] to [double]: exact. *)
Definition double_of_float (x : Float32) : double :=
  match x with
  | S754_finite s m e => binary_round 53 1024 s m e
  | _ => x
  end.

(** Conversion of an [int] to [double] (exact) and to [float]. *)
Definition double_of_int (z : Z) : double := binary_normalize 53 1024 z 0 false.
Definition float_of_int (z : Z) : Float32 := binary_normalize 24 128 z 0 false.

Definition float_add : Float32 -> Float32 -> Float32 := SFadd 24 128.
Definition double_mul : double -> double -> double := SFmul 53 1024.
Definition double_div : double -> double -> double := SFdiv 53 1024.

(** The C comparison [==]: false on NaN, true on zeros of either sign. *)
Definition float_eqb : Float32 -> Float32 -> bool := SFeqb.

(** ** Programs over external calls *)

Section Prog.
Variable E : Type -> Type.

Inductive prog (A : Type) : Type :=
| Ret (a : A)
| Vis (R : Type) (e : E R) (k : R -> prog A)
| Undef.

Arguments Ret {A} a.
Arguments Vis {A R} e k.
Arguments Undef {A}.

Fixpoint bind {A B} (m : prog A) (f : A -> prog B) : prog B :=
  match m with
  | Ret a => f a
  | Vis e k => Vis e (fun r => bind (k r) f)
  | Undef => Undef
  end.

Definition trigger {R} (e : E R) : prog R := Vis e (fun r => Ret r).

(** One call together with the answer it got. *)
Inductive event : Type :=
| Ev (R : Type) (e : E R) (r : R).

(** A handler answers every call, threading its own world. *)
Definition handler (W : Type) : Type := forall R, E R -> W -> R * W.

(** Running a program: its result ([None] when it runs into undefined
    behaviour), the final world, and the calls made, oldest first. *)
Fixpoint run {W A} (h : handler W) (m : prog A) (w : W)
  : option A * W * list event :=
  match m with
  | Ret a => (Some a, w, [])
  | Vis e k =>
      let '(r, w1) := h _ e w in
      let '(o, w2, t) := run h (k r) w1 in
      (o, w2, Ev e r :: t)
  | Undef => (None, w, [])
  end.

Definition result_of {W A} (x : option A * W * list event) : option A :=
  fst (fst x).
Definition world_of {W A} (x : option A * W * list event) : W :=
  snd (fst x).
Definition trace_of {W A} (x : option A * W * list event) : list event :=
  snd x.

(** [all_paths m P]: [P] holds of the calls and the result along every
    path of [m], whatever the callees answer. *)
Fixpoint all_paths {A} (m : prog A)
         (P : list event -> option A -> Prop) : Prop :=
  match m with
  | Ret a => P [] (Some a)
  | Vis e k => forall r, all_paths (k r) (fun t o => P (Ev e r :: t) o)
  | Undef => P [] None
  end.

(** [quiet ok m]: every call [m] can make satisfies [ok]. *)
Fixpoint quiet (ok : event -> bool) {A} (m : prog A) : Prop :=
  match m with
  | Ret _ => True
  | Vis e k => forall r, ok (Ev e r) = true /\ quiet ok (k r)
  | Undef => True
  end.

(** [returns m Q]: [m] never runs into undefined behaviour and its result
    satisfies [Q]. *)
Fixpoint returns {A} (m : prog A) (Q : A -> Prop) : Prop :=
  match m with
  | Ret a => Q a
  | Vis e k => forall r, returns (k r) Q
  | Undef => False
  end.
End Prog.

Arguments Ret {E A} a.
Arguments Vis {E A R} e k.
Arguments Undef {E A}.
Arguments Ev {E R} e r.
Arguments trigger {E R} e.

Declare Scope prog_scope.
Delimit Scope prog_scope with prog.
Notation "x <- m ;; k" := (bind m (fun x => k))
  (at level 61, m at next level, right associativity) : prog_scope.
Notation "' pat <- m ;; k" := (bind m (fun x => let 'pat := x in k))
  (at level 61, pat pattern, m at next level, right associativity) : prog_scope.
Notation "m ;;; k" := (bind m (fun _ => k))
  (at level 61, right associativity) : prog_scope.
Local Open Scope prog_scope.

(** Sum of two call families. *)
Inductive sumE (E F : Type -> Type) (R : Type) : Type :=
| inl1 (e : E R)
| inr1 (e : F R).
Arguments inl1 {E F R} e.
Arguments inr1 {E F R} e.

Definition hsum {E F : Type -> Type} {W1 W2}
           (h1 : handler E W1) (h2 : handler F W2)
  : handler (sumE E F) (W1 * W2) :=
  fun R e w =>
    match e with
    | inl1 e1 => let '(r, w1) := h1 R e1 (fst w) in (r, (w1, snd w))
    | inr1 e2 => let '(r, w2) := h2 R e2 (snd w) in (r, (fst w, w2))
    end.

(** ** CoreAudio data (CoreAudioTypes.h, AudioHardware.h, AudioUnit.h) *)

Definition noErr : Z := 0.

(** Four-character codes used as format identifiers. *)
Definition kAudioFormatLinearPCM : Z := 0x6C70636D. (* 'lpcm' *)
Definition kAudioFormatAC3 : Z := 0x61632D33.       (* 'ac-3' *)
Definition kAudioFormat60958AC3 : Z := 0x63616333.  (* 'cac3' *)
Definition fourcc_IAC3 : Z := 0x49414333.           (* 'IAC3' *)
Definition fourcc_iac3 : Z := 0x69616333.           (* 'iac3' *)

Definition kAudioFormatFlagIsFloat : Z := 1.
Definition kAudioFormatFlagIsBigEndian : Z := 2.
Definition kAudioFormatFlagIsSignedInteger : Z := 4.
Definition kAudioFormatFlagIsPacked : Z := 8.

Definition kAudioObjectSystemObject : Z := 1.

Record AudioStreamBasicDescription : Type := {
  mSampleRate : Q;
  mFormatID : Z;
  mFormatFlags : Z;
  mBytesPerPacket : Z;
  mFramesPerPacket : Z;
  mBytesPerFrame : Z;
  mChannelsPerFrame : Z;
  mBitsPerChannel : Z
}.

Definition asbd_zero : AudioStreamBasicDescription :=
  {| mSampleRate := 0%Q; mFormatID := 0; mFormatFlags := 0;
     mBytesPerPacket := 0; mFramesPerPacket := 0; mBytesPerFrame := 0;
     mChannelsPerFrame := 0; mBitsPerChannel := 0 |}.

Record AudioStreamRangedDescription : Type := {
  mFormat : AudioStreamBasicDescription;
  mSampleRateRange : Q * Q
}.

(** [mData] is the address of the first byte of the buffer. *)
Record AudioBuffer : Type := {
  mNumberChannels : Z;
  mDataByteSize : Z;
  mData : Z
}.

Definition set_mDataByteSize (v : Z) (b : AudioBuffer) : AudioBuffer :=
  {| mNumberChannels := mNumberChannels b; mDataByteSize := v;
     mData := mData b |}.

(** [AudioBuffer mBuffers[1]] followed by the further entries of the
    variable-length array: entry 0 is always part of the structure. *)
Record AudioBufferList : Type := {
  mNumberBuffers : Z;
  mBuffers0 : AudioBuffer;
  mBuffersRest : list AudioBuffer
}.

(** [mBuffers[i]]; [None] outside the array. *)
Definition mBuffers_at (l : AudioBufferList) (i : Z) : option AudioBuffer :=
  if i <? 0 then None
  else nth_error (mBuffers0 l :: mBuffersRest l) (Z.to_nat i).

Inductive AudioObjectPropertySelector : Type :=
| kAudioHardwarePropertyDevices
| kAudioHardwarePropertyDefaultOutputDevice
| kAudioObjectPropertyName
| kAudioDevicePropertyDeviceIsAlive
| kAudioDevicePropertyHogMode
| kAudioDevicePropertySupportsMixing
| kAudioDevicePropertyStreams
| kAudioDevicePropertyDeviceHasChanged
| kAudioStreamPropertyAvailablePhysicalFormats
| kAudioStreamPropertyPhysicalFormat.

Inductive AudioObjectPropertyScope : Type :=
| kAudioObjectPropertyScopeGlobal
| kAudioDevicePropertyScopeOutput.

Inductive AudioObjectPropertyElement : Type :=
| kAudioObjectPropertyElementMaster.

Record AudioObjectPropertyAddress : Type := {
  mSelector : AudioObjectPropertySelector;
  mScope : AudioObjectPropertyScope;
  mElement : AudioObjectPropertyElement
}.

(** What a property read or write carries. *)
Inductive propdata : Type :=
| PD_u32 (v : Z)
| PD_pid (v : Z)
| PD_asbd (f : AudioStreamBasicDescription)
| PD_cfstring (s : string)
| PD_ids (l : list Z)
| PD_formats (l : list AudioStreamRangedDescription).

(** Size in bytes of the data, as the framework reports it back. *)
Definition propdata_size (d : propdata) : Z :=
  match d with
  | PD_u32 _ => 4
  | PD_pid _ => 4
  | PD_asbd _ => 40
  | PD_cfstring _ => 8
  | PD_ids l => 4 * Z.of_nat (List.length l)
  | PD_formats l => 56 * Z.of_nat (List.length l)
  end.

Definition sizeof_AudioDeviceID : Z := 4.
Definition sizeof_AudioStreamID : Z := 4.
Definition sizeof_AudioStreamBasicDescription : Z := 40.
Definition sizeof_AudioStreamRangedDescription : Z := 56.
Definition sizeof_AURenderCallbackStruct : Z := 16.

(** The functions this driver hands to the framework. *)
Inductive callback : Type :=
| cb_render_cb_lpcm
| cb_render_cb_digital
| cb_ca_device_listener
| cb_ca_stream_listener.

Inductive AudioUnitPropertyID : Type :=
| kAudioUnitProperty_StreamFormat (asbd : AudioStreamBasicDescription)
| kAudioOutputUnitProperty_CurrentDevice (dev : Z)
| kAudioUnitProperty_SetRenderCallback (inputProc : callback).

Inductive AudioUnitScope : Type :=
| kAudioUnitScope_Global
| kAudioUnitScope_Input.

Inductive componentSubType : Type :=
| kAudioUnitSubType_SystemOutput
| kAudioUnitSubType_HALOutput.

(** ** The driver's own data (ao.h, ao_coreaudio.c) *)

Record mp_chmap : Type := {
  num : Z;
  speaker : list Z
}.

Record ao_control_vol_t : Type := {
  left : Float32;
  right : Float32
}.

Inductive aocontrol : Type :=
| AOCONTROL_GET_VOLUME
| AOCONTROL_SET_VOLUME
| AOCONTROL_other (code : Z).

Inductive msglevel : Type :=
| MSGL_FATAL | MSGL_ERR | MSGL_WARN | MSGL_V | MSGL_DBG2.

Record priv : Type := {
  i_selected_dev : Z;
  b_supports_digital : Z;
  b_digital : Z;
  b_muted : Z;
  renderCallback : Z;
  theOutputUnit : Z;
  i_hog_pid : Z;
  i_stream_id : Z;
  i_stream_index : Z;
  stream_format : AudioStreamBasicDescription;
  sfmt_revert : AudioStreamBasicDescription;
  b_revert : Z;
  b_changed_mixing : Z;
  b_stream_format_changed : Z;
  packetSize : Z;
  paused : Z;
  buffer : Z
}.

Record struct_ao : Type := {
  format : Z;
  channels : mp_chmap;
  samplerate : Z;
  bps : Z;
  per_application_mixer : bool;
  no_persistent_volume : bool;
  ao_priv : priv
}.

(** Field assignments [p->f = v]. *)

Definition set_i_selected_dev (v : Z) (p : priv) : priv :=
  {| i_selected_dev := v; b_supports_digital := b_supports_digital p;
     b_digital := b_digital p; b_muted := b_muted p; renderCallback :=
     renderCallback p; theOutputUnit := theOutputUnit p; i_hog_pid :=
     i_hog_pid p; i_stream_id := i_stream_id p; i_stream_index :=
     i_stream_index p; stream_format := stream_format p; sfmt_revert :=
     sfmt_revert p; b_revert := b_revert p; b_changed_mixing :=
     b_changed_mixing p; b_stream_format_changed :=
     b_stream_format_changed p; packetSize := packetSize p; paused :=
     paused p; buffer := buffer p |}.

Definition set_b_supports_digital (v : Z) (p : priv) : priv :=
  {| i_selected_dev := i_selected_dev p; b_supports_digital := v;
     b_digital := b_digital p; b_muted := b_muted p; renderCallback :=
     renderCallback p; theOutputUnit := theOutputUnit p; i_hog_pid :=
     i_hog_pid p; i_stream_id := i_stream_id p; i_stream_index :=
     i_stream_index p; stream_format := stream_format p; sfmt_revert :=
     sfmt_revert p; b_revert := b_revert p; b_changed_mixing :=
     b_changed_mixing p; b_stream_format_changed :=
     b_stream_format_changed p; packetSize := packetSize p; paused :=
     paused p; buffer := buffer p |}.

Definition set_b_digital (v : Z) (p : priv) : priv :=
  {| i_selected_dev := i_selected_dev p; b_supports_digital :=
     b_supports_digital p; b_digital := v; b_muted := b_muted p;
     renderCallback := renderCallback p; theOutputUnit := theOutputUnit p;
     i_hog_pid := i_hog_pid p; i_stream_id := i_stream_id p;
     i_stream_index := i_stream_index p; stream_format := stream_format p;
     sfmt_revert := sfmt_revert p; b_revert := b_revert p;
     b_changed_mixing := b_changed_mixing p; b_stream_format_changed :=
     b_stream_format_changed p; packetSize := packetSize p; paused :=
     paused p; buffer := buffer p |}.

Definition set_b_muted (v : Z) (p : priv) : priv :=
  {| i_selected_dev := i_selected_dev p; b_supports_digital :=
     b_supports_digital p; b_digital := b_digital p; b_muted := v;
     renderCallback := renderCallback p; theOutputUnit := theOutputUnit p;
     i_hog_pid := i_hog_pid p; i_stream_id := i_stream_id p;
     i_stream_index := i_stream_index p; stream_format := stream_format p;
     sfmt_revert := sfmt_revert p; b_revert := b_revert p;
     b_changed_mixing := b_changed_mixing p; b_stream_format_changed :=
     b_stream_format_changed p; packetSize := packetSize p; paused :=
     paused p; buffer := buffer p |}.

Definition set_renderCallback (v : Z) (p : priv) : priv :=
  {| i_selected_dev := i_selected_dev p; b_supports_digital :=
     b_supports_digital p; b_digital := b_digital p; b_muted := b_muted p;
     renderCallback := v; theOutputUnit := theOutputUnit p; i_hog_pid :=
     i_hog_pid p; i_stream_id := i_stream_id p; i_stream_index :=
     i_stream_index p; stream_format := stream_format p; sfmt_revert :=
     sfmt_revert p; b_revert := b_revert p; b_changed_mixing :=
     b_changed_mixing p; b_stream_format_changed :=
     b_stream_format_changed p; packetSize := packetSize p; paused :=
     paused p; buffer := buffer p |}.

Definition set_theOutputUnit (v : Z) (p : priv) : priv :=
  {| i_selected_dev := i_selected_dev p; b_supports_digital :=
     b_supports_digital p; b_digital := b_digital p; b_muted := b_muted p;
     renderCallback := renderCallback p; theOutputUnit := v; i_hog_pid :=
     i_hog_pid p; i_stream_id := i_stream_id p; i_stream_index :=
     i_stream_index p; stream_format := stream_format p; sfmt_revert :=
     sfmt_revert p; b_revert := b_revert p; b_changed_mixing :=
     b_changed_mixing p; b_stream_format_changed :=
     b_stream_format_changed p; packetSize := packetSize p; paused :=
     paused p; buffer := buffer p |}.

Definition set_i_hog_pid (v : Z) (p : priv) : priv :=
  {| i_selected_dev := i_selected_dev p; b_supports_digital :=
     b_supports_digital p; b_digital := b_digital p; b_muted := b_muted p;
     renderCallback := renderCallback p; theOutputUnit := theOutputUnit p;
     i_hog_pid := v; i_stream_id := i_stream_id p; i_stream_index :=
     i_stream_index p; stream_format := stream_format p; sfmt_revert :=
     sfmt_revert p; b_revert := b_revert p; b_changed_mixing :=
     b_changed_mixing p; b_stream_format_changed :=
     b_stream_format_changed p; packetSize := packetSize p; paused :=
     paused p; buffer := buffer p |}.

Definition set_i_stream_id (v : Z) (p : priv) : priv :=
  {| i_selected_dev := i_selected_dev p; b_supports_digital :=
     b_supports_digital p; b_digital := b_digital p; b_muted := b_muted p;
     renderCallback := renderCallback p; theOutputUnit := theOutputUnit p;
     i_hog_pid := i_hog_pid p; i_stream_id := v; i_stream_index :=
     i_stream_index p; stream_format := stream_format p; sfmt_revert :=
     sfmt_revert p; b_revert := b_revert p; b_changed_mixing :=
     b_changed_mixing p; b_stream_format_changed :=
     b_stream_format_changed p; packetSize := packetSize p; paused :=
     paused p; buffer := buffer p |}.

Definition set_i_stream_index (v : Z) (p : priv) : priv :=
  {| i_selected_dev := i_selected_dev p; b_supports_digital :=
     b_supports_digital p; b_digital := b_digital p; b_muted := b_muted p;
     renderCallback := renderCallback p; theOutputUnit := theOutputUnit p;
     i_hog_pid := i_hog_pid p; i_stream_id := i_stream_id p;
     i_stream_index := v; stream_format := stream_format p; sfmt_revert :=
     sfmt_revert p; b_revert := b_revert p; b_changed_mixing :=
     b_changed_mixing p; b_stream_format_changed :=
     b_stream_format_changed p; packetSize := packetSize p; paused :=
     paused p; buffer := buffer p |}.

Definition set_stream_format (v : AudioStreamBasicDescription) (p : priv) : priv :=
  {| i_selected_dev := i_selected_dev p; b_supports_digital :=
     b_supports_digital p; b_digital := b_digital p; b_muted := b_muted p;
     renderCallback := renderCallback p; theOutputUnit := theOutputUnit p;
     i_hog_pid := i_hog_pid p; i_stream_id := i_stream_id p;
     i_stream_index := i_stream_index p; stream_format := v; sfmt_revert
     := sfmt_revert p; b_revert := b_revert p; b_changed_mixing :=
     b_changed_mixing p; b_stream_format_changed :=
     b_stream_format_changed p; packetSize := packetSize p; paused :=
     paused p; buffer := buffer p |}.

Definition set_sfmt_revert (v : AudioStreamBasicDescription) (p : priv) : priv :=
  {| i_selected_dev := i_selected_dev p; b_supports_digital :=
     b_supports_digital p; b_digital := b_digital p; b_muted := b_muted p;
     renderCallback := renderCallback p; theOutputUnit := theOutputUnit p;
     i_hog_pid := i_hog_pid p; i_stream_id := i_stream_id p;
     i_stream_index := i_stream_index p; stream_format := stream_format p;
     sfmt_revert := v; b_revert := b_revert p; b_changed_mixing :=
     b_changed_mixing p; b_stream_format_changed :=
     b_stream_format_changed p; packetSize := packetSize p; paused :=
     paused p; buffer := buffer p |}.

Definition set_b_revert (v : Z) (p : priv) : priv :=
  {| i_selected_dev := i_selected_dev p; b_supports_digital :=
     b_supports_digital p; b_digital := b_digital p; b_muted := b_muted p;
     renderCallback := renderCallback p; theOutputUnit := theOutputUnit p;
     i_hog_pid := i_hog_pid p; i_stream_id := i_stream_id p;
     i_stream_index := i_stream_index p; stream_format := stream_format p;
     sfmt_revert := sfmt_revert p; b_revert := v; b_changed_mixing :=
     b_changed_mixing p; b_stream_format_changed :=
     b_stream_format_changed p; packetSize := packetSize p; paused :=
     paused p; buffer := buffer p |}.

Definition set_b_changed_mixing (v : Z) (p : priv) : priv :=
  {| i_selected_dev := i_selected_dev p; b_supports_digital :=
     b_supports_digital p; b_digital := b_digital p; b_muted := b_muted p;
     renderCallback := renderCallback p; theOutputUnit := theOutputUnit p;
     i_hog_pid := i_hog_pid p; i_stream_id := i_stream_id p;
     i_stream_index := i_stream_index p; stream_format := stream_format p;
     sfmt_revert := sfmt_revert p; b_revert := b_revert p;
     b_changed_mixing := v; b_stream_format_changed :=
     b_stream_format_changed p; packetSize := packetSize p; paused :=
     paused p; buffer := buffer p |}.

Definition set_b_stream_format_changed (v : Z) (p : priv) : priv :=
  {| i_selected_dev := i_selected_dev p; b_supports_digital :=
     b_supports_digital p; b_digital := b_digital p; b_muted := b_muted p;
     renderCallback := renderCallback p; theOutputUnit := theOutputUnit p;
     i_hog_pid := i_hog_pid p; i_stream_id := i_stream_id p;
     i_stream_index := i_stream_index p; stream_format := stream_format p;
     sfmt_revert := sfmt_revert p; b_revert := b_revert p;
     b_changed_mixing := b_changed_mixing p; b_stream_format_changed := v;
     packetSize := packetSize p; paused := paused p; buffer := buffer p |}.

Definition set_packetSize (v : Z) (p : priv) : priv :=
  {| i_selected_dev := i_selected_dev p; b_supports_digital :=
     b_supports_digital p; b_digital := b_digital p; b_muted := b_muted p;
     renderCallback := renderCallback p; theOutputUnit := theOutputUnit p;
     i_hog_pid := i_hog_pid p; i_stream_id := i_stream_id p;
     i_stream_index := i_stream_index p; stream_format := stream_format p;
     sfmt_revert := sfmt_revert p; b_revert := b_revert p;
     b_changed_mixing := b_changed_mixing p; b_stream_format_changed :=
     b_stream_format_changed p; packetSize := v; paused := paused p;
     buffer := buffer p |}.

Definition set_paused (v : Z) (p : priv) : priv :=
  {| i_selected_dev := i_selected_dev p; b_supports_digital :=
     b_supports_digital p; b_digital := b_digital p; b_muted := b_muted p;
     renderCallback := renderCallback p; theOutputUnit := theOutputUnit p;
     i_hog_pid := i_hog_pid p; i_stream_id := i_stream_id p;
     i_stream_index := i_stream_index p; stream_format := stream_format p;
     sfmt_revert := sfmt_revert p; b_revert := b_revert p;
     b_changed_mixing := b_changed_mixing p; b_stream_format_changed :=
     b_stream_format_changed p; packetSize := packetSize p; paused := v;
     buffer := buffer p |}.

Definition set_buffer (v : Z) (p : priv) : priv :=
  {| i_selected_dev := i_selected_dev p; b_supports_digital :=
     b_supports_digital p; b_digital := b_digital p; b_muted := b_muted p;
     renderCallback := renderCallback p; theOutputUnit := theOutputUnit p;
     i_hog_pid := i_hog_pid p; i_stream_id := i_stream_id p;
     i_stream_index := i_stream_index p; stream_format := stream_format p;
     sfmt_revert := sfmt_revert p; b_revert := b_revert p;
     b_changed_mixing := b_changed_mixing p; b_stream_format_changed :=
     b_stream_format_changed p; packetSize := packetSize p; paused :=
     paused p; buffer := v |}.


(** Field assignments [ao->f = v]. *)

Definition set_format (v : Z) (a : struct_ao) : struct_ao :=
  {| format := v; channels := channels a; samplerate := samplerate a; bps
     := bps a; per_application_mixer := per_application_mixer a;
     no_persistent_volume := no_persistent_volume a; ao_priv := ao_priv a
     |}.

Definition set_channels (v : mp_chmap) (a : struct_ao) : struct_ao :=
  {| format := format a; channels := v; samplerate := samplerate a; bps :=
     bps a; per_application_mixer := per_application_mixer a;
     no_persistent_volume := no_persistent_volume a; ao_priv := ao_priv a
     |}.

Definition set_samplerate (v : Z) (a : struct_ao) : struct_ao :=
  {| format := format a; channels := channels a; samplerate := v; bps :=
     bps a; per_application_mixer := per_application_mixer a;
     no_persistent_volume := no_persistent_volume a; ao_priv := ao_priv a
     |}.

Definition set_bps (v : Z) (a : struct_ao) : struct_ao :=
  {| format := format a; channels := channels a; samplerate := samplerate
     a; bps := v; per_application_mixer := per_application_mixer a;
     no_persistent_volume := no_persistent_volume a; ao_priv := ao_priv a
     |}.

Definition set_per_application_mixer (v : bool) (a : struct_ao) : struct_ao :=
  {| format := format a; channels := channels a; samplerate := samplerate
     a; bps := bps a; per_application_mixer := v; no_persistent_volume :=
     no_persistent_volume a; ao_priv := ao_priv a |}.

Definition set_no_persistent_volume (v : bool) (a : struct_ao) : struct_ao :=
  {| format := format a; channels := channels a; samplerate := samplerate
     a; bps := bps a; per_application_mixer := per_application_mixer a;
     no_persistent_volume := v; ao_priv := ao_priv a |}.

Definition set_ao_priv (v : priv) (a : struct_ao) : struct_ao :=
  {| format := format a; channels := channels a; samplerate := samplerate
     a; bps := bps a; per_application_mixer := per_application_mixer a;
     no_persistent_volume := no_persistent_volume a; ao_priv := v |}.


(** [ao->priv->f = v], through a field assignment of [priv]. *)
Definition upd_priv (f : priv -> priv) (a : struct_ao) : struct_ao :=
  set_ao_priv (f (ao_priv a)) a.

(** [struct mp_chmap_sel] is opaque to the driver: only its words travel. *)
Record mp_chmap_sel : Type := {
  chmap_sel_words : list Z
}.

(** ** External calls *)

(** core/mp_ring.h.  A ring buffer is known by its address; [dest] and [src]
    are addresses of the caller's bytes. *)
Inductive ringE : Type -> Type :=
| mp_ring_new (size : Z) : ringE Z
| mp_ring_read (buffer dest len : Z) : ringE Z
| mp_ring_drain (buffer len : Z) : ringE Z
| mp_ring_write (buffer src len : Z) : ringE Z
| mp_ring_reset (buffer : Z) : ringE unit
| mp_ring_available (buffer : Z) : ringE Z
| mp_ring_buffered (buffer : Z) : ringE Z
| mp_ring_repr (buffer : Z) : ringE string.

(** An argument of a message: a string for [%s], a double for [%f], an
    unsigned 32-bit number for [%u]. *)
Inductive msg_arg : Type :=
| arg_s (s : string)
| arg_f (q : Q)
| arg_u (z : Z).

(** The CoreAudio framework, the C library and the player's helpers.  A call
    that fills an out-parameter answers with the value found there after
    the call.  [mp_msg] stands for a message by its format alone, [mp_msg_a]
    for one with the arguments passed for its directives.
    [uninitialized_asbd] is no call: it stands for reading a local
    AudioStreamBasicDescription that nothing has written, whose value is
    indeterminate and so is the environment's to choose. *)
Inductive sysE : Type -> Type :=
| mp_msg (lev : msglevel) (text : string) : sysE unit
| mp_msg_a (lev : msglevel) (text : string) (args : list msg_arg)
  : sysE unit
| uninitialized_asbd : sysE AudioStreamBasicDescription
| mp_sleep_us (us : Z) : sysE unit
| subopt_parse (params : string) : sysE (Z * Z * Z)
| mp_chmap_sel_add_waveext (s : mp_chmap_sel) : sysE mp_chmap_sel
| ao_chmap_sel_adjust (s : mp_chmap_sel) (map : mp_chmap)
  : sysE (bool * mp_chmap)
| ao_chmap_sel_get_def (s : mp_chmap_sel) (map : mp_chmap) (n : Z)
  : sysE (bool * mp_chmap)
| mp_chmap_from_channels (n : Z) : sysE mp_chmap
| AudioDeviceSupportsDigital (dev : Z) : sysE Z
| AudioStreamSupportsDigital (stream : Z) : sysE Z
| getpid : sysE Z
| read_stream_format_changed : sysE Z
| write_stream_format_changed (v : Z) : sysE unit
| AudioObjectGetPropertyDataSize (id : Z) (addr : AudioObjectPropertyAddress)
  : sysE (Z * Z)
| AudioObjectGetPropertyData (id : Z) (addr : AudioObjectPropertyAddress)
                             (ioSize : Z)
  : sysE (Z * option propdata)
| AudioObjectSetPropertyData (id : Z) (addr : AudioObjectPropertyAddress)
                             (size : Z) (data : propdata)
  : sysE Z
| AudioObjectHasProperty (id : Z) (addr : AudioObjectPropertyAddress)
  : sysE bool
| AudioObjectIsPropertySettable (id : Z) (addr : AudioObjectPropertyAddress)
  : sysE (Z * Z)
| AudioObjectAddPropertyListener (id : Z) (addr : AudioObjectPropertyAddress)
                                 (listener : callback)
  : sysE Z
| AudioObjectRemovePropertyListener (id : Z)
                                    (addr : AudioObjectPropertyAddress)
                                    (listener : callback)
  : sysE Z
| AudioComponentFindNext (sub : componentSubType) : sysE Z
| AudioComponentInstanceNew (comp : Z) : sysE (Z * Z)
| AudioComponentInstanceDispose (unit_ : Z) : sysE Z
| AudioUnitInitialize (unit_ : Z) : sysE Z
| AudioUnitUninitialize (unit_ : Z) : sysE Z
| AudioUnitSetProperty (unit_ : Z) (prop : AudioUnitPropertyID)
                       (scope : AudioUnitScope) (elem size : Z)
  : sysE Z
| AudioUnitGetParameter (unit_ : Z) : sysE (Z * Float32)
| AudioUnitSetParameter (unit_ : Z) (vol : Float32) : sysE Z
| AudioOutputUnitStart (unit_ : Z) : sysE Z
| AudioOutputUnitStop (unit_ : Z) : sysE Z
| AudioDeviceStart (dev proc : Z) : sysE Z
| AudioDeviceStop (dev proc : Z) : sysE Z
| AudioDeviceCreateIOProcID (dev : Z) (proc : callback) : sysE (Z * Z)
| AudioDeviceDestroyIOProcID (dev proc : Z) : sysE Z.

Definition call : Type -> Type := sumE ringE sysE.

Definition ring {R} (e : ringE R) : prog call R := trigger (inl1 e).
Definition sys {R} (e : sysE R) : prog call R := trigger (inr1 e).

(** ** Constants and pure helpers of headers that are not part of the
       sources at hand (ao.h, audio/format.h, config.h) *)

Class Headers : Type := {
  CONTROL_OK : Z;
  CONTROL_TRUE : Z;
  CONTROL_FALSE : Z;
  CONTROL_UNKNOWN : Z;
  CONTROL_ERROR : Z;
  AF_FORMAT_POINT_MASK : Z;
  AF_FORMAT_F : Z;
  AF_FORMAT_SIGN_MASK : Z;
  AF_FORMAT_SI : Z;
  AF_FORMAT_END_MASK : Z;
  AF_FORMAT_BE : Z;
  AF_FORMAT_AC3_LE : Z;
  AF_FORMAT_IS_AC3 : Z -> bool;
  af_fmt2bits : Z -> Z;
  (** format, seconds, channels, sample rate *)
  af_fmt_seconds_to_bytes : Z -> Q -> Z -> Z -> Z;
  (** [BYTE_ORDER == BIG_ENDIAN] *)
  BYTE_ORDER_BIG_ENDIAN : bool
}.

(** Modelled from the spec: audio/format.c, which defines
    af_fmt_seconds_to_bytes, is missing.  "Capacity is derived externally
    from a target duration (e.g. 0.5s) times the stream's byte rate
    ([sampleRate * bytesPerFrame])", a frame holding one sample of [bits]
    bits for each channel; the product is cut to a whole number of
    bytes. *)
Definition seconds_to_bytes (bits : Z) (seconds : Q) (channels samplerate : Z)
  : Z :=
  Qtrunc (seconds * inject_Z (samplerate * (channels * (bits / 8)))).

(** The headers size by the rule of the specification. *)
Definition sized_by_byte_rate {H : Headers} : Prop :=
  forall format seconds channels samplerate,
    af_fmt_seconds_to_bytes format seconds channels samplerate
    = seconds_to_bytes (af_fmt2bits format) seconds channels samplerate.

(** ** ao_coreaudio_common.c *)

Definition ca_msg (a : msglevel) (b : string) : prog call unit :=
  sys (mp_msg a ("AO: [coreaudio] " ++ b)).

(** [ca_msg] with the arguments passed after the format. *)
Definition ca_msg_a (a : msglevel) (b : string) (args : list msg_arg)
  : prog call unit :=
  sys (mp_msg_a a ("AO: [coreaudio] " ++ b) args).

(** Value of a [char] holding the byte [b] (a signed 8-bit type). *)
Definition char_of (b : Z) : Z := if b <? 128 then b else b - 256.

(** [isprint] in the C locale. *)
Definition isprint (c : Z) : bool := (32 <=? c) && (c <=? 126).

(** The four bytes [fcc] of a code, most significant first. *)
Definition fcc_of (code : Z) : list Z :=
  [Z.land (Z.shiftr code 24) 0xFF; Z.land (Z.shiftr code 16) 0xFF;
   Z.land (Z.shiftr code 8) 0xFF; Z.land code 0xFF].

(** [%d] applied to a 32-bit value. *)
Definition printf_d (v : Z) : string :=
  NilZero.string_of_int (Z.to_int (int_of v)).

(** Extract FourCC letters from the uint32_t and find out if it's a valid
    code that is made of letters. *)
Definition fourcc_repr (code : Z) : string :=
  let fcc := map char_of (fcc_of code) in
  let valid_fourcc := forallb isprint fcc in
  if valid_fourcc then
    String "'" (string_of_list_ascii
                  (map (fun c => ascii_of_N (Z.to_N c)) fcc) ++ "'")
  else printf_d code.

Definition kAudioFormatFlagIsAlignedHigh : Z := 16.
Definition kAudioFormatFlagIsNonInterleaved : Z := 32.

(** The six words ca_print_asbd derives from the format flags. *)
Definition asbd_flag_words (flags : Z) : list string :=
  [if truthy (Z.land flags kAudioFormatFlagIsFloat) then "float" else "int";
   if truthy (Z.land flags kAudioFormatFlagIsBigEndian) then "BE" else "LE";
   if truthy (Z.land flags kAudioFormatFlagIsSignedInteger)
   then "S" else "U";
   if truthy (Z.land flags kAudioFormatFlagIsPacked)
   then " packed" else EmptyString;
   if truthy (Z.land flags kAudioFormatFlagIsAlignedHigh)
   then " aligned" else EmptyString;
   if truthy (Z.land flags kAudioFormatFlagIsNonInterleaved)
   then " P" else EmptyString].

Definition check_ca_st (level : msglevel) (code : Z) (message : string)
  : prog call bool :=
  if code =? noErr then Ret true
  else
    let error_string := fourcc_repr (UInt32_of code) in
    ca_msg_a level "%s (%s)\n" [arg_s message; arg_s error_string] ;;;
    Ret false.

Definition ca_print_asbd (description : string)
           (asbd : AudioStreamBasicDescription) : prog call unit :=
  let flags := mFormatFlags asbd in
  let format := fourcc_repr (mFormatID asbd) in
  ca_msg_a MSGL_V
    "%s %7.1fHz %ubit [%s][%u][%u][%u][%u][%u] %s %s %s%s%s%s\n"
    ([arg_s description; arg_f (mSampleRate asbd);
      arg_u (mBitsPerChannel asbd); arg_s format;
      arg_u (mFormatFlags asbd); arg_u (mBytesPerPacket asbd);
      arg_u (mFramesPerPacket asbd); arg_u (mBytesPerFrame asbd);
      arg_u (mChannelsPerFrame asbd)]
       ++ map arg_s (asbd_flag_words flags))%list.

Definition global_addr (selector : AudioObjectPropertySelector)
  : AudioObjectPropertyAddress :=
  {| mSelector := selector; mScope := kAudioObjectPropertyScopeGlobal;
     mElement := kAudioObjectPropertyElementMaster |}.

Definition GetAudioProperty (id : Z) (selector : AudioObjectPropertySelector)
           (outSize : Z) : prog call (Z * option propdata) :=
  sys (AudioObjectGetPropertyData id (global_addr selector) outSize).

(** Returns the byte size the framework reports together with the array;
    size 0 stands for failure.  An array the framework claims to have
    written but did not is indeterminate. *)
Definition GetAudioPropertyArray (id : Z)
           (selector : AudioObjectPropertySelector)
           (scope : AudioObjectPropertyScope)
  : prog call (Z * propdata) :=
  let p_addr := {| mSelector := selector; mScope := scope;
                   mElement := kAudioObjectPropertyElementMaster |} in
  '(err, p_size) <- sys (AudioObjectGetPropertyDataSize id p_addr) ;;
  ok <- check_ca_st MSGL_ERR err "Can't fetch property size" ;;
  if negb ok then Ret (0, PD_ids [])
  else
    '(err, data) <- sys (AudioObjectGetPropertyData id p_addr
                                                    (UInt32_of p_size)) ;;
    ok <- check_ca_st MSGL_ERR err "Can't fetch property data %s" ;;
    if negb ok then Ret (0, PD_ids [])
    else
      match data with
      | Some d => Ret (UInt32_of (propdata_size d), d)
      | None => Undef
      end.

Definition GetGlobalAudioPropertyArray (id : Z)
           (selector : AudioObjectPropertySelector)
  : prog call (Z * propdata) :=
  GetAudioPropertyArray id selector kAudioObjectPropertyScopeGlobal.

(** Returns the status and the C string; the string is only meaningful when
    the status is [noErr]. *)
Definition GetAudioPropertyString (id : Z)
           (selector : AudioObjectPropertySelector)
  : prog call (Z * string) :=
  '(err, data) <- sys (AudioObjectGetPropertyData id (global_addr selector)
                                                  8) ;;
  ok <- check_ca_st MSGL_ERR err "Can't fetch array property" ;;
  if negb ok then Ret (err, EmptyString)
  else
    match data with
    | Some (PD_cfstring s) => Ret (err, s)
    | _ => Undef
    end.

Definition SetAudioProperty (id : Z) (selector : AudioObjectPropertySelector)
           (inDataSize : Z) (inData : propdata) : prog call Z :=
  sys (AudioObjectSetPropertyData id (global_addr selector) inDataSize
                                  inData).

(** The C function returns the framework's status narrowed to [Boolean];
    the second component is [*outData] after the call. *)
Definition IsAudioPropertySettable (id : Z)
           (selector : AudioObjectPropertySelector) : prog call (Z * Z) :=
  '(st, out) <- sys (AudioObjectIsPropertySettable id
                                                   (global_addr selector)) ;;
  Ret (st mod 2 ^ 8, out).

(** Out-parameter decoding: data of another kind leaves the variable as it
    was. *)
Definition as_u32 (old : Z) (d : option propdata) : Z :=
  match d with Some (PD_u32 v) => UInt32_of v | _ => old end.

Definition as_pid (old : Z) (d : option propdata) : Z :=
  match d with Some (PD_pid v) => int_of v | _ => old end.

Definition as_asbd (old : AudioStreamBasicDescription) (d : option propdata)
  : AudioStreamBasicDescription :=
  match d with Some (PD_asbd f) => f | _ => old end.

(** ** ao_coreaudio.c *)

Definition print_buffer (buffer : Z) : prog call unit :=
  s <- ring (mp_ring_repr buffer) ;;
  ca_msg MSGL_V "%s\n".

(** What a render callback leaves behind: its status, the caller's buffer
    list as it is after the call, and the final value of the local [buf]. *)
Record cb_frame : Type := {
  cb_status : Z;
  cb_buffer_list : AudioBufferList;
  cb_buf : AudioBuffer
}.

Definition render_cb_lpcm (ctx : struct_ao) (aflags ts bus frames : Z)
           (buffer_list : AudioBufferList) : prog call cb_frame :=
  let ao := ctx in
  let p := ao_priv ao in
  let requested := int_of (UInt32_of (frames * UInt32_of (packetSize p))) in
  let buf := mBuffers0 buffer_list in
  got <- ring (mp_ring_read (buffer p) (mData buf) requested) ;;
  let buf := set_mDataByteSize (UInt32_of got) buf in
  Ret {| cb_status := noErr; cb_buffer_list := buffer_list; cb_buf := buf |}.

Definition render_cb_digital (device ts in_data in_ts : Z)
           (out_data : AudioBufferList) (out_ts : Z) (ctx : struct_ao)
  : prog call cb_frame :=
  let ao := ctx in
  let p := ao_priv ao in
  match mBuffers_at out_data (i_stream_index p) with
  | None => Undef
  | Some buf =>
      let requested := int_of (mDataByteSize buf) in
      (if truthy (b_muted p)
       then ring (mp_ring_drain (buffer p) requested)
       else ring (mp_ring_read (buffer p) (mData buf) requested)) ;;;
      Ret {| cb_status := noErr; cb_buffer_list := out_data; cb_buf := buf |}
  end.

(** stop playing, keep buffers (for pause) *)
Definition audio_pause (ao : struct_ao) : prog call struct_ao :=
  let p := ao_priv ao in
  (if negb (truthy (b_digital p)) then
     err <- sys (AudioOutputUnitStop (theOutputUnit p)) ;;
     let err := OSErr_of err in
     if negb (err =? noErr)
     then ca_msg MSGL_WARN "AudioOutputUnitStop returned [%4.4s]\n"
     else Ret tt
   else
     err <- sys (AudioDeviceStop (i_selected_dev p) (renderCallback p)) ;;
     let err := OSErr_of err in
     if negb (err =? noErr)
     then ca_msg MSGL_WARN "AudioDeviceStop failed: [%4.4s]\n"
     else Ret tt) ;;;
  Ret (upd_priv (set_paused 1) ao).

(** resume playing, after audio_pause() *)
Definition audio_resume (ao : struct_ao) : prog call struct_ao :=
  let p := ao_priv ao in
  if negb (truthy (paused p)) then Ret ao
  else
    (if negb (truthy (b_digital p)) then
       err <- sys (AudioOutputUnitStart (theOutputUnit p)) ;;
       let err := OSErr_of err in
       if negb (err =? noErr)
       then ca_msg MSGL_WARN "AudioOutputUnitStart returned [%4.4s]\n"
       else Ret tt
     else
       err <- sys (AudioDeviceStart (i_selected_dev p) (renderCallback p)) ;;
       let err := OSErr_of err in
       if negb (err =? noErr)
       then ca_msg MSGL_WARN "AudioDeviceStart failed: [%4.4s]\n"
       else Ret tt) ;;;
    Ret (upd_priv (set_paused 0) ao).

(** set variables and buffer to initial state *)
Definition reset (ao : struct_ao) : prog call struct_ao :=
  ao <- audio_pause ao ;;
  let p := ao_priv ao in
  ring (mp_ring_reset (buffer p)) ;;;
  Ret ao.

(** return available space *)
Definition get_space (ao : struct_ao) : prog call Z :=
  let p := ao_priv ao in
  ring (mp_ring_available (buffer p)).

(** [for (j = 0; !stream_format_changed && j < 50; ++j) mp_sleep_us(10000);]
    with [left_] the iterations [j] still has before 50. *)
Fixpoint wait_stream_format_changed (left_ : nat) : prog call unit :=
  changed <- sys read_stream_format_changed ;;
  if truthy changed then Ret tt
  else
    match left_ with
    | O => Ret tt
    | S n => sys (mp_sleep_us 10000) ;;; wait_stream_format_changed n
    end.

Definition same_format (a b : AudioStreamBasicDescription) : bool :=
  Qeq_bool (mSampleRate a) (mSampleRate b)
  && (mFormatID a =? mFormatID b)
  && (mFramesPerPacket a =? mFramesPerPacket b).

(** [for (i = 0; i < 5; ++i) { ... }] of AudioStreamChangeFormat, with
    [left_] the iterations [i] still has before 5. *)
Fixpoint check_format_active (left_ : nat) (i_stream_id : Z)
         (change_format : AudioStreamBasicDescription) : prog call unit :=
  match left_ with
  | O => Ret tt
  | S n =>
      wait_stream_format_changed 50 ;;;
      changed <- sys read_stream_format_changed ;;
      (if truthy changed then sys (write_stream_format_changed 0)
       else ca_msg MSGL_V "reached timeout\n") ;;;
      '(err, data) <- GetAudioProperty i_stream_id
                        kAudioStreamPropertyPhysicalFormat
                        sizeof_AudioStreamBasicDescription ;;
      actual_format <- match data with
                       | Some (PD_asbd v) => Ret v
                       | _ => sys uninitialized_asbd
                       end ;;
      ca_print_asbd "actual format in use:" actual_format ;;;
      if same_format actual_format change_format then Ret tt
      else check_format_active n i_stream_id change_format
  end.

(** [vol * 100.0 / 4.0], stored in a [float]: [vol] is promoted, the
    product and the quotient are taken in [double], the assignment
    rounds. *)
Definition volume_of_parameter (vol : Float32) : Float32 :=
  float_of_double
    (double_div (double_mul (double_of_float vol) (double_of_int 100))
                (double_of_int 4)).

(** [(control_vol->left + control_vol->right) * 4.0 / 200.0], stored in
    the Float32 [vol]: the sum is a [float] sum, the rest is taken in
    [double], the assignment rounds. *)
Definition parameter_of_volumes (l r : Float32) : Float32 :=
  float_of_double
    (double_div (double_mul (double_of_float (float_add l r))
                            (double_of_int 4))
                (double_of_int 200)).

Section Driver.
Context {H : Headers}.

Definition control (ao : struct_ao) (cmd : aocontrol) (arg : ao_control_vol_t)
  : prog call (Z * struct_ao * ao_control_vol_t) :=
  let p := ao_priv ao in
  match cmd with
  | AOCONTROL_GET_VOLUME =>
      let control_vol := arg in
      if truthy (b_digital p) then
        let vol := if truthy (b_muted p) then 0 else 100 in
        Ret (CONTROL_TRUE, ao,
             {| left := float_of_int vol; right := float_of_int vol |})
      else
        '(err, vol) <- sys (AudioUnitGetParameter (theOutputUnit p)) ;;
        ok <- check_ca_st MSGL_ERR err "could not get HAL output volume" ;;
        if negb ok then Ret (CONTROL_ERROR, ao, control_vol)
        else
          let v := volume_of_parameter vol in
          Ret (CONTROL_TRUE, ao, {| left := v; right := v |})
  | AOCONTROL_SET_VOLUME =>
      let control_vol := arg in
      if truthy (b_digital p) then
        let ao :=
          if float_eqb (left control_vol) (float_of_int 0)
             && float_eqb (right control_vol) (float_of_int 0)
          then upd_priv (set_b_muted 1) ao
          else upd_priv (set_b_muted 0) ao in
        Ret (CONTROL_TRUE, ao, control_vol)
      else
        let vol :=
          parameter_of_volumes (left control_vol) (right control_vol) in
        err <- sys (AudioUnitSetParameter (theOutputUnit p) vol) ;;
        ok <- check_ca_st MSGL_ERR err "could not set HAL output volume" ;;
        if negb ok then Ret (CONTROL_ERROR, ao, control_vol)
        else Ret (CONTROL_TRUE, ao, control_vol)
  | AOCONTROL_other _ => Ret (CONTROL_UNKNOWN, ao, arg)
  end.

(** AudioStreamChangeFormat: Change i_stream_id to change_format *)
Definition AudioStreamChangeFormat (i_stream_id : Z)
           (change_format : AudioStreamBasicDescription) : prog call Z :=
  sys (write_stream_format_changed 0) ;;;
  ca_print_asbd "setting stream format:" change_format ;;;
  let p_addr := global_addr kAudioStreamPropertyPhysicalFormat in
  err <- sys (AudioObjectAddPropertyListener i_stream_id p_addr
                                             cb_ca_stream_listener) ;;
  if negb (err =? noErr) then
    ca_msg MSGL_WARN "AudioStreamAddPropertyListener failed: [%4.4s]\n" ;;;
    Ret CONTROL_FALSE
  else
    err <- SetAudioProperty i_stream_id kAudioStreamPropertyPhysicalFormat
                            sizeof_AudioStreamBasicDescription
                            (PD_asbd change_format) ;;
    if negb (err =? noErr) then
      ca_msg MSGL_WARN "could not set the stream format: [%4.4s]\n" ;;;
      Ret CONTROL_FALSE
    else
      check_format_active 5 i_stream_id change_format ;;;
      err <- sys (AudioObjectRemovePropertyListener i_stream_id p_addr
                                                    cb_ca_stream_listener) ;;
      if negb (err =? noErr) then
        ca_msg MSGL_WARN
               "AudioStreamRemovePropertyListener failed: [%4.4s]\n" ;;;
        Ret CONTROL_FALSE
      else Ret CONTROL_TRUE.

(** The first statement of [play]: check whether we need to reset the
    digital output stream. *)
Definition play_restore_digital (ao : struct_ao) : prog call struct_ao :=
  let p := ao_priv ao in
  if truthy (b_digital p) && truthy (b_stream_format_changed p) then
    let ao := upd_priv (set_b_stream_format_changed 0) ao in
    let p := ao_priv ao in
    b_digital <- sys (AudioStreamSupportsDigital (i_stream_id p)) ;;
    if truthy b_digital then
      ca_msg MSGL_V
        "Detected current stream supports digital, try to restore digital output...\n" ;;;
      ok <- AudioStreamChangeFormat (i_stream_id p) (stream_format p) ;;
      if negb (truthy ok) then
        ca_msg MSGL_WARN "Restoring digital output failed.\n" ;;;
        Ret ao
      else
        ca_msg MSGL_WARN "Restoring digital output succeeded.\n" ;;;
        reset ao
    else
      ca_msg MSGL_V "Detected current stream does not support digital.\n" ;;;
      Ret ao
  else Ret ao.

Definition play (ao : struct_ao) (output_samples num_bytes flags : Z)
  : prog call (Z * struct_ao) :=
  ao <- play_restore_digital ao ;;
  let p := ao_priv ao in
  wrote <- ring (mp_ring_write (buffer p) output_samples num_bytes) ;;
  ao <- audio_resume ao ;;
  Ret (wrote, ao).

Definition get_ring_size (ao : struct_ao) : Z :=
  af_fmt_seconds_to_bytes (format ao) (1 # 2) (num (channels ao))
                          (samplerate ao).

(** [for (int i = 0; i < devs_n; ++i) { ... }] of print_help. *)
Fixpoint print_devices (devs : list Z) : prog call unit :=
  match devs with
  | [] => Ret tt
  | dev :: rest =>
      '(err, name) <- GetAudioPropertyString dev kAudioObjectPropertyName ;;
      (if err =? noErr then ca_msg MSGL_FATAL "%s (id: %u)\n"
       else ca_msg MSGL_FATAL "Unknown (id: %u)\n") ;;;
      print_devices rest
  end.

Definition print_help : prog call unit :=
  ca_msg MSGL_FATAL
    "\n-ao coreaudio commandline help:\nExample: mpv -ao coreaudio:device_id=266\n    open Core Audio with output device ID 266.\n\nOptions:\n    device_id\n        ID of output device to use (0 = default device)\n    help\n        This help including list of available devices.\n\nAvailable output devices:\n" ;;;
  '(devs_size, data) <- GetGlobalAudioPropertyArray
                          kAudioObjectSystemObject
                          kAudioHardwarePropertyDevices ;;
  if devs_size =? 0 then
    ca_msg MSGL_FATAL "Failed to get list of output devices.\n"
  else
    let devs_n := int_of (devs_size / sizeof_AudioDeviceID) in
    match data with
    | PD_ids devs => print_devices (firstn (Z.to_nat devs_n) devs)
    | _ => Undef
    end.

Definition is_digital_format (f : AudioStreamRangedDescription) : bool :=
  let id := mFormatID (mFormat f) in
  (id =? fourcc_IAC3) || (id =? fourcc_iac3)
  || (id =? kAudioFormat60958AC3) || (id =? kAudioFormatAC3).

Definition rate_at (p_format_list : list AudioStreamRangedDescription)
           (j : Z) : Q :=
  match nth_error p_format_list (Z.to_nat j) with
  | Some f => mSampleRate (mFormat f)
  | None => 0%Q
  end.

(** The second [for (j = 0; j < i_formats; ++j)] of OpenSPDIF, from index
    [j] on over [rest]; answers (i_requested_rate_format,
    i_current_rate_format, i_backup_rate_format). *)
Fixpoint select_rate_format
         (p_format_list rest : list AudioStreamRangedDescription) (j : Z)
         (stream_rate revert_rate : Q)
         (i_current_rate_format i_backup_rate_format : Z) : Z * Z * Z :=
  match rest with
  | [] => (-1, i_current_rate_format, i_backup_rate_format)
  | f :: rest' =>
      let rate := mSampleRate (mFormat f) in
      if is_digital_format f then
        if Qeq_bool rate stream_rate then
          (j, i_current_rate_format, i_backup_rate_format)
        else if Qeq_bool rate revert_rate then
          select_rate_format p_format_list rest' (j + 1) stream_rate
                             revert_rate j i_backup_rate_format
        else if (i_backup_rate_format <? 0)
                || negb (Qle_bool rate
                           (rate_at p_format_list i_backup_rate_format))
        then
          select_rate_format p_format_list rest' (j + 1) stream_rate
                             revert_rate i_current_rate_format j
        else
          select_rate_format p_format_list rest' (j + 1) stream_rate
                             revert_rate i_current_rate_format
                             i_backup_rate_format
      else
        select_rate_format p_format_list rest' (j + 1) stream_rate
                           revert_rate i_current_rate_format
                           i_backup_rate_format
  end.

(** The block of OpenSPDIF that picks [p->stream_format] out of the
    formats of a digital stream. *)
Definition choose_stream_format
           (p_format_list : list AudioStreamRangedDescription)
           (ao : struct_ao) : prog call struct_ao :=
  let p := ao_priv ao in
  let '(i_requested_rate_format, i_current_rate_format,
        i_backup_rate_format) :=
    select_rate_format p_format_list p_format_list 0
                       (mSampleRate (stream_format p))
                       (mSampleRate (sfmt_revert p)) (-1) (-1) in
  let chosen :=
    if i_requested_rate_format >=? 0 then i_requested_rate_format
    else if i_current_rate_format >=? 0 then i_current_rate_format
    else i_backup_rate_format in
  if chosen <? 0 then Undef
  else
    match nth_error p_format_list (Z.to_nat chosen) with
    | Some f => Ret (upd_priv (set_stream_format (mFormat f)) ao)
    | None => Undef
    end.

(** [for (i = 0; i < i_streams && p->i_stream_index < 0; ++i) { ... }] of
    OpenSPDIF, from index [i] on over the streams [p_streams]. *)
Fixpoint find_digital_stream (p_streams : list Z) (i : Z) (ao : struct_ao)
  : prog call struct_ao :=
  match p_streams with
  | [] => Ret ao
  | stream :: rest =>
      if negb (i_stream_index (ao_priv ao) <? 0) then Ret ao
      else
        '(i_param_size, data) <-
          GetGlobalAudioPropertyArray
            stream kAudioStreamPropertyAvailablePhysicalFormats ;;
        if i_param_size =? 0 then
          ca_msg MSGL_WARN "Could not get number of stream formats.\n" ;;;
          find_digital_stream rest (i + 1) ao
        else
          let i_formats :=
            int_of (i_param_size / sizeof_AudioStreamRangedDescription) in
          match data with
          | PD_formats l =>
              let p_format_list := firstn (Z.to_nat i_formats) l in
              let b_digital := existsb is_digital_format p_format_list in
              if b_digital then
                let ao := upd_priv (set_i_stream_id stream) ao in
                let ao := upd_priv (set_i_stream_index i) ao in
                if b_revert (ao_priv ao) =? 0 then
                  '(err, d) <- GetAudioProperty
                                 (i_stream_id (ao_priv ao))
                                 kAudioStreamPropertyPhysicalFormat
                                 sizeof_AudioStreamBasicDescription ;;
                  let ao :=
                    upd_priv (set_sfmt_revert
                                (as_asbd (sfmt_revert (ao_priv ao)) d)) ao in
                  if negb (err =? noErr) then
                    ca_msg MSGL_WARN
                      "Could not retrieve the original stream format: [%4.4s]\n" ;;;
                    find_digital_stream rest (i + 1) ao
                  else
                    let ao := upd_priv (set_b_revert 1) ao in
                    ao <- choose_stream_format p_format_list ao ;;
                    find_digital_stream rest (i + 1) ao
                else
                  ao <- choose_stream_format p_format_list ao ;;
                  find_digital_stream rest (i + 1) ao
              else find_digital_stream rest (i + 1) ao
          | _ => Undef
          end
  end.

(** The exits of OpenSPDIF: labels [err_out] and [err_out1]. *)
Definition err_out (ao : struct_ao) : prog call (Z * struct_ao) :=
  let p := ao_priv ao in
  (if truthy (b_changed_mixing p)
      && negb (mFormatID (sfmt_revert p) =? kAudioFormat60958AC3)
   then
     err <- SetAudioProperty (i_selected_dev p)
                             kAudioDevicePropertySupportsMixing 4
                             (PD_u32 1) ;;
     if negb (err =? noErr)
     then ca_msg MSGL_WARN "failed to set mixmode: [%4.4s]\n"
     else Ret tt
   else Ret tt) ;;;
  pid <- sys getpid ;;
  if i_hog_pid p =? int_of pid then
    let ao := upd_priv (set_i_hog_pid (-1)) ao in
    err <- SetAudioProperty (i_selected_dev p) kAudioDevicePropertyHogMode 4
                            (PD_pid (-1)) ;;
    (if negb (err =? noErr)
     then ca_msg MSGL_WARN "Could not release hogmode: [%4.4s]\n"
     else Ret tt) ;;;
    Ret (CONTROL_FALSE, ao)
  else Ret (CONTROL_FALSE, ao).

Definition err_out1 (ao : struct_ao) : prog call (Z * struct_ao) :=
  let p := ao_priv ao in
  (if truthy (b_revert p)
   then AudioStreamChangeFormat (i_stream_id p) (sfmt_revert p) ;;; Ret tt
   else Ret tt) ;;;
  err_out ao.

(** The block of OpenSPDIF that sets mixable to false if allowed to;
    answers [false] where the C code jumps to [err_out]. *)
Definition set_mixable_false (ao : struct_ao) : prog call (bool * struct_ao) :=
  let p := ao_priv ao in
  has <- sys (AudioObjectHasProperty
                (i_selected_dev p)
                (global_addr kAudioDevicePropertySupportsMixing)) ;;
  if has then
    '(_, b_writeable) <- IsAudioPropertySettable
                           (i_selected_dev p)
                           kAudioDevicePropertySupportsMixing ;;
    '(err, _) <- GetAudioProperty (i_selected_dev p)
                                  kAudioDevicePropertySupportsMixing 4 ;;
    '(err, ao) <-
      (if (err =? noErr) && truthy (b_writeable mod 2 ^ 8) then
         err <- SetAudioProperty (i_selected_dev p)
                                 kAudioDevicePropertySupportsMixing 4
                                 (PD_u32 0) ;;
         Ret (err, upd_priv (set_b_changed_mixing 1) ao)
       else Ret (err, ao)) ;;
    if negb (err =? noErr) then
      ca_msg MSGL_WARN "failed to set mixmode: [%4.4s]\n" ;;;
      Ret (false, ao)
    else Ret (true, ao)
  else Ret (true, ao).

(** The byte-order block of OpenSPDIF, one branch per value of
    [BYTE_ORDER == BIG_ENDIAN]. *)
Definition check_byte_order (ao : struct_ao) : prog call struct_ao :=
  let p := ao_priv ao in
  if BYTE_ORDER_BIG_ENDIAN then
    (if negb (truthy (Z.land (mFormatFlags (stream_format p))
                             kAudioFormatFlagIsBigEndian))
     then ca_msg MSGL_WARN
            "Output stream has non-native byte order, digital output may fail.\n"
     else Ret tt) ;;;
    Ret ao
  else
    let ao :=
      if truthy (Z.land (mFormatID (stream_format p)) kAudioFormat60958AC3)
      then set_format AF_FORMAT_AC3_LE ao
      else ao in
    (if truthy (Z.land (mFormatFlags (stream_format p))
                       kAudioFormatFlagIsBigEndian)
     then ca_msg MSGL_WARN
            "Output stream has non-native byte order, digital output may fail.\n"
     else Ret tt) ;;;
    Ret ao.

(** Setup a encoded digital stream (SPDIF) *)
Definition OpenSPDIF (ao : struct_ao) : prog call (Z * struct_ao) :=
  let ao := upd_priv (set_b_digital 1) ao in
  pid <- sys getpid ;;
  let ao := upd_priv (set_i_hog_pid (int_of pid)) ao in
  let p := ao_priv ao in
  err <- SetAudioProperty (i_selected_dev p) kAudioDevicePropertyHogMode 4
                          (PD_pid (i_hog_pid p)) ;;
  if negb (err =? noErr) then
    ca_msg MSGL_WARN "failed to set hogmode: [%4.4s]\n" ;;;
    err_out (upd_priv (set_i_hog_pid (-1)) ao)
  else
    '(ok, ao) <- set_mixable_false ao ;;
    if negb ok then err_out ao
    else
      let p := ao_priv ao in
      '(i_param_size, data) <-
        GetAudioPropertyArray (i_selected_dev p) kAudioDevicePropertyStreams
                              kAudioDevicePropertyScopeOutput ;;
      if i_param_size =? 0 then
        ca_msg MSGL_WARN "could not get number of streams.\n" ;;;
        err_out ao
      else
        let i_streams := int_of (i_param_size / sizeof_AudioStreamID) in
        ca_msg MSGL_V "current device stream number: %d\n" ;;;
        match data with
        | PD_ids p_streams =>
            ao <- find_digital_stream
                    (firstn (Z.to_nat i_streams) p_streams) 0 ao ;;
            let p := ao_priv ao in
            if i_stream_index p <? 0 then
              ca_msg MSGL_WARN
                "Cannot find any digital output stream format when OpenSPDIF().\n" ;;;
              err_out ao
            else
              ca_print_asbd "original stream format:" (sfmt_revert p) ;;;
              ok <- AudioStreamChangeFormat (i_stream_id p)
                                            (stream_format p) ;;
              if negb (truthy ok) then err_out ao
              else
                err <- sys (AudioObjectAddPropertyListener
                              (i_selected_dev p)
                              (global_addr
                                 kAudioDevicePropertyDeviceHasChanged)
                              cb_ca_device_listener) ;;
                (if negb (err =? noErr) then
                   ca_msg MSGL_WARN
                     "AudioDeviceAddPropertyListener for kAudioDevicePropertyDeviceHasChanged failed: [%4.4s]\n"
                 else Ret tt) ;;;
                ao <- check_byte_order ao ;;
                let p := ao_priv ao in
                let ao :=
                  set_samplerate
                    (int_of (Qtrunc (mSampleRate (stream_format p)))) ao in
                chmap <- sys (mp_chmap_from_channels
                                (int_of (mChannelsPerFrame
                                           (stream_format p)))) ;;
                let ao := set_channels chmap ao in
                if mFramesPerPacket (stream_format p) =? 0 then Undef
                else
                  let ao :=
                    set_bps
                      (int_of
                         (UInt32_of
                            (UInt32_of (samplerate ao)
                             * (mBytesPerPacket (stream_format p)
                                / mFramesPerPacket (stream_format p)))))
                      ao in
                  ring_ptr <- ring (mp_ring_new (get_ring_size ao)) ;;
                  let ao := upd_priv (set_buffer ring_ptr) ao in
                  let p := ao_priv ao in
                  print_buffer (buffer p) ;;;
                  '(err, proc) <- sys (AudioDeviceCreateIOProcID
                                         (i_selected_dev p)
                                         cb_render_cb_digital) ;;
                  let ao := upd_priv (set_renderCallback proc) ao in
                  if negb (err =? noErr) || (proc =? 0) then
                    ca_msg MSGL_WARN "AudioDeviceAddIOProc failed: [%4.4s]\n" ;;;
                    err_out1 ao
                  else
                    ao <- reset ao ;;
                    Ret (CONTROL_TRUE, ao)
        | _ => Undef
        end.

(** [*p = (struct priv) { ... }] of init. *)
Definition priv_init : priv :=
  {| i_selected_dev := 0; b_supports_digital := 0; b_digital := 0;
     b_muted := 0; renderCallback := 0; theOutputUnit := 0;
     i_hog_pid := -1; i_stream_id := 0; i_stream_index := -1;
     stream_format := asbd_zero; sfmt_revert := asbd_zero; b_revert := 0;
     b_changed_mixing := 0; b_stream_format_changed := 0; packetSize := 0;
     paused := 0; buffer := 0 |}.

(** The exits of init: labels [coreaudio_error_audiounit],
    [coreaudio_error_component] and [coreaudio_error]. *)
Definition coreaudio_error (ao : struct_ao) : prog call (Z * struct_ao) :=
  Ret (CONTROL_FALSE, ao).

Definition coreaudio_error_component (ao : struct_ao)
  : prog call (Z * struct_ao) :=
  sys (AudioComponentInstanceDispose (theOutputUnit (ao_priv ao))) ;;;
  coreaudio_error ao.

Definition coreaudio_error_audiounit (ao : struct_ao)
  : prog call (Z * struct_ao) :=
  sys (AudioUnitUninitialize (theOutputUnit (ao_priv ao))) ;;;
  coreaudio_error_component ao.

(** Build ASBD for the input format *)
Definition build_asbd (ao : struct_ao) : AudioStreamBasicDescription :=
  let p := ao_priv ao in
  let flags := kAudioFormatFlagIsPacked in
  let flags :=
    if Z.land (format ao) AF_FORMAT_POINT_MASK =? AF_FORMAT_F
    then Z.lor flags kAudioFormatFlagIsFloat else flags in
  let flags :=
    if Z.land (format ao) AF_FORMAT_SIGN_MASK =? AF_FORMAT_SI
    then Z.lor flags kAudioFormatFlagIsSignedInteger else flags in
  let flags :=
    if Z.land (format ao) AF_FORMAT_END_MASK =? AF_FORMAT_BE
    then Z.lor flags kAudioFormatFlagIsBigEndian else flags in
  let mChannelsPerFrame_ := UInt32_of (num (channels ao)) in
  let mBitsPerChannel_ := UInt32_of (af_fmt2bits (format ao)) in
  let mFramesPerPacket_ := 1 in
  let bytes :=
    UInt32_of (mFramesPerPacket_ * mChannelsPerFrame_
               * (mBitsPerChannel_ / 8)) in
  {| mSampleRate := inject_Z (samplerate ao);
     mFormatID := if truthy (b_supports_digital p)
                  then kAudioFormat60958AC3 else kAudioFormatLinearPCM;
     mFormatFlags := flags;
     mBytesPerPacket := bytes;
     mFramesPerPacket := mFramesPerPacket_;
     mBytesPerFrame := bytes;
     mChannelsPerFrame := mChannelsPerFrame_;
     mBitsPerChannel := mBitsPerChannel_ |}.

(** The digital branch of init: [if (p->b_supports_digital) { ... }]. *)
Definition init_digital (ao : struct_ao) (asbd : AudioStreamBasicDescription)
  : prog call (Z * struct_ao) :=
  let p := ao_priv ao in
  '(err, d) <- GetAudioProperty (i_selected_dev p)
                                kAudioDevicePropertyDeviceIsAlive 4 ;;
  let is_alive := as_u32 1 d in
  (if negb (err =? noErr) then
     ca_msg MSGL_WARN "could not check whether device is alive: [%4.4s]\n"
   else Ret tt) ;;;
  (if negb (truthy is_alive) then ca_msg MSGL_WARN "device is not alive\n"
   else Ret tt) ;;;
  '(err, d) <- GetAudioProperty (i_selected_dev p)
                                kAudioDevicePropertyHogMode 4 ;;
  let ao := upd_priv (set_i_hog_pid (as_pid (i_hog_pid p) d)) ao in
  ao <- (if negb (err =? noErr) then
           ca_msg MSGL_WARN
                  "could not check whether device is hogged: [%4.4s]\n" ;;;
           Ret (upd_priv (set_i_hog_pid (-1)) ao)
         else Ret ao) ;;
  let p := ao_priv ao in
  foreign <- (if i_hog_pid p =? -1 then Ret false
              else pid <- sys getpid ;;
                   Ret (negb (i_hog_pid p =? int_of pid))) ;;
  if (foreign : bool) then
    ca_msg MSGL_WARN
      "Selected audio device is exclusively in use by another program.\n" ;;;
    coreaudio_error ao
  else
    let ao := upd_priv (set_stream_format asbd) ao in
    OpenSPDIF ao.

(** The analog branch of init: from [// Original analog output code] on. *)
Definition init_lpcm (ao : struct_ao) (asbd : AudioStreamBasicDescription)
           (device_opt : Z) (chmap_sel : mp_chmap_sel)
  : prog call (Z * struct_ao) :=
  comp <- sys (AudioComponentFindNext
                 (if device_opt <? 0 then kAudioUnitSubType_SystemOutput
                  else kAudioUnitSubType_HALOutput)) ;;
  if comp =? 0 then
    ca_msg MSGL_ERR "unable to find audio component\n" ;;;
    coreaudio_error ao
  else
    '(err, unit_) <- sys (AudioComponentInstanceNew comp) ;;
    let ao := upd_priv (set_theOutputUnit unit_) ao in
    let p := ao_priv ao in
    ok <- check_ca_st MSGL_ERR err "unable to open audio component" ;;
    if negb ok then coreaudio_error ao
    else
      err <- sys (AudioUnitInitialize (theOutputUnit p)) ;;
      ok <- check_ca_st MSGL_ERR err "unable to initialize audio unit" ;;
      if negb ok then coreaudio_error_component ao
      else
        err <- sys (AudioUnitSetProperty
                      (theOutputUnit p)
                      (kAudioUnitProperty_StreamFormat asbd)
                      kAudioUnitScope_Input 0
                      sizeof_AudioStreamBasicDescription) ;;
        ok <- check_ca_st MSGL_ERR err
                "unable to set the input format on the audio unit" ;;
        if negb ok then coreaudio_error_audiounit ao
        else
          err <- sys (AudioUnitSetProperty
                        (theOutputUnit p)
                        (kAudioOutputUnitProperty_CurrentDevice
                           (i_selected_dev p))
                        kAudioUnitScope_Global 0 4) ;;
          let ao := set_samplerate (int_of (Qtrunc (mSampleRate asbd))) ao in
          '(ok, chmap) <- sys (ao_chmap_sel_get_def
                                 chmap_sel (channels ao)
                                 (int_of (mChannelsPerFrame asbd))) ;;
          let ao := set_channels chmap ao in
          if negb ok then coreaudio_error_audiounit ao
          else
            let ao :=
              set_bps (int_of (UInt32_of (UInt32_of (samplerate ao)
                                          * mBytesPerFrame asbd))) ao in
            ring_ptr <- ring (mp_ring_new (get_ring_size ao)) ;;
            let ao := upd_priv (set_buffer ring_ptr) ao in
            let p := ao_priv ao in
            print_buffer (buffer p) ;;;
            err <- sys (AudioUnitSetProperty
                          (theOutputUnit p)
                          (kAudioUnitProperty_SetRenderCallback
                             cb_render_cb_lpcm)
                          kAudioUnitScope_Input 0
                          sizeof_AURenderCallbackStruct) ;;
            ok <- check_ca_st MSGL_ERR err
                    "unable to set render callback on audio unit" ;;
            if negb ok then coreaudio_error_audiounit ao
            else
              ao <- reset ao ;;
              Ret (CONTROL_OK, ao).

Definition init (ao : struct_ao) (params : string)
  : prog call (Z * struct_ao) :=
  '(parsed, device_opt, help_opt) <- sys (subopt_parse params) ;;
  if negb (parsed =? 0) then
    print_help ;;;
    Ret (0, ao)
  else
    (if truthy help_opt then print_help else Ret tt) ;;;
    let ao := set_ao_priv priv_init ao in
    let ao := set_per_application_mixer true ao in
    let ao := set_no_persistent_volume true ao in
    '(ok, selected_device) <-
      (if device_opt <? 0 then
         '(err, d) <- GetAudioProperty
                        kAudioObjectSystemObject
                        kAudioHardwarePropertyDefaultOutputDevice 4 ;;
         ok <- check_ca_st MSGL_ERR err
                 "could not get default audio device" ;;
         Ret (ok, as_u32 0 d)
       else Ret (true, UInt32_of device_opt)) ;;
    if negb ok then coreaudio_error ao
    else
      '(err, device_name) <- GetAudioPropertyString
                               selected_device kAudioObjectPropertyName ;;
      ok <- check_ca_st MSGL_ERR err
              "could not get selected audio device name" ;;
      if negb ok then coreaudio_error ao
      else
        ca_msg MSGL_V "selected audio output device: %s (%u)\n" ;;;
        ao <- (if AF_FORMAT_IS_AC3 (format ao) then
                 digital <- sys (AudioDeviceSupportsDigital
                                   selected_device) ;;
                 if truthy digital
                 then Ret (upd_priv (set_b_supports_digital 1) ao)
                 else Ret ao
               else Ret ao) ;;
        let ao := upd_priv (set_i_selected_dev selected_device) ao in
        chmap_sel <- sys (mp_chmap_sel_add_waveext
                            {| chmap_sel_words := [] |}) ;;
        '(ok, chmap) <- sys (ao_chmap_sel_adjust chmap_sel (channels ao)) ;;
        let ao := set_channels chmap ao in
        if negb ok then coreaudio_error ao
        else
          let asbd := build_asbd ao in
          let ao :=
            upd_priv (set_packetSize (int_of (mBytesPerFrame asbd))) ao in
          ca_print_asbd "source format:" asbd ;;;
          if truthy (b_supports_digital (ao_priv ao))
          then init_digital ao asbd
          else init_lpcm ao asbd device_opt chmap_sel.

End Driver.

(** ** The ring buffer, as the specification describes it *)

Module Ring.

(** Modelled from the spec: core/mp_ring.c is missing.  The RingBuffer of
    the data model: a fixed [capacity], a [storage] of that many bytes, and
    two cursors kept as monotonic counters; a byte at logical position
    [pos] lives in slot [pos mod capacity]. *)
Record t : Type := {
  capacity : Z;
  storage : list Z;
  readPos : Z;
  writePos : Z
}.

(** Modelled from the spec: core/mp_ring.c is missing.
    [bufferedBytes() -> bytesUsed], that is [writePos - readPos]. *)
Definition buffered (r : t) : Z := writePos r - readPos r.

(** Modelled from the spec: core/mp_ring.c is missing.
    [availableToWrite() -> bytesFree]. *)
Definition available (r : t) : Z := capacity r - buffered r.

(** Modelled from the spec: core/mp_ring.c is missing.
    [create(capacity)]: storage of exactly [capacity] bytes; fails if the
    capacity is zero. *)
Definition create (cap : Z) : option t :=
  if cap <=? 0 then None
  else Some {| capacity := cap; storage := repeat 0 (Z.to_nat cap);
               readPos := 0; writePos := 0 |}.

(** Modelled from the spec: core/mp_ring.c is missing.  The storage with
    slot [i] set to [b]. *)
Fixpoint set_slot (l : list Z) (i : nat) (b : Z) : list Z :=
  match l, i with
  | [], _ => []
  | _ :: l', O => b :: l'
  | x :: l', S i' => x :: set_slot l' i' b
  end.

(** Modelled from the spec: core/mp_ring.c is missing.  Copy [data] into
    the storage from logical position [pos] on, wrapping at the capacity. *)
Fixpoint put (cap : Z) (st : list Z) (pos : Z) (data : list Z) : list Z :=
  match data with
  | [] => st
  | b :: rest => put cap (set_slot st (Z.to_nat (pos mod cap)) b) (pos + 1) rest
  end.

(** Modelled from the spec: core/mp_ring.c is missing.  The [n] bytes of
    the storage from logical position [pos] on, wrapping at the capacity. *)
Definition peek (cap : Z) (st : list Z) (pos : Z) (n : nat) : list Z :=
  map (fun i => nth (Z.to_nat ((pos + Z.of_nat i) mod cap)) st 0) (seq 0 n).

(** Modelled from the spec: core/mp_ring.c is missing.  The count an
    operation moves: [min(length, bound)], and nothing for a length below
    zero (the occupancy stays within [0, capacity]). *)
Definition moved (len bound : Z) : Z := Z.max 0 (Z.min len bound).

(** Modelled from the spec: core/mp_ring.c is missing.
    [write(data, length) -> bytesWritten]: copies [min(length, freeSpace)]
    bytes at [writePos], advances [writePos], returns the count. *)
Definition write (r : t) (data : list Z) (len : Z) : t * Z :=
  let n := moved len (available r) in
  ({| capacity := capacity r;
      storage := put (capacity r) (storage r) (writePos r)
                     (firstn (Z.to_nat n) data);
      readPos := readPos r;
      writePos := writePos r + n |}, n).

(** Modelled from the spec: core/mp_ring.c is missing.
    [read(outBuffer, length) -> bytesRead]: copies
    [min(length, bufferedBytes)] bytes from [readPos] on, advances
    [readPos], returns the count; the bytes copied out are the second
    component, and the rest of the caller's buffer is not written. *)
Definition read (r : t) (len : Z) : t * list Z * Z :=
  let n := moved len (buffered r) in
  ({| capacity := capacity r; storage := storage r;
      readPos := readPos r + n; writePos := writePos r |},
   peek (capacity r) (storage r) (readPos r) (Z.to_nat n), n).

(** Modelled from the spec: core/mp_ring.c is missing.
    [drain(length) -> bytesDrained]: identical to [read] but discards the
    bytes instead of copying them out. *)
Definition drain (r : t) (len : Z) : t * Z :=
  let n := moved len (buffered r) in
  ({| capacity := capacity r; storage := storage r;
      readPos := readPos r + n; writePos := writePos r |}, n).

(** Modelled from the spec: core/mp_ring.c is missing.
    [reset()]: sets [readPos = writePos] without touching the storage. *)
Definition reset (r : t) : t :=
  {| capacity := capacity r; storage := storage r;
     readPos := writePos r; writePos := writePos r |}.

(** Modelled from the spec: core/mp_ring.c is missing.  The invariant of
    the data model: [0 <= buffered <= capacity], for a positive capacity. *)
Definition wf (r : t) : Prop :=
  0 < capacity r /\ 0 <= buffered r <= capacity r.

End Ring.

(** The memory the ring buffer operations act on: the ring buffers by
    address, and the bytes of the callers' buffers by address. *)
Record ring_world : Type := {
  rings : Z -> option Ring.t;
  mem : Z -> Z;
  next_ring : Z
}.

Definition set_ring (w : ring_world) (b : Z) (r : Ring.t) : ring_world :=
  {| rings := fun b' => if b' =? b then Some r else rings w b';
     mem := mem w; next_ring := next_ring w |}.

(** The [n] bytes at address [a]. *)
Definition load (m : Z -> Z) (a : Z) (n : nat) : list Z :=
  map (fun i => m (a + Z.of_nat i)) (seq 0 n).

(** Memory after [bytes] were copied to address [a]. *)
Definition store (m : Z -> Z) (a : Z) (bytes : list Z) : Z -> Z :=
  fun x =>
    if (a <=? x) && (x <? a + Z.of_nat (List.length bytes))
    then nth (Z.to_nat (x - a)) bytes 0
    else m x.

(** Modelled from the spec: core/mp_ring.c is missing.  The ring buffer
    calls answered by [Ring]; a call on an address that holds no ring buffer
    moves nothing and answers 0, and a failed creation answers the null
    address. *)
Definition ring_handler : handler ringE ring_world :=
  fun R e =>
    match e in ringE R0 return ring_world -> R0 * ring_world with
    | mp_ring_new size => fun w =>
        match Ring.create size with
        | Some r =>
            (next_ring w,
             {| rings := fun b' => if b' =? next_ring w then Some r
                                   else rings w b';
                mem := mem w; next_ring := next_ring w + 1 |})
        | None => (0, w)
        end
    | mp_ring_read b dest len => fun w =>
        match rings w b with
        | Some r =>
            let '(r', bytes, n) := Ring.read r len in
            (n, {| rings := rings (set_ring w b r');
                   mem := store (mem w) dest bytes;
                   next_ring := next_ring w |})
        | None => (0, w)
        end
    | mp_ring_drain b len => fun w =>
        match rings w b with
        | Some r => let '(r', n) := Ring.drain r len in (n, set_ring w b r')
        | None => (0, w)
        end
    | mp_ring_write b src len => fun w =>
        match rings w b with
        | Some r =>
            let '(r', n) :=
              Ring.write r (load (mem w) src (Z.to_nat len)) len in
            (n, set_ring w b r')
        | None => (0, w)
        end
    | mp_ring_reset b => fun w =>
        match rings w b with
        | Some r => (tt, set_ring w b (Ring.reset r))
        | None => (tt, w)
        end
    | mp_ring_available b => fun w =>
        match rings w b with
        | Some r => (Ring.available r, w)
        | None => (0, w)
        end
    | mp_ring_buffered b => fun w =>
        match rings w b with
        | Some r => (Ring.buffered r, w)
        | None => (0, w)
        end
    | mp_ring_repr b => fun w => ("mp_ring", w)
    end.

(** ** Observations on the calls of a run *)

(** A ring buffer call with its answer, without the dependent typing. *)
Inductive ring_call : Type :=
| RNew (size ptr : Z)
| RRead (buffer dest len got : Z)
| RDrain (buffer len got : Z)
| RWrite (buffer src len wrote : Z)
| RReset (buffer : Z)
| RAvailable (buffer n : Z)
| RBuffered (buffer n : Z)
| RRepr (buffer : Z).

Definition ring_call_of {R} (e : ringE R) : R -> ring_call :=
  match e in ringE R0 return R0 -> ring_call with
  | mp_ring_new size => fun r => RNew size r
  | mp_ring_read b d l => fun r => RRead b d l r
  | mp_ring_drain b l => fun r => RDrain b l r
  | mp_ring_write b s l => fun r => RWrite b s l r
  | mp_ring_reset b => fun _ => RReset b
  | mp_ring_available b => fun r => RAvailable b r
  | mp_ring_buffered b => fun r => RBuffered b r
  | mp_ring_repr b => fun _ => RRepr b
  end.

Definition ring_call_of_event (ev : event call) : option ring_call :=
  match ev with
  | Ev (inl1 e) r => Some (ring_call_of e r)
  | Ev (inr1 _) _ => None
  end.

(** The ring buffer calls of a run, oldest first. *)
Fixpoint ring_calls (t : list (event call)) : list ring_call :=
  match t with
  | [] => []
  | ev :: t' =>
      match ring_call_of_event ev with
      | Some c => c :: ring_calls t'
      | None => ring_calls t'
      end
  end.

(** The call registers a render callback with the framework. *)
Definition is_register (ev : event call) : bool :=
  match ev with
  | Ev (inr1 (AudioUnitSetProperty _ (kAudioUnitProperty_SetRenderCallback _)
                                   _ _ _)) _ => true
  | Ev (inr1 (AudioDeviceCreateIOProcID _ _)) _ => true
  | _ => false
  end.

(** The call stops the framework's pulls. *)
Definition is_stop (ev : event call) : bool :=
  match ev with
  | Ev (inr1 (AudioOutputUnitStop _)) _ => true
  | Ev (inr1 (AudioDeviceStop _ _)) _ => true
  | _ => false
  end.

(** The call starts the framework's pulls. *)
Definition is_start (ev : event call) : bool :=
  match ev with
  | Ev (inr1 (AudioOutputUnitStart _)) _ => true
  | Ev (inr1 (AudioDeviceStart _ _)) _ => true
  | _ => false
  end.

(** The call sets the hardware volume parameter. *)
Definition is_set_volume (ev : event call) : bool :=
  match ev with
  | Ev (inr1 (AudioUnitSetParameter _ _)) _ => true
  | _ => false
  end.

(** ** A framework that always succeeds, for concrete runs *)

Definition sample_ac3 : AudioStreamBasicDescription :=
  {| mSampleRate := 48000 # 1; mFormatID := kAudioFormat60958AC3;
     mFormatFlags := 12; mBytesPerPacket := 6144; mFramesPerPacket := 1536;
     mBytesPerFrame := 4; mChannelsPerFrame := 2; mBitsPerChannel := 16 |}.

Definition sample_propdata (addr : AudioObjectPropertyAddress) : propdata :=
  match mSelector addr with
  | kAudioHardwarePropertyDevices => PD_ids [42]
  | kAudioHardwarePropertyDefaultOutputDevice => PD_u32 42
  | kAudioObjectPropertyName => PD_cfstring "Built-in Output"
  | kAudioDevicePropertyDeviceIsAlive => PD_u32 1
  | kAudioDevicePropertyHogMode => PD_pid (-1)
  | kAudioDevicePropertySupportsMixing => PD_u32 1
  | kAudioDevicePropertyStreams => PD_ids [7]
  | kAudioDevicePropertyDeviceHasChanged => PD_u32 0
  | kAudioStreamPropertyAvailablePhysicalFormats =>
      PD_formats [{| mFormat := sample_ac3;
                     mSampleRateRange := (48000 # 1, 48000 # 1) |}]
  | kAudioStreamPropertyPhysicalFormat => PD_asbd sample_ac3
  end.

(** Every call succeeds at once; the world is the number of calls
    answered. *)
Definition sys_ok : handler sysE nat :=
  fun R e =>
    match e in sysE R0 return nat -> R0 * nat with
    | mp_msg _ _ => fun w => (tt, S w)
    | mp_msg_a _ _ _ => fun w => (tt, S w)
    | uninitialized_asbd => fun w => (asbd_zero, S w)
    | mp_sleep_us _ => fun w => (tt, S w)
    | subopt_parse _ => fun w => ((0, -1, 0), S w)
    | mp_chmap_sel_add_waveext s => fun w => (s, S w)
    | ao_chmap_sel_adjust _ m => fun w => ((true, m), S w)
    | ao_chmap_sel_get_def _ m n => fun w =>
        ((true, {| num := n; speaker := speaker m |}), S w)
    | mp_chmap_from_channels n => fun w =>
        ({| num := n; speaker := [] |}, S w)
    | AudioDeviceSupportsDigital _ => fun w => (1, S w)
    | AudioStreamSupportsDigital _ => fun w => (1, S w)
    | getpid => fun w => (4242, S w)
    | read_stream_format_changed => fun w => (1, S w)
    | write_stream_format_changed _ => fun w => (tt, S w)
    | AudioObjectGetPropertyDataSize _ addr => fun w =>
        ((noErr, propdata_size (sample_propdata addr)), S w)
    | AudioObjectGetPropertyData _ addr _ => fun w =>
        ((noErr, Some (sample_propdata addr)), S w)
    | AudioObjectSetPropertyData _ _ _ _ => fun w => (noErr, S w)
    | AudioObjectHasProperty _ _ => fun w => (true, S w)
    | AudioObjectIsPropertySettable _ _ => fun w => ((noErr, 1), S w)
    | AudioObjectAddPropertyListener _ _ _ => fun w => (noErr, S w)
    | AudioObjectRemovePropertyListener _ _ _ => fun w => (noErr, S w)
    | AudioComponentFindNext _ => fun w => (1000, S w)
    | AudioComponentInstanceNew _ => fun w => ((noErr, 2000), S w)
    | AudioComponentInstanceDispose _ => fun w => (noErr, S w)
    | AudioUnitInitialize _ => fun w => (noErr, S w)
    | AudioUnitUninitialize _ => fun w => (noErr, S w)
    | AudioUnitSetProperty _ _ _ _ _ => fun w => (noErr, S w)
    | AudioUnitGetParameter _ => fun w => ((noErr, float_of_int 4), S w)
    | AudioUnitSetParameter _ _ => fun w => (noErr, S w)
    | AudioOutputUnitStart _ => fun w => (noErr, S w)
    | AudioOutputUnitStop _ => fun w => (noErr, S w)
    | AudioDeviceStart _ _ => fun w => (noErr, S w)
    | AudioDeviceStop _ _ => fun w => (noErr, S w)
    | AudioDeviceCreateIOProcID _ _ => fun w => ((noErr, 3000), S w)
    | AudioDeviceDestroyIOProcID _ _ => fun w => (noErr, S w)
    end.

(** The constants and helpers of one build of the player, for concrete
    runs. *)
Definition sample_headers : Headers :=
  {| CONTROL_OK := 1; CONTROL_TRUE := 1; CONTROL_FALSE := 0;
     CONTROL_UNKNOWN := -1; CONTROL_ERROR := -2;
     AF_FORMAT_POINT_MASK := 4; AF_FORMAT_F := 4;
     AF_FORMAT_SIGN_MASK := 2; AF_FORMAT_SI := 0;
     AF_FORMAT_END_MASK := 1; AF_FORMAT_BE := 0;
     AF_FORMAT_AC3_LE := 257;
     AF_FORMAT_IS_AC3 := fun fmt => Z.land fmt 448 =? 256;
     af_fmt2bits := fun fmt => (Z.land (Z.shiftr fmt 3) 7 + 1) * 8;
     af_fmt_seconds_to_bytes := fun fmt s ch rate =>
       seconds_to_bytes ((Z.land (Z.shiftr fmt 3) 7 + 1) * 8) s ch rate;
     BYTE_ORDER_BIG_ENDIAN := false |}.

Definition sample_priv : priv :=
  {| i_selected_dev := 42; b_supports_digital := 0; b_digital := 0;
     b_muted := 0; renderCallback := 0; theOutputUnit := 2000;
     i_hog_pid := -1; i_stream_id := 0; i_stream_index := -1;
     stream_format := asbd_zero; sfmt_revert := asbd_zero; b_revert := 0;
     b_changed_mixing := 0; b_stream_format_changed := 0; packetSize := 4;
     paused := 1; buffer := 500 |}.

(** An analog session: 16-bit stereo at 44100 Hz, ring buffer at address
    500. *)
Definition sample_ao : struct_ao :=
  {| format := 8; channels := {| num := 2; speaker := [] |};
     samplerate := 44100; bps := 176400; per_application_mixer := true;
     no_persistent_volume := true; ao_priv := sample_priv |}.

(** A digital session on stream buffer 1, ring buffer at address 500. *)
Definition sample_ao_digital (muted : Z) : struct_ao :=
  upd_priv (set_b_muted muted)
    (upd_priv (set_i_stream_index 1)
       (upd_priv (set_b_digital 1)
          (upd_priv (set_paused 0) sample_ao))).

(** A ring buffer of capacity 16 holding the bytes 1..n. *)
Definition sample_ring (n : Z) : Ring.t :=
  fst (Ring.write {| Ring.capacity := 16; Ring.storage := repeat 0 16%nat;
                     Ring.readPos := 0; Ring.writePos := 0 |}
                  [1; 2; 3; 4; 5; 6; 7; 8; 9; 10; 11; 12; 13; 14; 15; 16] n).

(** Memory filled with the byte 170, and the ring buffer [sample_ring n]
    at address 500. *)
Definition sample_world (n : Z) : ring_world * nat :=
  ({| rings := fun b => if b =? 500 then Some (sample_ring n) else None;
      mem := fun _ => 170; next_ring := 501 |}, O).

Definition sample_handler : handler call (ring_world * nat) :=
  hsum ring_handler sys_ok.

Definition sample_buffer_list : AudioBufferList :=
  {| mNumberBuffers := 2;
     mBuffers0 := {| mNumberChannels := 2; mDataByteSize := 8;
                     mData := 1000 |};
     mBuffersRest := [{| mNumberChannels := 2; mDataByteSize := 4;
                         mData := 2000 |}] |}.

(** ** osdep/win32-console-wrapper.c *)

Module Conredir.

(** A wide string: its code units up to the terminating zero. *)
Definition wstring : Type := list Z.

Definition wstr (s : string) : wstring :=
  map (fun c => Z.of_N (N_of_ascii c)) (list_ascii_of_string s).

Inductive std_handle : Type :=
| STD_INPUT_HANDLE
| STD_OUTPUT_HANDLE
| STD_ERROR_HANDLE.

Definition STARTF_USESTDHANDLES : Z := 0x100.
Definition INFINITE : Z := 0xFFFFFFFF.
Definition MAX_PATH : Z := 260.
Definition FORMAT_MESSAGE_ALLOCATE_BUFFER : Z := 0x100.
Definition FORMAT_MESSAGE_FROM_SYSTEM : Z := 0x1000.
Definition FORMAT_MESSAGE_IGNORE_INSERTS : Z := 0x200.

(** The fields of STARTUPINFO the wrapper sets; ZeroMemory leaves every
    other field zero. *)
Record STARTUPINFO : Type := {
  cb : Z;
  dwFlags : Z;
  hStdInput : Z;
  hStdOutput : Z;
  hStdError : Z
}.

Record PROCESS_INFORMATION : Type := {
  hProcess : Z;
  hThread : Z
}.

(** The Win32 and C library calls of the wrapper.  The null arguments of
    CreateProcessW (process and thread attributes, environment, current
    directory) are the four [Z] arguments and are passed as 0. *)
Inductive winE : Type -> Type :=
| GetStdHandle (nStdHandle : std_handle) : winE Z
| CreateProcessW (lpApplicationName lpCommandLine : wstring)
                 (lpProcessAttributes lpThreadAttributes : Z)
                 (bInheritHandles : bool) (dwCreationFlags : Z)
                 (lpEnvironment lpCurrentDirectory : Z)
                 (lpStartupInfo : STARTUPINFO)
  : winE (bool * PROCESS_INFORMATION)
| WaitForSingleObject (hHandle dwMilliseconds : Z) : winE Z
| CloseHandle (hObject : Z) : winE bool
| GetLastError : winE Z
| FormatMessageW (dwFlags_ dwMessageId dwLanguageId : Z) : winE wstring
| fwprintf_stderr (fmt : string) (args : list wstring) : winE unit
| GetCommandLineW : winE wstring
| GetModuleFileNameW (nSize : Z) : winE wstring.

Definition win {R} (e : winE R) : prog winE R := trigger e.

Section Wrapper.
(** [sizeof(STARTUPINFO)], which depends on the target. *)
Variable sizeof_si : Z.

Definition cr_perror (prefix : wstring) : prog winE unit :=
  code <- win GetLastError ;;
  error <- win (FormatMessageW
                  (Z.lor (Z.lor FORMAT_MESSAGE_ALLOCATE_BUFFER
                                FORMAT_MESSAGE_FROM_SYSTEM)
                         FORMAT_MESSAGE_IGNORE_INSERTS)
                  code 0x400) ;;
  win (fwprintf_stderr "%s: %s" [prefix; error]).

Definition cr_runproc (name cmdline : wstring) : prog winE unit :=
  hin <- win (GetStdHandle STD_INPUT_HANDLE) ;;
  hout <- win (GetStdHandle STD_OUTPUT_HANDLE) ;;
  herr <- win (GetStdHandle STD_ERROR_HANDLE) ;;
  let si := {| cb := sizeof_si;
               dwFlags := Z.lor 0 STARTF_USESTDHANDLES;
               hStdInput := hin; hStdOutput := hout; hStdError := herr |} in
  '(ok, pi) <- win (CreateProcessW name cmdline 0 0 true 0 0 0 si) ;;
  if negb ok then cr_perror (wstr "CreateProcess")
  else
    win (WaitForSingleObject (hProcess pi) INFINITE) ;;;
    win (CloseHandle (hProcess pi)) ;;;
    win (CloseHandle (hThread pi)) ;;;
    Ret tt.

(** Index of the last occurrence of [c] in [s], as [wcsrchr] finds it. *)
Fixpoint wcsrchr (s : wstring) (c : Z) : option nat :=
  match s with
  | [] => None
  | x :: s' =>
      match wcsrchr s' c with
      | Some i => Some (S i)
      | None => if x =? c then Some O else None
      end
  end.

(** [wcscpy(wcsrchr(exe, '.') + 1, L"exe")] on the [MAX_PATH] buffer [exe]:
    undefined without a dot, or when the result overruns the buffer. *)
Definition replace_extension (exe : wstring) : option wstring :=
  match wcsrchr exe 46 with
  | None => None
  | Some i =>
      let exe' := (firstn (S i) exe ++ wstr "exe")%list in
      if Z.of_nat (List.length exe') <? MAX_PATH then Some exe' else None
  end.

Definition wmain (argc : Z) (argv envp : list wstring) : prog winE Z :=
  cmd <- win GetCommandLineW ;;
  match argv with
  | [] => Undef
  | argv0 :: _ =>
      if (List.length cmd <? List.length argv0)%nat then Undef
      else
        let args := skipn (List.length argv0) cmd in
        exe <- win (GetModuleFileNameW MAX_PATH) ;;
        let exe := firstn (Z.to_nat (MAX_PATH - 1)) exe in
        match replace_extension exe with
        | None => Undef
        | Some exe =>
            let eargs := (exe ++ args)%list in
            cr_runproc exe eargs ;;;
            Ret 0
        end
  end.

End Wrapper.

(** The calls of a run, without the dependent typing. *)
Inductive win_call : Type :=
| WGetStdHandle (n : std_handle) (h : Z)
| WCreateProcessW (name cmdline : wstring) (pattr tattr : Z)
                  (inherit : bool) (flags env cwd : Z) (si : STARTUPINFO)
                  (ok : bool) (pi : PROCESS_INFORMATION)
| WWaitForSingleObject (h ms : Z)
| WCloseHandle (h : Z)
| WOther.

Definition win_call_of {R} (e : winE R) : R -> win_call :=
  match e in winE R0 return R0 -> win_call with
  | GetStdHandle n => fun h => WGetStdHandle n h
  | CreateProcessW name cmdline pa ta inh fl env cwd si =>
      fun r => WCreateProcessW name cmdline pa ta inh fl env cwd si
                               (fst r) (snd r)
  | WaitForSingleObject h ms => fun _ => WWaitForSingleObject h ms
  | CloseHandle h => fun _ => WCloseHandle h
  | _ => fun _ => WOther
  end.

Definition win_calls (t : list (event winE)) : list win_call :=
  map (fun ev => match ev with Ev e r => win_call_of e r end) t.

(** A console in which the child starts and exits; the world counts the
    calls answered. *)
Definition win_ok : handler winE nat :=
  fun R e =>
    match e in winE R0 return nat -> R0 * nat with
    | GetStdHandle STD_INPUT_HANDLE => fun w => (3, S w)
    | GetStdHandle STD_OUTPUT_HANDLE => fun w => (7, S w)
    | GetStdHandle STD_ERROR_HANDLE => fun w => (11, S w)
    | CreateProcessW _ _ _ _ _ _ _ _ _ => fun w =>
        ((true, {| hProcess := 100; hThread := 104 |}), S w)
    | WaitForSingleObject _ _ => fun w => (0, S w)
    | CloseHandle _ => fun w => (true, S w)
    | GetLastError => fun w => (0, S w)
    | FormatMessageW _ _ _ => fun w => (wstr "ok", S w)
    | fwprintf_stderr _ _ => fun w => (tt, S w)
    | GetCommandLineW => fun w => (wstr "mpv.com --version", S w)
    | GetModuleFileNameW _ => fun w => (wstr "C:\mpv\mpv.com", S w)
    end.

(** The calls of [cr_runproc]: the three standard handles are fetched,
    CreateProcessW gets them in a STARTUPINFO flagged STARTF_USESTDHANDLES
    with handle inheritance on, and when it succeeds the child is waited
    for without a time limit before its handles are closed. *)
Definition launch_calls (sizeof_si : Z) (name cmdline : wstring)
           (calls : list win_call) : Prop :=
  exists hin hout herr ok pi rest,
    calls
    = WGetStdHandle STD_INPUT_HANDLE hin
      :: WGetStdHandle STD_OUTPUT_HANDLE hout
      :: WGetStdHandle STD_ERROR_HANDLE herr
      :: WCreateProcessW name cmdline 0 0 true 0 0 0
           {| cb := sizeof_si; dwFlags := STARTF_USESTDHANDLES;
              hStdInput := hin; hStdOutput := hout; hStdError := herr |}
           ok pi
      :: rest
    /\ rest = if ok
              then [WWaitForSingleObject (hProcess pi) INFINITE;
                    WCloseHandle (hProcess pi); WCloseHandle (hThread pi)]
              else [WOther; WOther; WOther].

End Conredir.

(** ** Statements and observations used by the facts *)

(** Not a ring buffer call. *)
Definition not_ring (ev : event call) : bool :=
  match ev with
  | Ev (inl1 _) _ => false
  | Ev (inr1 _) _ => true
  end.

(** Neither a ring buffer write nor a start of the framework's pulls. *)
Definition not_write_nor_start (ev : event call) : bool :=
  match ev with
  | Ev (inl1 (mp_ring_write _ _ _)) _ => false
  | _ => negb (is_start ev)
  end.

(** A call that neither touches a ring buffer nor starts, stops or
    registers a callback nor sets the volume: property traffic, messages,
    sleeps and the like. *)
Definition housekeeping (ev : event call) : bool :=
  not_ring ev && negb (is_start ev) && negb (is_stop ev)
  && negb (is_register ev) && negb (is_set_volume ev).

(** The stop call of a session's mode. *)
Definition stop_call (p : priv) : sysE Z :=
  if truthy (b_digital p)
  then AudioDeviceStop (i_selected_dev p) (renderCallback p)
  else AudioOutputUnitStop (theOutputUnit p).

(** The start call of a session's mode. *)
Definition start_call (p : priv) : sysE Z :=
  if truthy (b_digital p)
  then AudioDeviceStart (i_selected_dev p) (renderCallback p)
  else AudioOutputUnitStart (theOutputUnit p).

(** The size and the address of the ring buffer a call creates. *)
Definition ring_new_of (ev : event call) : option (Z * Z) :=
  match ring_call_of_event ev with
  | Some (RNew size ptr) => Some (size, ptr)
  | _ => None
  end.

(** Position of the first registration in a run, if any. *)
Fixpoint first_register (t : list (event call)) : option nat :=
  match t with
  | [] => None
  | ev :: t' =>
      if is_register ev then Some O
      else match first_register t' with
           | Some n => Some (S n)
           | None => None
           end
  end.

(** The ring size inputs and the ring buffer address of two sessions
    agree. *)
Definition same_ring (a b : struct_ao) : Prop :=
  format a = format b /\ channels a = channels b
  /\ samplerate a = samplerate b
  /\ buffer (ao_priv a) = buffer (ao_priv b).


(** What a registration call answered: accepted when the status is noErr
    and, for an IOProc, the id left in [p->renderCallback] is not null. *)
Definition register_status {R} (e : sysE R) : R -> option bool :=
  match e in sysE R0 return R0 -> option bool with
  | AudioUnitSetProperty _ prop _ _ _ =>
      match prop with
      | kAudioUnitProperty_SetRenderCallback _ => fun r => Some (r =? noErr)
      | _ => fun _ => None
      end
  | AudioDeviceCreateIOProcID _ _ =>
      fun r => Some ((fst r =? noErr) && negb (snd r =? 0))
  | _ => fun _ => None
  end.

Definition register_ok (ev : event call) : bool :=
  match ev with
  | Ev (inr1 e) r =>
      match register_status e r with Some b => b | None => false end
  | _ => false
  end.

(** The ring buffers after the calls [t] were answered by the ring buffer
    of the specification, from the ring buffers [w]. *)
Fixpoint rings_after (t : list (event call)) (w : ring_world) : ring_world :=
  match t with
  | [] => w
  | Ev (inl1 e) _ :: t' => rings_after t' (snd (ring_handler e w))
  | Ev (inr1 _) _ :: t' => rings_after t' w
  end.

(** The ring buffer calls of [t] were answered by the ring buffer of the
    specification, from the ring buffers [w]. *)
Fixpoint answered_by_rings (w : ring_world) (t : list (event call)) : Prop :=
  match t with
  | [] => True
  | Ev (inl1 e) r :: t' =>
      r = fst (ring_handler e w)
      /\ answered_by_rings (snd (ring_handler e w)) t'
  | Ev (inr1 _) _ :: t' => answered_by_rings w t'
  end.

Section SetupOrder.
Context {H : Headers}.

(** The values a setup function answers on success and on failure. *)
Definition setup_succeeded (v : Z) : Prop :=
  v = CONTROL_OK \/ v = CONTROL_TRUE.
Definition setup_failed (v : Z) : Prop :=
  v = CONTROL_FALSE \/ v = 0.

(** A run from its registration call on: no second registration, and the
    function answers the session that holds the ring buffer created, with
    success exactly when the registration was accepted. *)
Definition registered_state (ok : bool) (size ptr : Z)
           (t : list (event call)) (o : option (Z * struct_ao)) : Prop :=
  existsb is_register t = false
  /\ exists x,
      o = Some x
      /\ size = get_ring_size (snd x)
      /\ buffer (ao_priv (snd x)) = ptr
      /\ (if ok then setup_succeeded (fst x) else setup_failed (fst x)).

(** A run from the creation of its ring buffer on: it goes on to a
    registration. *)
Fixpoint created_state (size ptr : Z) (t : list (event call))
         (o : option (Z * struct_ao)) : Prop :=
  match t with
  | [] => False
  | ev :: t' =>
      if is_register ev then registered_state (register_ok ev) size ptr t' o
      else created_state size ptr t' o
  end.

(** A run of a setup function: nothing is registered before a ring buffer
    is created, and a run that creates none answers a failure, if it
    answers. *)
Fixpoint setup_state (t : list (event call)) (o : option (Z * struct_ao))
  : Prop :=
  match t with
  | [] => match o with
          | Some x => setup_failed (fst x)
          | None => True
          end
  | ev :: t' =>
      if is_register ev then False
      else
        match ring_new_of ev with
        | Some (size, ptr) => created_state size ptr t' o
        | None => setup_state t' o
        end
  end.

End SetupOrder.

Section SetupClaim.
Context {H : Headers}.

(** Half a second of audio at the session's sample rate, channel count and
    sample width, in bytes. *)
Definition half_second_bytes (ao : struct_ao) : Z :=
  seconds_to_bytes (af_fmt2bits (format ao)) (1 # 2) (num (channels ao))
                   (samplerate ao).

(** A run of a setup function with calls [t] and answer [o]: when a render
    callback is registered, a ring buffer of [half_second_bytes] was asked
    for before it and the session answered holds what that call returned;
    the registration is the only one, and the setup answers success exactly
    when it was accepted.  A run that registers nothing answers a failure,
    if it answers. *)
Definition created_before_registered (t : list (event call))
           (o : option (Z * struct_ao)) : Prop :=
  match first_register t with
  | Some n =>
      exists k new ev ret ao',
        (k < n)%nat
        /\ nth_error t k = Some new
        /\ ring_new_of new
           = Some (half_second_bytes ao', buffer (ao_priv ao'))
        /\ nth_error t n = Some ev
        /\ is_register ev = true
        /\ existsb is_register (skipn (S n) t) = false
        /\ o = Some (ret, ao')
        /\ (if register_ok ev then setup_succeeded ret else setup_failed ret)
  | None =>
      match o with
      | Some x => setup_failed (fst x)
      | None => True
      end
  end.

(** The ring buffer of the session a setup answers, in a run that
    registers a callback, where the ring buffer calls are answered by the
    ring buffer of the specification from the ring buffers [w]: for a
    positive size it exists with that capacity when the registration is
    made and when the setup returns; otherwise the session holds the null
    address. *)
Definition buffer_at_registration (w : ring_world)
           (t : list (event call)) (o : option (Z * struct_ao)) : Prop :=
  match first_register t, o with
  | Some n, Some (_, ao') =>
      let b := buffer (ao_priv ao') in
      if 0 <? half_second_bytes ao'
      then (exists r, rings (rings_after (firstn n t) w) b = Some r
                      /\ Ring.capacity r = half_second_bytes ao')
           /\ (exists r, rings (rings_after t w) b = Some r
                         /\ Ring.capacity r = half_second_bytes ao')
      else b = 0
  | Some _, None => False
  | None, _ => True
  end.

(** The claim C7 as it is worded: when a setup registers a render
    callback, the session it answers has a ring buffer at that moment. *)
Definition buffer_exists_at_registration (w : ring_world)
           (t : list (event call)) (o : option (Z * struct_ao)) : Prop :=
  match first_register t, o with
  | Some n, Some (_, ao') =>
      exists r, rings (rings_after (firstn n t) w) (buffer (ao_priv ao'))
                = Some r
  | Some _, None => False
  | None, _ => True
  end.

End SetupClaim.


(** The analog setup against the framework that always succeeds. *)
Definition sample_init_run
  : option (Z * struct_ao) * (ring_world * nat) * list (event call) :=
  run sample_handler (@init sample_headers sample_ao EmptyString) (sample_world 0).

(** The digital setup against the framework that always succeeds. *)
Definition sample_spdif_run
  : option (Z * struct_ao) * (ring_world * nat) * list (event call) :=
  run sample_handler (@OpenSPDIF sample_headers sample_ao) (sample_world 0).

(** The analog setup of a session whose sample rate is 0, against the
    framework that always succeeds. *)
Definition sample_init_run_rate0
  : option (Z * struct_ao) * (ring_world * nat) * list (event call) :=
  run sample_handler
      (@init sample_headers (set_samplerate 0 sample_ao) EmptyString)
      (sample_world 0).

(** The claim C1 as it is worded: the analog callback asks the ring buffer
    for [frames * packetSize] bytes. *)
Definition lpcm_requests_product {W} (h : handler call W) (w : W)
           (ctx : struct_ao) (frames : Z) (buffer_list : AudioBufferList)
  : Prop :=
  exists got,
    ring_calls (trace_of (run h (render_cb_lpcm ctx 0 0 0 frames buffer_list)
                              w))
    = [RRead (buffer (ao_priv ctx)) (mData (mBuffers0 buffer_list))
             (frames * packetSize (ao_priv ctx)) got].

(** The claim C2 as it is worded, in its first half: the digital callback
    calls drain, or read into the stream buffer, with the byte count the
    designated stream buffer asks for. *)
Definition digital_requests_count {W} (h : handler call W) (w : W)
           (ctx : struct_ao) (out_data : AudioBufferList) : Prop :=
  let p := ao_priv ctx in
  match mBuffers_at out_data (i_stream_index p) with
  | None => True
  | Some buf =>
      exists got,
        ring_calls (trace_of (run h (render_cb_digital 0 0 0 0 out_data 0
                                                       ctx) w))
        = [if truthy (b_muted p)
           then RDrain (buffer p) (mDataByteSize buf) got
           else RRead (buffer p) (mData buf) (mDataByteSize buf) got]
  end.

(** A buffer list whose stream buffer 1 asks for 2^31 bytes. *)
Definition large_buffer_list : AudioBufferList :=
  {| mNumberBuffers := 2;
     mBuffers0 := {| mNumberChannels := 2; mDataByteSize := 8;
                     mData := 1000 |};
     mBuffersRest := [{| mNumberChannels := 2; mDataByteSize := 2 ^ 31;
                         mData := 2000 |}] |}.

(** ** Further parts of the sources *)

(** *** ao_coreaudio.c: uninit *)

(** Value of a 64-bit [long long] after conversion from [z]. *)
Definition int64_of (z : Z) : Z := (z + 2 ^ 63) mod 2 ^ 64 - 2 ^ 63.

Section Uninit.
Context {H : Headers}.

(** The digital branch of uninit: [else { ... }]. *)
Definition uninit_digital (ao : struct_ao) : prog call struct_ao :=
  let p := ao_priv ao in
  err <- sys (AudioDeviceStop (i_selected_dev p) (renderCallback p)) ;;
  (if negb (err =? noErr)
   then ca_msg MSGL_WARN "AudioDeviceStop failed: [%4.4s]\n"
   else Ret tt) ;;;
  err <- sys (AudioDeviceDestroyIOProcID (i_selected_dev p)
                                         (renderCallback p)) ;;
  (if negb (err =? noErr)
   then ca_msg MSGL_WARN "AudioDeviceRemoveIOProc failed: [%4.4s]\n"
   else Ret tt) ;;;
  (if truthy (b_revert p)
   then AudioStreamChangeFormat (i_stream_id p) (sfmt_revert p) ;;; Ret tt
   else Ret tt) ;;;
  (if truthy (b_changed_mixing p)
      && negb (mFormatID (sfmt_revert p) =? kAudioFormat60958AC3)
   then
     '(_, b_writeable) <- IsAudioPropertySettable
                            (i_selected_dev p)
                            kAudioDevicePropertySupportsMixing ;;
     '(err, _) <- GetAudioProperty (i_selected_dev p)
                                   kAudioDevicePropertySupportsMixing 4 ;;
     err <- (if (err =? noErr) && truthy (b_writeable mod 2 ^ 8)
             then SetAudioProperty (i_selected_dev p)
                                   kAudioDevicePropertySupportsMixing 4
                                   (PD_u32 1)
             else Ret err) ;;
     if negb (err =? noErr)
     then ca_msg MSGL_WARN "failed to set mixmode: [%4.4s]\n"
     else Ret tt
   else Ret tt) ;;;
  pid <- sys getpid ;;
  if i_hog_pid p =? int_of pid then
    let ao := upd_priv (set_i_hog_pid (-1)) ao in
    err <- SetAudioProperty (i_selected_dev p) kAudioDevicePropertyHogMode 4
                            (PD_pid (-1)) ;;
    (if negb (err =? noErr)
     then ca_msg MSGL_WARN "Could not release hogmode: [%4.4s]\n"
     else Ret tt) ;;;
    Ret ao
  else Ret ao.

Definition uninit (ao : struct_ao) (immed : bool) : prog call struct_ao :=
  let p := ao_priv ao in
  (if negb immed then
     buffered <- ring (mp_ring_buffered (buffer p)) ;;
     if bps ao =? 0 then Undef
     else
       let timeleft :=
         Z.quot (int64_of (1000000 * int_of buffered)) (bps ao) in
       ring (mp_ring_buffered (buffer p)) ;;;
       ca_msg MSGL_DBG2 "%d bytes left @%d bps (%d usec)\n" ;;;
       sys (mp_sleep_us (int_of timeleft))
   else Ret tt) ;;;
  if negb (truthy (b_digital p)) then
    sys (AudioOutputUnitStop (theOutputUnit p)) ;;;
    sys (AudioUnitUninitialize (theOutputUnit p)) ;;;
    sys (AudioComponentInstanceDispose (theOutputUnit p)) ;;;
    Ret ao
  else uninit_digital ao.

End Uninit.

(** *** Observations for the further facts *)

(** Microseconds slept over the calls of a run. *)
Fixpoint slept (t : list (event call)) : Z :=
  match t with
  | [] => 0
  | Ev (inr1 (mp_sleep_us us)) _ :: t' => us + slept t'
  | _ :: t' => slept t'
  end.

(** The status a framework call answered, for the calls that answer one
    alone. *)
Definition status_of {R} (e : sysE R) : R -> option Z :=
  match e in sysE R0 return R0 -> option Z with
  | AudioObjectSetPropertyData _ _ _ _ => fun r => Some r
  | AudioObjectAddPropertyListener _ _ _ => fun r => Some r
  | AudioObjectRemovePropertyListener _ _ _ => fun r => Some r
  | AudioOutputUnitStart _ => fun r => Some r
  | AudioOutputUnitStop _ => fun r => Some r
  | AudioDeviceStart _ _ => fun r => Some r
  | AudioDeviceStop _ _ => fun r => Some r
  | AudioUnitSetParameter _ _ => fun r => Some r
  | _ => fun _ => None
  end.

(** The call is a message. *)
Definition is_msg (ev : event call) : bool :=
  match ev with
  | Ev (inr1 (mp_msg _ _)) _ => true
  | Ev (inr1 (mp_msg_a _ _ _)) _ => true
  | _ => false
  end.

(** The call reads a property. *)
Definition is_property_read (ev : event call) : bool :=
  match ev with
  | Ev (inr1 (AudioObjectGetPropertyData _ _ _)) _ => true
  | _ => false
  end.

(** The call adds a property listener. *)
Definition is_add_listener (ev : event call) : bool :=
  match ev with
  | Ev (inr1 (AudioObjectAddPropertyListener _ _ _)) _ => true
  | _ => false
  end.

(** The call removes a property listener. *)
Definition is_remove_listener (ev : event call) : bool :=
  match ev with
  | Ev (inr1 (AudioObjectRemovePropertyListener _ _ _)) _ => true
  | _ => false
  end.

(** The call removes a property listener and succeeds. *)
Definition is_removed_ok (ev : event call) : bool :=
  match ev with
  | Ev (inr1 e) r =>
      is_remove_listener ev
      && match status_of e r with Some st => st =? noErr | None => false end
  | _ => false
  end.

(** The call sleeps. *)
Definition is_sleep (ev : event call) : bool :=
  match ev with
  | Ev (inr1 (mp_sleep_us _)) _ => true
  | _ => false
  end.

(** The call writes a property. *)
Definition is_property_write (ev : event call) : bool :=
  match ev with
  | Ev (inr1 (AudioObjectSetPropertyData _ _ _ _)) _ => true
  | _ => false
  end.

(** The call answered the status [noErr]. *)
Definition status_ok (ev : event call) : bool :=
  match ev with
  | Ev (inr1 e) r =>
      match status_of e r with Some st => st =? noErr | None => false end
  | _ => false
  end.

(** A call of the polling loops: housekeeping that neither writes a
    property nor adds or removes a listener. *)
Definition is_poll (ev : event call) : bool :=
  housekeeping ev && negb (is_property_write ev)
  && negb (is_add_listener ev) && negb (is_remove_listener ev).

(** *** Observations on the audio unit of the analog setup *)

(** The status answered by the calls that open, initialise or configure
    an audio unit. *)
Definition unit_status {R} (e : sysE R) : R -> option Z :=
  match e in sysE R0 return R0 -> option Z with
  | AudioComponentInstanceNew _ => fun r => Some (fst r)
  | AudioUnitInitialize _ => fun r => Some r
  | AudioUnitSetProperty _ _ _ _ _ => fun r => Some r
  | _ => fun _ => None
  end.

(** The call is one of those and answered [noErr]. *)
Definition unit_ok (ev : event call) : bool :=
  match ev with
  | Ev (inr1 e) r =>
      match unit_status e r with Some st => st =? noErr | None => false end
  | _ => false
  end.

Definition is_instance_new (ev : event call) : bool :=
  match ev with
  | Ev (inr1 (AudioComponentInstanceNew _)) _ => true
  | _ => false
  end.

Definition is_instance_dispose (ev : event call) : bool :=
  match ev with
  | Ev (inr1 (AudioComponentInstanceDispose _)) _ => true
  | _ => false
  end.

Definition is_unit_initialize (ev : event call) : bool :=
  match ev with
  | Ev (inr1 (AudioUnitInitialize _)) _ => true
  | _ => false
  end.

Definition is_unit_uninitialize (ev : event call) : bool :=
  match ev with
  | Ev (inr1 (AudioUnitUninitialize _)) _ => true
  | _ => false
  end.

(** The component instance was opened, the unit initialised, the render
    callback registered: the call was made and answered [noErr]. *)
Definition opened (t : list (event call)) : bool :=
  existsb (fun ev => is_instance_new ev && unit_ok ev) t.
Definition initialized (t : list (event call)) : bool :=
  existsb (fun ev => is_unit_initialize ev && unit_ok ev) t.
Definition registered (t : list (event call)) : bool :=
  existsb (fun ev => is_register ev && unit_ok ev) t.

(** *** A player whose option parser rejects the options *)

Definition sys_bad_options : handler sysE nat :=
  fun R e =>
    match e in sysE R0 return nat -> R0 * nat with
    | subopt_parse _ => fun w => ((1, -1, 0), S w)
    | e0 => sys_ok e0
    end.

Definition bad_options_handler : handler call (ring_world * nat) :=
  hsum ring_handler sys_bad_options.

(** *** Observations on the formats of a stream *)

(** A digital format at sample rate [rate]. *)
Definition rate_match (rate : Q) (f : AudioStreamRangedDescription) : bool :=
  is_digital_format f && Qeq_bool (mSampleRate (mFormat f)) rate.

(** Index [k] of the list holds the digital format [f]. *)
Definition digital_at (l : list AudioStreamRangedDescription) (k : Z)
           (f : AudioStreamRangedDescription) : Prop :=
  0 <= k /\ nth_error l (Z.to_nat k) = Some f /\ is_digital_format f = true.

(** * Facts *)

Unset Implicit Arguments.

(** ** Machine integers *)

Lemma int_of_UInt32_of (z : Z) : int_of (UInt32_of z) = int_of z.
Proof.
  unfold int_of, UInt32_of.
  rewrite Zplus_mod_idemp_l. reflexivity.
Qed.

Lemma UInt32_of_mul_r (a b : Z) :
  UInt32_of (a * UInt32_of b) = UInt32_of (a * b).
Proof.
  unfold UInt32_of. rewrite Zmult_mod_idemp_r. reflexivity.
Qed.

Lemma int_of_small (z : Z) : - 2 ^ 31 <= z < 2 ^ 31 -> int_of z = z.
Proof.
  intros Hz. unfold int_of.
  rewrite Z.mod_small by lia. lia.
Qed.

(** The byte count the analog callback computes: the product reduced to
    an [int]. *)
Lemma lpcm_requested (frames ps : Z) :
  int_of (UInt32_of (frames * UInt32_of ps)) = int_of (frames * ps).
Proof.
  rewrite UInt32_of_mul_r. apply int_of_UInt32_of.
Qed.

(** ** Programs *)

Section ProgFacts.
Variable E : Type -> Type.

Lemma run_bind {W A B} (h : handler E W) (m : prog E A) (f : A -> prog E B)
      (w : W) :
  run h (bind m f) w =
  match run h m w with
  | (Some a, w1, t1) =>
      let '(o, w2, t2) := run h (f a) w1 in (o, w2, t1 ++ t2)%list
  | (None, w1, t1) => (None, w1, t1)
  end.
Proof.
  revert w. induction m as [a | R e k IH | ]; intros w; simpl.
  - destruct (run h (f a) w) as [[o w2] t2]. reflexivity.
  - destruct (h R e w) as [r w1]. rewrite IH.
    destruct (run h (k r) w1) as [[[a | ] w2] t1]; simpl.
    + destruct (run h (f a) w2) as [[o w3] t2]. reflexivity.
    + reflexivity.
  - reflexivity.
Qed.

Lemma all_paths_impl {A} (m : prog E A)
      (P Q : list (event E) -> option A -> Prop) :
  (forall t o, P t o -> Q t o) -> all_paths m P -> all_paths m Q.
Proof.
  revert P Q. induction m as [a | R e k IH | ]; simpl; intros P Q HPQ HP.
  - auto.
  - intros r. apply (IH r (fun t o => P (Ev e r :: t) o)); auto.
  - auto.
Qed.

Lemma all_paths_run {W A} (h : handler E W) (m : prog E A)
      (P : list (event E) -> option A -> Prop) (w : W) :
  all_paths m P -> P (trace_of (run h m w)) (result_of (run h m w)).
Proof.
  revert P w. induction m as [a | R e k IH | ]; simpl; intros P w HP.
  - exact HP.
  - destruct (h R e w) as [r w1]. specialize (IH r _ w1 (HP r)).
    destruct (run h (k r) w1) as [[o w2] t]. exact IH.
  - exact HP.
Qed.

Lemma all_paths_bind {A B} (m : prog E A) (f : A -> prog E B)
      (P : list (event E) -> option B -> Prop) :
  all_paths m (fun t o =>
                 match o with
                 | Some a => all_paths (f a) (fun t' o' => P (t ++ t')%list o')
                 | None => P t None
                 end) ->
  all_paths (bind m f) P.
Proof.
  revert P. induction m as [a | R e k IH | ]; simpl; intros P HP.
  - exact HP.
  - intros r. apply IH. exact (HP r).
  - exact HP.
Qed.

Lemma quiet_bind (ok : event E -> bool) {A B} (m : prog E A)
      (f : A -> prog E B) :
  quiet ok m -> (forall a, quiet ok (f a)) -> quiet ok (bind m f).
Proof.
  induction m as [a | R e k IH | ]; simpl; intros Hm Hf.
  - apply Hf.
  - intros r. destruct (Hm r) as [He Hk]. split; auto.
  - exact I.
Qed.

Lemma returns_bind {A B} (m : prog E A) (f : A -> prog E B)
      (Q : A -> Prop) (Q' : B -> Prop) :
  returns m Q -> (forall a, Q a -> returns (f a) Q') ->
  returns (bind m f) Q'.
Proof.
  induction m as [a | R e k IH | ]; simpl; intros Hm Hf.
  - apply Hf, Hm.
  - intros r. apply IH; auto.
  - contradiction.
Qed.

Lemma returns_impl {A} (m : prog E A) (Q Q' : A -> Prop) :
  (forall a, Q a -> Q' a) -> returns m Q -> returns m Q'.
Proof.
  induction m as [a | R e k IH | ]; simpl; intros HQ Hm; auto.
Qed.

Lemma returns_run {W A} (h : handler E W) (m : prog E A) (Q : A -> Prop)
      (w : W) :
  returns m Q -> exists a, result_of (run h m w) = Some a /\ Q a.
Proof.
  revert w. induction m as [a | R e k IH | ]; simpl; intros w Hm.
  - exists a. split; [reflexivity | exact Hm].
  - destruct (h R e w) as [r w1].
    destruct (IH r w1 (Hm r)) as [a [Ha HQ]].
    destruct (run h (k r) w1) as [[o w2] t]. exists a. split; assumption.
  - contradiction.
Qed.

End ProgFacts.

(** ** The ring buffer model *)

(** The concrete scenario of the specification: capacity 16; writing the
    ten bytes 0..9 stores 10; writing ten more stores the 6 that fit;
    reading 4 gives 0, 1, 2, 3; a reset empties the buffer. *)
Example ring_scenario :
  match Ring.create 16 with
  | None => False
  | Some r0 =>
      let '(r1, n1) := Ring.write r0 [0; 1; 2; 3; 4; 5; 6; 7; 8; 9] 10 in
      let '(r2, n2) :=
        Ring.write r1 [10; 11; 12; 13; 14; 15; 16; 17; 18; 19] 10 in
      let '(r3, dst, n3) := Ring.read r2 4 in
      let '(r4, n4) := Ring.drain r3 20 in
      n1 = 10 /\ Ring.buffered r1 = 10 /\ Ring.available r1 = 6
      /\ n2 = 6 /\ Ring.buffered r2 = 16
      /\ n3 = 4 /\ dst = [0; 1; 2; 3]
      /\ Ring.buffered r3 = 12 /\ Ring.available r3 = 4
      /\ Ring.buffered (Ring.reset r3) = 0
      /\ n4 = 12 /\ Ring.buffered r4 = 0
      /\ fst (fst (Ring.read (fst (Ring.write r4 [20; 21; 22; 23; 24; 25] 6))
                             6))
         = fst (Ring.drain (fst (Ring.write r4 [20; 21; 22; 23; 24; 25] 6)) 6)
      /\ snd (fst (Ring.read (fst (Ring.write r4 [20; 21; 22; 23; 24; 25] 6))
                             6))
         = [20; 21; 22; 23; 24; 25]
  end.
Proof. vm_compute. repeat split; reflexivity. Qed.

Lemma moved_nonneg (len bound : Z) : 0 <= Ring.moved len bound.
Proof. unfold Ring.moved. lia. Qed.

Lemma moved_min (len bound : Z) :
  0 <= len -> 0 <= bound -> Ring.moved len bound = Z.min len bound.
Proof. unfold Ring.moved. lia. Qed.

Lemma peek_length (cap : Z) (st : list Z) (pos : Z) (n : nat) :
  List.length (Ring.peek cap st pos n) = n.
Proof. unfold Ring.peek. rewrite length_map, length_seq. reflexivity. Qed.

(** Copying out [bytes] changes no address outside the bytes copied. *)
Lemma store_outside (m : Z -> Z) (a : Z) (bytes : list Z) (x : Z) :
  x < a \/ a + Z.of_nat (List.length bytes) <= x -> store m a bytes x = m x.
Proof.
  intros Hx. unfold store.
  destruct (a <=? x) eqn:H1; destruct (x <? a + Z.of_nat (List.length bytes)) eqn:H2;
    simpl; try reflexivity.
  apply Z.leb_le in H1. apply Z.ltb_lt in H2. lia.
Qed.

(** ** The render callbacks *)

(** C1, counterexample.  With 2^30 frames of 4 bytes the product 2^32 does
    not fit the callback's [int]: the read asks for 0 bytes. *)
Lemma lpcm_request_overflows :
  ~ lpcm_requests_product sample_handler (sample_world 8) sample_ao
      (2 ^ 30) sample_buffer_list.
Proof.
  intros [got Hgot]. vm_compute in Hgot. discriminate Hgot.
Qed.

(** C1, as amended.  On every invocation of the analog render callback the
    driver makes exactly one ring buffer call: a read into the buffer the
    framework supplied, [mBuffers[0].mData], of [frames * packetSize] bytes
    reduced to the callback's 32-bit [int]; whenever the product fits an
    [int] the read asks for exactly [frames * packetSize] bytes. *)
Theorem render_cb_lpcm_single_read {W} (h : handler call W) (w : W)
        (ctx : struct_ao) (aflags ts bus frames : Z)
        (buffer_list : AudioBufferList) :
  let p := ao_priv ctx in
  let calls :=
    ring_calls (trace_of (run h (render_cb_lpcm ctx aflags ts bus frames
                                                buffer_list) w)) in
  (exists got,
      calls = [RRead (buffer p) (mData (mBuffers0 buffer_list))
                     (int_of (frames * packetSize p)) got])
  /\ (- 2 ^ 31 <= frames * packetSize p < 2 ^ 31 ->
      exists got,
        calls = [RRead (buffer p) (mData (mBuffers0 buffer_list))
                       (frames * packetSize p) got]).
Proof.
  intros p calls. subst calls.
  unfold render_cb_lpcm, ring, trigger. simpl.
  rewrite lpcm_requested. fold p.
  destruct (h Z _ w) as [got w1]. simpl.
  split.
  - exists got. reflexivity.
  - intros Hfit. exists got. rewrite (int_of_small _ Hfit). reflexivity.
Qed.

Lemma render_cb_lpcm_single_read_witness :
  exists got,
    ring_calls (trace_of (run sample_handler
                              (render_cb_lpcm sample_ao 0 0 0 2
                                              sample_buffer_list)
                              (sample_world 3)))
    = [RRead 500 1000 (2 * 4) got].
Proof.
  apply (proj2 (render_cb_lpcm_single_read sample_handler (sample_world 3)
                                           sample_ao 0 0 0 2
                                           sample_buffer_list)).
  simpl. lia.
Defined.

(** C6.  After every invocation of the analog render callback the caller's
    buffer list is what it was, so [mBuffers[0].mDataByteSize] is unchanged:
    the count the read answered is stored in the local copy [buf] only. *)
Theorem render_cb_lpcm_keeps_buffer_list {W} (h : handler call W) (w : W)
        (ctx : struct_ao) (aflags ts bus frames : Z)
        (buffer_list : AudioBufferList) :
  let out := run h (render_cb_lpcm ctx aflags ts bus frames buffer_list) w in
  exists fr len got,
    result_of out = Some fr
    /\ ring_calls (trace_of out)
       = [RRead (buffer (ao_priv ctx)) (mData (mBuffers0 buffer_list)) len
                got]
    /\ cb_buffer_list fr = buffer_list
    /\ mDataByteSize (mBuffers0 (cb_buffer_list fr))
       = mDataByteSize (mBuffers0 buffer_list)
    /\ cb_buf fr = set_mDataByteSize (UInt32_of got) (mBuffers0 buffer_list).
Proof.
  unfold render_cb_lpcm, ring, trigger. simpl.
  destruct (h Z _ w) as [got w1]. simpl.
  eexists _, _, got. repeat split.
Qed.

(** C8.  Both render callbacks return [noErr] whatever the ring buffer
    answers (the digital one on every buffer list that has the stream's
    entry). *)
Theorem render_callbacks_return_noErr :
  (forall W (h : handler call W) (w : W) ctx aflags ts bus frames
          buffer_list,
      exists fr,
        result_of (run h (render_cb_lpcm ctx aflags ts bus frames
                                         buffer_list) w) = Some fr
        /\ cb_status fr = noErr)
  /\ (forall W (h : handler call W) (w : W) device ts in_data in_ts out_data
             out_ts ctx buf,
         mBuffers_at out_data (i_stream_index (ao_priv ctx)) = Some buf ->
         exists fr,
           result_of (run h (render_cb_digital device ts in_data in_ts
                                               out_data out_ts ctx) w)
           = Some fr
           /\ cb_status fr = noErr).
Proof.
  split.
  - intros. unfold render_cb_lpcm, ring, trigger. simpl.
    destruct (h Z _ w) as [got w1]. simpl. eexists. split; reflexivity.
  - intros W h w device ts in_data in_ts out_data out_ts ctx buf Hbuf.
    unfold render_cb_digital. rewrite Hbuf.
    destruct (truthy (b_muted (ao_priv ctx))); unfold ring, trigger; simpl;
      destruct (h Z _ w) as [got w1]; simpl; eexists; split; reflexivity.
Qed.

Lemma render_callbacks_return_noErr_witness :
  exists fr,
    result_of (run sample_handler
                   (render_cb_digital 0 0 0 0 sample_buffer_list 0
                                      (sample_ao_digital 0))
                   (sample_world 0)) = Some fr
    /\ cb_status fr = noErr.
Proof.
  apply (proj2 render_callbacks_return_noErr _ sample_handler
               (sample_world 0) 0 0 0 0 sample_buffer_list 0
               (sample_ao_digital 0)
               {| mNumberChannels := 2; mDataByteSize := 4; mData := 2000 |}).
  reflexivity.
Defined.




(** The run of the witness: 10 bytes queued, 4 asked for, 4 drained. *)
Example render_cb_digital_run :
  let out := run sample_handler
                 (render_cb_digital 0 0 0 0 sample_buffer_list 0
                                    (sample_ao_digital 1))
                 (sample_world 10) in
  ring_calls (trace_of out) = [RDrain 500 4 4]
  /\ option_map Ring.buffered (rings (fst (world_of out)) 500) = Some 6.
Proof. vm_compute. split; reflexivity. Qed.

(** C5.  When the read of the analog render callback answers fewer bytes
    than were asked for, every byte of the destination buffer past the
    bytes read (the unfilled remainder) is what it was before the call,
    and so is every byte below the buffer: the driver writes no padding. *)
Theorem render_cb_lpcm_underrun_untouched {S} (hs : handler sysE S)
        (w : ring_world) (s : S) (ctx : struct_ao) (aflags ts bus frames : Z)
        (buffer_list : AudioBufferList) (requested got a : Z) :
  let p := ao_priv ctx in
  let dest := mData (mBuffers0 buffer_list) in
  let out := run (hsum ring_handler hs)
                 (render_cb_lpcm ctx aflags ts bus frames buffer_list)
                 (w, s) in
  ring_calls (trace_of out) = [RRead (buffer p) dest requested got] ->
  got < requested ->
  a < dest \/ dest + got <= a ->
  mem (fst (world_of out)) a = mem w a.
Proof.
  intros p dest out. subst out.
  unfold render_cb_lpcm, ring, trigger. fold p. fold dest. simpl.
  destruct (rings w (buffer p)) as [r | ] eqn:Hr; simpl.
  - intros Hcalls _ Ha. injection Hcalls as _ Hgot.
    apply store_outside.
    rewrite peek_length, Z2Nat.id by apply moved_nonneg.
    rewrite Hgot. exact Ha.
  - intros _ _ _. reflexivity.
Qed.

Lemma render_cb_lpcm_underrun_untouched_witness :
  mem (fst (world_of (run (hsum ring_handler sys_ok)
                          (render_cb_lpcm sample_ao 0 0 0 2
                                          sample_buffer_list)
                          (fst (sample_world 3), O)))) 1003
  = 170.
Proof.
  apply (render_cb_lpcm_underrun_untouched
           sys_ok (fst (sample_world 3)) O sample_ao 0 0 0 2
           sample_buffer_list 8 3 1003).
  - reflexivity.
  - reflexivity.
  - right. vm_compute. discriminate.
Defined.

(** A concrete underrun: 3 bytes queued, 8 asked for; the bytes
    1, 2, 3 land at the start of the buffer and the 5 bytes after them keep
    the 170 they held. *)
Example lpcm_underrun_run :
  let out := run (hsum ring_handler sys_ok)
                 (render_cb_lpcm sample_ao 0 0 0 2 sample_buffer_list)
                 (fst (sample_world 3), O) in
  ring_calls (trace_of out) = [RRead 500 1000 8 3]
  /\ load (mem (fst (world_of out))) 1000 8
     = [1; 2; 3; 170; 170; 170; 170; 170].
Proof. vm_compute. split; reflexivity. Qed.

(** ** Walking a program tree *)

Lemma quiet_run (E : Type -> Type) (ok : event E -> bool) {W A}
      (h : handler E W) (m : prog E A) (w : W) :
  quiet ok m -> forallb ok (trace_of (run h m w)) = true.
Proof.
  revert w. induction m as [a | R e k IH | ]; simpl; intros w Hm.
  - reflexivity.
  - destruct (h R e w) as [r w1]. destruct (Hm r) as [He Hk].
    specialize (IH r w1 Hk).
    destruct (run h (k r) w1) as [[o w2] t]. simpl in *.
    rewrite He. exact IH.
  - reflexivity.
Qed.

Lemma quiet_weaken (E : Type -> Type) (ok ok' : event E -> bool) {A}
      (m : prog E A) :
  (forall ev, ok ev = true -> ok' ev = true) -> quiet ok m -> quiet ok' m.
Proof.
  intros Hok. induction m as [a | R e k IH | ]; simpl; intros Hm; auto.
  intros r. destruct (Hm r) as [He Hk]. split; auto.
Qed.

(** Steps through a loop-free program, splitting on every test. *)
Ltac walk :=
  repeat (simpl;
          match goal with
          | |- forall _, _ => intro
          | |- _ /\ _ => split
          | |- True => exact I
          | |- _ = true => reflexivity
          | |- ?x = ?x => reflexivity
          | |- context [bind (if ?c then _ else _) _] => destruct c
          | |- context [bind (match ?x with _ => _ end) _] => destruct x
          | |- quiet _ (if ?c then _ else _) => destruct c
          | |- quiet _ (match ?x with _ => _ end) => destruct x
          | |- returns (if ?c then _ else _) _ => destruct c
          | |- returns (match ?x with _ => _ end) _ => destruct x
          | |- quiet _ (bind _ _) => apply quiet_bind
          | |- returns (bind _ _) _ =>
              apply returns_bind with (Q := fun _ => True)
          end).

(** ** Calls that leave the session alone *)

Lemma not_ring_calls (t : list (event call)) :
  forallb not_ring t = true -> ring_calls t = [].
Proof.
  induction t as [ | [R [e | e] r] t IH]; simpl; intros Ht.
  - reflexivity.
  - discriminate Ht.
  - apply IH, Ht.
Qed.

Lemma ring_calls_app (t1 t2 : list (event call)) :
  ring_calls (t1 ++ t2) = (ring_calls t1 ++ ring_calls t2)%list.
Proof.
  induction t1 as [ | ev t1 IH]; simpl.
  - reflexivity.
  - destruct (ring_call_of_event ev); simpl; rewrite IH; reflexivity.
Qed.

Lemma wait_stream_format_changed_quiet (n : nat) :
  quiet housekeeping (wait_stream_format_changed n).
Proof. induction n as [ | n IH]; walk; auto. Qed.

Lemma check_format_active_quiet (n : nat) (i_stream_id : Z)
      (change_format : AudioStreamBasicDescription) :
  quiet housekeeping (check_format_active n i_stream_id change_format).
Proof.
  induction n as [ | n IH]; [exact I | ].
  cbn [check_format_active]. apply quiet_bind.
  - apply wait_stream_format_changed_quiet.
  - intros _. walk; auto.
Qed.

Lemma wait_stream_format_changed_returns (n : nat) :
  returns (wait_stream_format_changed n) (fun _ => True).
Proof. induction n as [ | n IH]; walk; auto. Qed.

Lemma check_format_active_returns (n : nat) (i_stream_id : Z)
      (change_format : AudioStreamBasicDescription) :
  returns (check_format_active n i_stream_id change_format) (fun _ => True).
Proof.
  induction n as [ | n IH]; [exact I | ].
  cbn [check_format_active].
  apply returns_bind with (Q := fun _ => True).
  - apply wait_stream_format_changed_returns.
  - intros _ _. walk; auto.
Qed.

Section DriverFacts.
Context {H : Headers}.

Lemma AudioStreamChangeFormat_quiet (i_stream_id : Z)
      (change_format : AudioStreamBasicDescription) :
  quiet housekeeping (AudioStreamChangeFormat i_stream_id change_format).
Proof.
  unfold AudioStreamChangeFormat.
  assert (Hloop := check_format_active_quiet 5 i_stream_id change_format).
  revert Hloop. generalize (check_format_active 5 i_stream_id change_format).
  intros loop Hloop. walk; auto.
Qed.

Lemma AudioStreamChangeFormat_returns (i_stream_id : Z)
      (change_format : AudioStreamBasicDescription) :
  returns (AudioStreamChangeFormat i_stream_id change_format)
          (fun _ => True).
Proof.
  unfold AudioStreamChangeFormat.
  assert (Hloop := check_format_active_returns 5 i_stream_id change_format).
  revert Hloop. generalize (check_format_active 5 i_stream_id change_format).
  intros loop Hloop. walk; auto.
Qed.

End DriverFacts.

(** ** pause, resume, reset *)

Lemma audio_pause_run {W} (h : handler call W) (w : W) (ao : struct_ao) :
  exists st w1 msgs,
    run h (audio_pause ao) w
    = (Some (upd_priv (set_paused 1) ao), w1,
       Ev (inr1 (stop_call (ao_priv ao))) st :: msgs)
    /\ forallb not_ring msgs = true
    /\ forallb (fun ev => negb (is_stop ev) && negb (is_start ev)) msgs
       = true.
Proof.
  unfold audio_pause, stop_call.
  destruct (truthy (b_digital (ao_priv ao))); unfold sys, trigger; simpl;
    destruct (h Z _ w) as [st w1]; simpl;
    destruct (OSErr_of st =? noErr); simpl.
  all: try (destruct (h unit _ w1) as [u w2]; simpl).
  all: eexists _, _, _; split; [reflexivity | split; reflexivity].
Qed.

Lemma audio_resume_run {W} (h : handler call W) (w : W) (ao : struct_ao) :
  exists w1 post,
    run h (audio_resume ao) w = (Some (upd_priv (set_paused 0) ao), w1, post)
    /\ forallb not_ring post = true
    /\ (if truthy (paused (ao_priv ao))
        then exists st msgs,
            post = Ev (inr1 (start_call (ao_priv ao))) st :: msgs
            /\ forallb (fun ev => negb (is_stop ev) && negb (is_start ev))
                       msgs = true
        else post = [] /\ w1 = w).
Proof.
  unfold audio_resume, start_call.
  destruct (truthy (paused (ao_priv ao))) eqn:Hp; simpl.
  - destruct (truthy (b_digital (ao_priv ao))); unfold sys, trigger; simpl;
      destruct (h Z _ w) as [st w1]; simpl;
      destruct (OSErr_of st =? noErr); simpl.
    all: try (destruct (h unit _ w1) as [u w2]; simpl).
    all: eexists _, _; split; [reflexivity | split; [reflexivity | ] ].
    all: eexists _, _; split; reflexivity.
  - exists w, []. split; [ | split; [reflexivity | split; reflexivity] ].
    f_equal. f_equal. f_equal.
    unfold truthy in Hp. apply negb_false_iff, Z.eqb_eq in Hp.
    destruct ao as [f c sr b pm np p]. unfold upd_priv, set_ao_priv. simpl.
    f_equal. destruct p. simpl in *. subst. reflexivity.
Qed.

(** C4.  Every call to [reset] first pauses, by the stop call of the
    session's mode, then resets the ring buffer at [p->buffer], and makes
    no other ring buffer call; with the ring buffer of the specification
    the buffer is logically empty afterwards and its storage is as it
    was. *)
Theorem reset_pauses_then_resets :
  (forall W (h : handler call W) (w : W) (ao : struct_ao),
      let p := ao_priv ao in
      let out := run h (reset ao) w in
      exists st msgs,
        trace_of out
        = (Ev (inr1 (stop_call p)) st :: msgs
              ++ [Ev (inl1 (mp_ring_reset (buffer p))) tt])%list
        /\ forallb not_ring msgs = true
        /\ ring_calls (trace_of out) = [RReset (buffer p)]
        /\ result_of out = Some (upd_priv (set_paused 1) ao))
  /\ (forall S (hs : handler sysE S) (w : ring_world) (s : S)
             (ao : struct_ao) (r : Ring.t),
         let p := ao_priv ao in
         let out := run (hsum ring_handler hs) (reset ao) (w, s) in
         rings w (buffer p) = Some r ->
         exists r',
           rings (fst (world_of out)) (buffer p) = Some r'
           /\ Ring.buffered r' = 0
           /\ Ring.storage r' = Ring.storage r
           /\ Ring.capacity r' = Ring.capacity r).
Proof.
  split.
  - intros W h w ao p out. subst out. unfold reset.
    rewrite run_bind.
    destruct (audio_pause_run h w ao) as [st [w1 [msgs [Hrun [Hq _]]]]].
    rewrite Hrun. unfold ring, trigger. simpl. fold p.
    destruct (h unit _ w1) as [[] w2]. simpl.
    exists st, msgs. repeat split; try assumption.
    rewrite ring_calls_app, (not_ring_calls _ Hq). reflexivity.
  - intros S hs w s ao r p out Hr. subst out. unfold reset.
    rewrite run_bind.
    destruct (audio_pause_run (hsum ring_handler hs) (w, s) ao)
      as [st [[w1 s1] [msgs [Hrun [Hq _]]]]].
    assert (Hw1 : w1 = w).
    { revert Hrun. unfold audio_pause.
      destruct (truthy (b_digital (ao_priv ao))); unfold sys, trigger; simpl;
        destruct (hs Z _ s) as [st' s']; simpl;
        destruct (OSErr_of st' =? noErr); simpl.
      all: try (destruct (hs unit _ s') as [u s'']; simpl).
      all: intros Heq;
        apply (f_equal (fun x => fst (snd (fst x)))) in Heq;
        symmetry; exact Heq. }
    subst w1. rewrite Hrun. unfold ring, trigger. simpl. fold p.
    rewrite Hr. simpl. rewrite Z.eqb_refl.
    exists (Ring.reset r). unfold Ring.reset, Ring.buffered. simpl.
    repeat split. lia.
Qed.

Lemma reset_pauses_then_resets_witness :
  exists r',
    rings (fst (world_of (run (hsum ring_handler sys_ok) (reset sample_ao)
                              (fst (sample_world 10), O))))
          500 = Some r'
    /\ Ring.buffered r' = 0
    /\ Ring.storage r' = Ring.storage (sample_ring 10)
    /\ Ring.capacity r' = Ring.capacity (sample_ring 10).
Proof.
  apply (proj2 reset_pauses_then_resets nat sys_ok (fst (sample_world 10))
               O sample_ao (sample_ring 10)).
  reflexivity.
Defined.

(** ** play *)

Lemma housekeeping_not_write_nor_start (ev : event call) :
  housekeeping ev = true -> not_write_nor_start ev = true.
Proof.
  destruct ev as [R [e | e] r]; unfold housekeeping; simpl.
  - intros Hf. discriminate Hf.
  - intros Hk. rewrite !andb_true_iff in Hk. apply Hk.
Qed.

Section PlayFacts.
Context {H : Headers}.

Lemma reset_quiet (ao : struct_ao) : quiet not_write_nor_start (reset ao).
Proof.
  unfold reset, audio_pause.
  destruct (truthy (b_digital (ao_priv ao))); walk.
Qed.

Lemma reset_returns (ao : struct_ao) :
  returns (reset ao) (fun ao1 => ao1 = upd_priv (set_paused 1) ao).
Proof.
  unfold reset, audio_pause.
  destruct (truthy (b_digital (ao_priv ao))); walk.
Qed.

Lemma play_restore_digital_quiet (ao : struct_ao) :
  quiet not_write_nor_start (play_restore_digital ao).
Proof.
  unfold play_restore_digital.
  set (ao' := upd_priv (set_b_stream_format_changed 0) ao).
  assert (Hchange : quiet not_write_nor_start
                           (AudioStreamChangeFormat
                              (i_stream_id (ao_priv ao'))
                              (stream_format (ao_priv ao')))).
  { apply quiet_weaken with (ok := housekeeping).
    - apply housekeeping_not_write_nor_start.
    - apply AudioStreamChangeFormat_quiet. }
  assert (Hreset := reset_quiet ao').
  revert Hchange Hreset.
  generalize (AudioStreamChangeFormat (i_stream_id (ao_priv ao'))
                                      (stream_format (ao_priv ao'))).
  generalize (reset ao').
  intros rst chg Hchange Hreset. walk; auto.
Qed.

Lemma play_restore_digital_returns (ao : struct_ao) :
  returns (play_restore_digital ao)
          (fun ao1 => buffer (ao_priv ao1) = buffer (ao_priv ao)).
Proof.
  unfold play_restore_digital.
  set (ao' := upd_priv (set_b_stream_format_changed 0) ao).
  assert (Hchange := AudioStreamChangeFormat_returns
                       (i_stream_id (ao_priv ao'))
                       (stream_format (ao_priv ao'))).
  assert (Hreset : returns (reset ao')
                           (fun ao1 => buffer (ao_priv ao1)
                                       = buffer (ao_priv ao))).
  { apply returns_impl with (2 := reset_returns ao'). intros a ->.
    reflexivity. }
  revert Hchange Hreset.
  generalize (AudioStreamChangeFormat (i_stream_id (ao_priv ao'))
                                      (stream_format (ao_priv ao'))).
  generalize (reset ao').
  intros rst chg Hchange Hreset. walk; auto.
Qed.

(** C3.  Every call to [play] makes exactly one ring buffer write, of the
    caller's data pointer and byte count on the session's ring buffer;
    nothing before it writes or starts the framework's pulls; after it
    comes the resume: no call when the session is not paused, the start
    call of the session's mode when it is, and the session is left
    unpaused; and [play] returns the count the write answered. *)
Theorem play_writes_then_resumes {W} (h : handler call W) (w : W)
        (ao : struct_ao) (output_samples num_bytes flags : Z) :
  let out := run h (play ao output_samples num_bytes flags) w in
  exists pre ao1 wrote post ao2,
    result_of (run h (play_restore_digital ao) w) = Some ao1
    /\ trace_of out
       = (pre ++ Ev (inl1 (mp_ring_write (buffer (ao_priv ao))
                                         output_samples num_bytes)) wrote
              :: post)%list
    /\ forallb not_write_nor_start pre = true
    /\ forallb not_ring post = true
    /\ (if truthy (paused (ao_priv ao1))
        then exists st msgs,
            post = Ev (inr1 (start_call (ao_priv ao1))) st :: msgs
            /\ forallb (fun ev => negb (is_stop ev) && negb (is_start ev))
                       msgs = true
        else post = [])
    /\ result_of out = Some (wrote, ao2)
    /\ paused (ao_priv ao2) = 0.
Proof.
  intros out. subst out. unfold play. rewrite run_bind.
  destruct (returns_run call h (play_restore_digital ao) _ w
                        (play_restore_digital_returns ao))
    as [ao1 [Hres Hbuf]].
  assert (Hpre := quiet_run call not_write_nor_start h
                            (play_restore_digital ao) w
                            (play_restore_digital_quiet ao)).
  destruct (run h (play_restore_digital ao) w) as [[o1 w1] pre].
  unfold result_of, trace_of in Hres, Hpre. simpl in Hres, Hpre. subst o1.
  unfold ring, trigger. simpl. rewrite Hbuf.
  destruct (h Z _ w1) as [wrote w2].
  rewrite run_bind.
  destruct (audio_resume_run h w2 ao1) as [w3 [post [Hrun [Hq Hpost]]]].
  rewrite Hrun. simpl.
  exists pre, ao1, wrote, post, (upd_priv (set_paused 0) ao1).
  rewrite app_nil_r.
  repeat split; try assumption; try reflexivity.
  destruct (truthy (paused (ao_priv ao1))).
  - exact Hpost.
  - apply Hpost.
Qed.

(** C9.  A [control] call with AOCONTROL_SET_VOLUME on a digital session
    leaves the muted flag at 1 when both volumes asked for compare equal
    to 0 (zeros of either sign) and at 0 otherwise, changes nothing else of
    the session, makes no call at all (so the hardware volume parameter is
    not set) and returns CONTROL_TRUE. *)
Theorem control_set_volume_digital {W} (h : handler call W) (w : W)
        (ao : struct_ao) (vol : ao_control_vol_t) :
  truthy (b_digital (ao_priv ao)) = true ->
  let out := run h (control ao AOCONTROL_SET_VOLUME vol) w in
  exists ao',
    out = (Some (CONTROL_TRUE, ao', vol), w, [])
    /\ b_muted (ao_priv ao')
       = (if float_eqb (left vol) (float_of_int 0)
             && float_eqb (right vol) (float_of_int 0)
          then 1 else 0)
    /\ (truthy (b_muted (ao_priv ao')) = true
        <-> exists sl sr,
            left vol = S754_zero sl /\ right vol = S754_zero sr)
    /\ ao' = upd_priv (set_b_muted (b_muted (ao_priv ao'))) ao
    /\ forallb (fun ev => negb (is_set_volume ev)) (trace_of out) = true.
Proof.
  intros Hd out. subst out. unfold control. rewrite Hd.
  assert (Hzero : forall x : Float32,
             float_eqb x (float_of_int 0) = true
             <-> exists sx, x = S754_zero sx).
  { intros x. destruct x as [sx | sx | | sx m e]; cbn.
    - split; [intros _; exists sx; reflexivity | reflexivity].
    - split; [destruct sx; discriminate | intros [s0 Hx]; discriminate Hx].
    - split; [discriminate | intros [s0 Hx]; discriminate Hx].
    - split; [destruct sx; discriminate | intros [s0 Hx]; discriminate Hx]. }
  destruct (float_eqb (left vol) (float_of_int 0)) eqn:Hl;
    destruct (float_eqb (right vol) (float_of_int 0)) eqn:Hr;
    cbn [andb]; eexists; (split; [reflexivity | ]);
    (split; [reflexivity | ]); (split; [ | split; reflexivity]).
  - apply Hzero in Hl. apply Hzero in Hr.
    destruct Hl as [sl Hl]. destruct Hr as [sr Hr].
    split; [intros _; exists sl, sr; split; assumption | reflexivity].
  - split; [discriminate | ]. intros [sl [sr [_ Hr']]].
    assert (Hc : float_eqb (right vol) (float_of_int 0) = true)
      by (apply Hzero; exists sr; exact Hr').
    congruence.
  - split; [discriminate | ]. intros [sl [sr [Hl' _]]].
    assert (Hc : float_eqb (left vol) (float_of_int 0) = true)
      by (apply Hzero; exists sl; exact Hl').
    congruence.
  - split; [discriminate | ]. intros [sl [sr [Hl' _]]].
    assert (Hc : float_eqb (left vol) (float_of_int 0) = true)
      by (apply Hzero; exists sl; exact Hl').
    congruence.
Qed.

End PlayFacts.

Lemma control_set_volume_digital_witness :
  exists ao',
    run sample_handler
        (@control sample_headers (sample_ao_digital 0) AOCONTROL_SET_VOLUME
                  {| left := S754_zero false; right := S754_zero true |})
        (sample_world 0)
    = (Some (1, ao',
             {| left := S754_zero false; right := S754_zero true |}),
       sample_world 0, [])
    /\ b_muted (ao_priv ao') = 1
    /\ b_muted (ao_priv (sample_ao_digital 0)) = 0.
Proof.
  destruct (@control_set_volume_digital
              sample_headers _ sample_handler (sample_world 0)
              (sample_ao_digital 0)
              {| left := S754_zero false; right := S754_zero true |}
              eq_refl) as [ao' [Hrun [Hm _]]].
  exists ao'. split; [exact Hrun | ]. split; [exact Hm | reflexivity].
Defined.

(** ** Session setup: the ring buffer is asked for before a callback is
       registered *)

Lemma housekeeping_neutral (ev : event call) :
  housekeeping ev = true -> is_register ev = false /\ ring_new_of ev = None.
Proof.
  destruct ev as [R [e | e] r]; unfold housekeeping; simpl.
  - intros Hf. discriminate Hf.
  - intros Hk. rewrite !andb_true_iff, !negb_true_iff in Hk.
    split; [apply Hk | reflexivity].
Qed.

Lemma returns_all_paths (E : Type -> Type) {A} (m : prog E A)
      (Q : A -> Prop) :
  returns m Q -> all_paths m (fun _ o => exists a, o = Some a /\ Q a).
Proof.
  induction m as [a | R e k IH | ]; simpl; intros Hm.
  - exists a. split; [reflexivity | exact Hm].
  - intros r. apply IH, Hm.
  - contradiction.
Qed.

Lemma all_paths_conj (E : Type -> Type) {A} (m : prog E A)
      (P Q : list (event E) -> option A -> Prop) :
  all_paths m P -> all_paths m Q -> all_paths m (fun t o => P t o /\ Q t o).
Proof.
  revert P Q. induction m as [a | R e k IH | ]; simpl; intros P Q HP HQ.
  - split; assumption.
  - intros r. apply (IH r _ _ (HP r) (HQ r)).
  - split; assumption.
Qed.

Lemma quiet_paths (E : Type -> Type) (ok : event E -> bool) {A}
      (m : prog E A) :
  quiet ok m -> all_paths m (fun t _ => forallb ok t = true).
Proof.
  induction m as [a | R e k IH | ]; simpl; intros Hm.
  - reflexivity.
  - intros r. destruct (Hm r) as [He Hk].
    apply all_paths_impl with (2 := IH r Hk).
    intros t _ Ht. simpl. rewrite He. exact Ht.
  - reflexivity.
Qed.

Lemma check_ca_st_quiet (level : msglevel) (code : Z) (message : string) :
  quiet housekeeping (check_ca_st level code message).
Proof. unfold check_ca_st. walk. Qed.

Lemma GetAudioPropertyArray_quiet (id : Z)
      (selector : AudioObjectPropertySelector)
      (scope : AudioObjectPropertyScope) :
  quiet housekeeping (GetAudioPropertyArray id selector scope).
Proof. unfold GetAudioPropertyArray, check_ca_st. walk. Qed.

Lemma GetAudioPropertyString_quiet (id : Z)
      (selector : AudioObjectPropertySelector) :
  quiet housekeeping (GetAudioPropertyString id selector).
Proof. unfold GetAudioPropertyString, check_ca_st. walk. Qed.

Lemma quiet_all_paths {A} (m : prog call A) :
  quiet housekeeping m ->
  all_paths m (fun t _ => forallb housekeeping t = true).
Proof.
  induction m as [a | R e k IH | ]; simpl; intros Hm.
  - reflexivity.
  - intros r. destruct (Hm r) as [He Hk].
    apply all_paths_impl with (2 := IH r Hk).
    intros t _ Ht. simpl. rewrite He. exact Ht.
  - reflexivity.
Qed.

Create HintDb walk_db.

#[local] Hint Resolve check_ca_st_quiet GetAudioPropertyArray_quiet
  GetAudioPropertyString_quiet : walk_db.

Arguments check_ca_st : simpl never.
Arguments GetAudioPropertyArray : simpl never.
Arguments GetAudioPropertyString : simpl never.

Lemma GetGlobalAudioPropertyArray_quiet (id : Z)
      (selector : AudioObjectPropertySelector) :
  quiet housekeeping (GetGlobalAudioPropertyArray id selector).
Proof. apply GetAudioPropertyArray_quiet. Qed.

#[local] Hint Resolve GetGlobalAudioPropertyArray_quiet : walk_db.
Arguments GetGlobalAudioPropertyArray : simpl never.

(** Steps through a setup function, skipping the quiet calls. *)
Ltac qwalk :=
  repeat (simpl;
          match goal with
          | |- forall _, _ => intro
          | |- _ /\ _ => split
          | |- True => exact I
          | |- _ = true => reflexivity
          | |- context [bind (if ?c then _ else _) _] => destruct c
          | |- context [bind (match ?x with _ => _ end) _] => destruct x
          | |- quiet _ (if ?c then _ else _) => destruct c
          | |- quiet _ (match ?x with _ => _ end) => destruct x
          | |- quiet _ (bind _ _) => apply quiet_bind
          | |- quiet _ _ => solve [auto with walk_db]
          end).

Section SetupWalk.
Context {H : Headers}.

Lemma print_devices_quiet (devs : list Z) :
  quiet housekeeping (print_devices devs).
Proof.
  induction devs as [ | dev rest IH]; [exact I | ].
  cbn [print_devices]. qwalk.
Qed.

Lemma print_help_quiet : quiet housekeeping print_help.
Proof.
  unfold print_help. qwalk. all: try apply print_devices_quiet.
Qed.

Lemma choose_stream_format_quiet
      (p_format_list : list AudioStreamRangedDescription) (ao : struct_ao) :
  quiet housekeeping (choose_stream_format p_format_list ao).
Proof.
  unfold choose_stream_format.
  destruct (select_rate_format _ _ _ _ _ _ _) as [[a b] c]. qwalk.
Qed.

Lemma find_digital_stream_quiet (p_streams : list Z) (i : Z)
      (ao : struct_ao) :
  quiet housekeeping (find_digital_stream p_streams i ao).
Proof.
  revert i ao. induction p_streams as [ | stream rest IH]; intros i ao.
  - exact I.
  - cbn [find_digital_stream].
    assert (Hchoose := choose_stream_format_quiet).
    revert Hchoose. generalize choose_stream_format. intros choose Hchoose.
    qwalk; auto.
    all: try (apply quiet_bind; [apply Hchoose | intros; apply IH]).
Qed.

Lemma set_mixable_false_quiet (ao : struct_ao) :
  quiet housekeeping (set_mixable_false ao).
Proof. unfold set_mixable_false. qwalk. Qed.

Lemma check_byte_order_quiet (ao : struct_ao) :
  quiet housekeeping (check_byte_order ao).
Proof. unfold check_byte_order. qwalk. Qed.

Lemma err_out_quiet (ao : struct_ao) : quiet housekeeping (err_out ao).
Proof. unfold err_out. qwalk. Qed.

Lemma err_out1_quiet (ao : struct_ao) : quiet housekeeping (err_out1 ao).
Proof.
  unfold err_out1.
  assert (Hchange := AudioStreamChangeFormat_quiet
                       (i_stream_id (ao_priv ao)) (sfmt_revert (ao_priv ao))).
  assert (Herr := err_out_quiet ao).
  revert Hchange Herr.
  generalize (AudioStreamChangeFormat (i_stream_id (ao_priv ao))
                                      (sfmt_revert (ao_priv ao))).
  generalize (err_out ao). intros e c Hchange Herr.
  qwalk; auto.
Qed.

End SetupWalk.

#[local] Hint Resolve AudioStreamChangeFormat_quiet print_help_quiet
  find_digital_stream_quiet set_mixable_false_quiet check_byte_order_quiet
  err_out_quiet err_out1_quiet : walk_db.

Arguments AudioStreamChangeFormat : simpl never.
Arguments print_help : simpl never.
Arguments find_digital_stream : simpl never.
Arguments set_mixable_false : simpl never.
Arguments check_byte_order : simpl never.
Arguments err_out : simpl never.
Arguments err_out1 : simpl never.
Arguments reset : simpl never.

(** Like [qwalk], leaving the helpers folded. *)
Ltac qstep :=
  repeat (cbn;
          match goal with
          | |- forall _, _ => intro
          | |- _ /\ _ => split
          | |- True => exact I
          | |- _ = true => reflexivity
          | |- quiet _ (if ?c then _ else _) => destruct c
          | |- quiet _ (bind _ _) => apply quiet_bind
          | |- quiet _ _ => solve [auto with walk_db]
          end).

Section SetupMain.
Context {H : Headers}.

Lemma same_ring_size (a b : struct_ao) :
  same_ring a b ->
  get_ring_size a = get_ring_size b
  /\ buffer (ao_priv a) = buffer (ao_priv b).
Proof.
  intros [Hf [Hc [Hs Hb]]]. unfold get_ring_size.
  rewrite Hf, Hc, Hs. split; [reflexivity | exact Hb].
Qed.

End SetupMain.

Section SetupOrderFacts.
Context {H : Headers}.

Lemma setup_app_quiet (t1 t2 : list (event call))
      (o : option (Z * struct_ao)) :
  forallb housekeeping t1 = true -> setup_state t2 o ->
  setup_state (t1 ++ t2) o.
Proof.
  induction t1 as [ | ev t1 IH]; simpl; intros Hq Hg.
  - exact Hg.
  - apply andb_true_iff in Hq. destruct Hq as [Hev Hq].
    destruct (housekeeping_neutral ev Hev) as [Hreg Hnew].
    rewrite Hreg, Hnew. auto.
Qed.

Lemma setup_quiet_none (t : list (event call)) :
  forallb housekeeping t = true -> setup_state t None.
Proof.
  intros Hq. rewrite <- (app_nil_r t).
  apply setup_app_quiet; [exact Hq | exact I].
Qed.

(** A quiet prefix can be skipped. *)
Lemma setup_bind {A} (m : prog call A)
      (f : A -> prog call (Z * struct_ao)) :
  quiet housekeeping m ->
  (forall a, all_paths (f a) setup_state) ->
  all_paths (bind m f) setup_state.
Proof.
  intros Hm Hf. apply all_paths_bind.
  apply all_paths_impl with (2 := quiet_all_paths m Hm).
  intros t [a | ] Ht.
  - apply all_paths_impl with (2 := Hf a).
    intros t' o' Hg. apply setup_app_quiet; assumption.
  - apply setup_quiet_none, Ht.
Qed.

(** A quiet function that answers a failure. *)
Lemma setup_quiet_failed (m : prog call (Z * struct_ao)) :
  quiet housekeeping m ->
  returns m (fun x => setup_failed (fst x)) ->
  all_paths m setup_state.
Proof.
  intros Hq Hr.
  apply all_paths_impl
    with (2 := all_paths_conj call m _ _ (quiet_all_paths m Hq)
                              (returns_all_paths call m _ Hr)).
  intros t o [Ht [x [-> Hx]]].
  rewrite <- (app_nil_r t). apply setup_app_quiet; [exact Ht | exact Hx].
Qed.

(** The rest of a run after its registration. *)
Lemma registered_tail (ok : bool) (size ptr : Z) (pre : list (event call))
      (m : prog call (Z * struct_ao)) :
  existsb is_register pre = false ->
  quiet (fun ev => negb (is_register ev)) m ->
  returns m (fun x => size = get_ring_size (snd x)
                      /\ buffer (ao_priv (snd x)) = ptr
                      /\ (if ok then setup_succeeded (fst x)
                          else setup_failed (fst x))) ->
  all_paths m (fun t o => registered_state ok size ptr (pre ++ t) o).
Proof.
  intros Hpre Hq Hr.
  apply all_paths_impl
    with (2 := all_paths_conj call m _ _
                              (quiet_paths call _ m Hq)
                              (returns_all_paths call m _ Hr)).
  intros t o [Ht [x [-> Hx]]]. split.
  - rewrite existsb_app, Hpre. cbn [orb].
    clear - Ht. induction t as [ | ev t IH]; [reflexivity | ].
    cbn [forallb existsb] in *. apply andb_true_iff in Ht.
    destruct Ht as [Hev Ht]. apply negb_true_iff in Hev.
    rewrite Hev. apply IH, Ht.
  - exists x. split; [reflexivity | exact Hx].
Qed.

Lemma err_out_fails (ao : struct_ao) :
  returns (err_out ao)
          (fun x => fst x = CONTROL_FALSE /\ same_ring (snd x) ao).
Proof.
  unfold err_out. walk.
  all: unfold same_ring; simpl; repeat split; reflexivity.
Qed.

Lemma err_out1_fails (ao : struct_ao) :
  returns (err_out1 ao)
          (fun x => fst x = CONTROL_FALSE /\ same_ring (snd x) ao).
Proof.
  unfold err_out1.
  assert (Hchange := AudioStreamChangeFormat_returns
                       (i_stream_id (ao_priv ao)) (sfmt_revert (ao_priv ao))).
  assert (Herr := err_out_fails ao).
  revert Hchange Herr.
  generalize (AudioStreamChangeFormat (i_stream_id (ao_priv ao))
                                      (sfmt_revert (ao_priv ao))).
  generalize (err_out ao). intros e c Hchange Herr.
  destruct (truthy (b_revert (ao_priv ao))); simpl.
  - apply returns_bind with (Q := fun _ => True).
    + apply returns_bind with (Q := fun _ => True); [exact Hchange | ].
      intros _ _. exact I.
    + intros _ _. exact Herr.
  - exact Herr.
Qed.

Lemma housekeeping_unregistered (ev : event call) :
  housekeeping ev = true -> negb (is_register ev) = true.
Proof.
  intros Hev. apply (housekeeping_neutral ev) in Hev.
  destruct Hev as [Hreg _]. rewrite Hreg. reflexivity.
Qed.

Lemma init_lpcm_setup (ao : struct_ao) (asbd : AudioStreamBasicDescription)
      (device_opt : Z) (chmap_sel : mp_chmap_sel) :
  all_paths (init_lpcm ao asbd device_opt chmap_sel) setup_state.
Proof.
  unfold init_lpcm, coreaudio_error_audiounit, coreaudio_error_component,
    coreaudio_error, check_ca_st, print_buffer, reset, audio_pause, ca_msg,
    ca_msg_a, ring, sys, trigger.
  cbn [upd_priv set_theOutputUnit ao_priv theOutputUnit b_digital
       set_buffer].
  repeat (cbn [bind all_paths negb];
          match goal with
          | |- forall _, _ => intro
          | |- all_paths (if ?c then _ else _) _ => destruct c eqn:?
          | |- all_paths (match ?x with _ => _ end) _ => destruct x
          | |- context [bind (if ?c then _ else _) _] => destruct c eqn:?
          | |- context [bind (match ?x with _ => _ end) _] => destruct x
          end).
  all: cbn [setup_state created_state is_register ring_new_of
            ring_call_of_event ring_call_of register_ok register_status
            fst snd].
  all: try (left; reflexivity).
  all: unfold registered_state;
    cbn [existsb is_register orb fst snd ao_priv buffer upd_priv set_buffer
         set_paused get_ring_size];
    (split; [reflexivity | ]);
    eexists; (split; [reflexivity | ]);
    cbn [fst snd];
    (split; [reflexivity | ]); (split; [reflexivity | ]).
  all: match goal with
       | Hq : (?r =? noErr) = _ |- context [?r =? noErr] => rewrite Hq
       end; first [left; reflexivity | right; reflexivity].
Qed.

End SetupOrderFacts.

(** Steps through a setup function up to the creation of the ring
    buffer. *)
Ltac swalk :=
  repeat (cbn;
          match goal with
          | |- forall _, _ => intros ?
          | |- True => exact I
          | |- _ \/ _ => first [left; reflexivity | right; reflexivity]
          | |- setup_failed _ => first [left; reflexivity | right; reflexivity]
          | |- all_paths (if negb (?a =? noErr) || (?b =? 0) then _ else _) _ =>
              destruct (a =? noErr) eqn:?, (b =? 0) eqn:?
          | |- context [bind (if ?c then _ else _) _] => destruct c
          | |- context [bind (match ?x with _ => _ end) _] => destruct x
          | |- all_paths (if ?c then _ else _) _ => destruct c
          | |- all_paths (match ?x with _ => _ end) _ => destruct x
          | |- all_paths (err_out _) _ =>
              apply setup_quiet_failed;
              [auto with walk_db
              | apply returns_impl with (2 := err_out_fails _);
                intros ? [? _]; left; assumption]
          | |- all_paths (bind _ _) _ =>
              apply setup_bind; [solve [qstep] | ]
          end).

(** Runs through the pause that ends a successful setup. *)
Ltac created_tail :=
  unfold reset, audio_pause, check_ca_st, ca_msg, ca_msg_a, ring, sys,
    trigger;
  repeat (cbn [bind all_paths negb];
          match goal with
          | |- forall _, _ => intros ?
          | |- all_paths (if ?c then _ else _) _ => destruct c eqn:?
          | |- context [bind (if ?c then _ else _) _] => destruct c eqn:?
          end).

(** Closes a run that has made its registration. *)
Ltac registered_leaf :=
  match goal with
  | |- all_paths (err_out1 ?a)
                 (fun t o => registered_state ?ok ?size ?ptr (?e :: t) o) =>
      apply (registered_tail ok size ptr [e] (err_out1 a));
      [ reflexivity
      | apply quiet_weaken with (2 := err_out1_quiet a);
        exact housekeeping_unregistered
      | apply returns_impl with (2 := err_out1_fails a);
        let x := fresh "x" in
        let Hv := fresh "Hv" in
        let Hx := fresh "Hx" in
        let Hs := fresh "Hs" in
        let Hb := fresh "Hb" in
        intros x [Hv Hx]; destruct (same_ring_size _ _ Hx) as [Hs Hb];
        split; [rewrite Hs; reflexivity
               | split; [rewrite Hb; reflexivity | left; exact Hv]] ]
  | |- registered_state _ _ _ _ _ =>
      split; [reflexivity | ];
      eexists; (split; [reflexivity | ]);
      (split; [reflexivity | ]); (split; [reflexivity | ]);
      first [left; reflexivity | right; reflexivity]
  end.

Section SetupOrderMain.
Context {H : Headers}.

Lemma OpenSPDIF_setup (ao : struct_ao) :
  all_paths (OpenSPDIF ao) setup_state.
Proof.
  unfold OpenSPDIF. swalk. all: cbn; created_tail; registered_leaf.
Qed.

Lemma init_digital_setup (ao : struct_ao)
      (asbd : AudioStreamBasicDescription) :
  all_paths (init_digital ao asbd) setup_state.
Proof.
  unfold init_digital.
  assert (Hopen := OpenSPDIF_setup). revert Hopen.
  generalize OpenSPDIF. intros open Hopen.
  swalk. all: apply Hopen.
Qed.

Lemma init_setup (ao : struct_ao) (params : string) :
  all_paths (init ao params) setup_state.
Proof.
  unfold init, coreaudio_error.
  assert (Hd := init_digital_setup). assert (Hl := init_lpcm_setup).
  revert Hd Hl. generalize init_digital, init_lpcm. intros dig lpcm Hd Hl.
  swalk. all: first [apply Hd | apply Hl].
Qed.


(** What [created_state] says about the first registration. *)
Lemma created_state_register (size ptr : Z) (t : list (event call))
      (o : option (Z * struct_ao)) :
  created_state size ptr t o ->
  exists n ev ret ao',
    first_register t = Some n
    /\ nth_error t n = Some ev
    /\ is_register ev = true
    /\ existsb is_register (skipn (S n) t) = false
    /\ o = Some (ret, ao')
    /\ size = get_ring_size ao'
    /\ buffer (ao_priv ao') = ptr
    /\ (if register_ok ev then setup_succeeded ret else setup_failed ret).
Proof.
  induction t as [ | ev t IH]; simpl; [contradiction | ].
  destruct (is_register ev) eqn:Hreg.
  - intros [Hno [[ret ao'] [Ho [Hsize [Hptr Hok]]]]].
    exists O, ev, ret, ao'. simpl in *. repeat split; assumption.
  - intros Hc. destruct (IH Hc)
      as [n [ev' [ret [ao' [Hn [Hev [Hr [Hno [Ho [Hs [Hp Hok]]]]]]]]]]].
    exists (S n), ev', ret, ao'. rewrite Hn. repeat split; assumption.
Qed.

(** What [setup_state] says about a run. *)
Lemma setup_state_order (t : list (event call))
      (o : option (Z * struct_ao)) :
  sized_by_byte_rate ->
  setup_state t o -> created_before_registered t o.
Proof.
  intros Hsized. unfold created_before_registered.
  induction t as [ | ev t IH]; simpl; [auto | ].
  destruct (is_register ev) eqn:Hreg; [contradiction | ].
  destruct (ring_new_of ev) as [[size ptr] | ] eqn:Hnew.
  - intros Hc. destruct (created_state_register size ptr t o Hc)
      as [n [ev' [ret [ao' [Hn [Hev [Hr [Hno [Ho [Hs [Hp Hok]]]]]]]]]]].
    rewrite Hn. exists O, ev, ev', ret, ao'.
    split; [lia | ]. split; [reflexivity | ].
    split; [ | repeat split; assumption].
    rewrite Hnew, Hs, Hp. unfold get_ring_size, half_second_bytes.
    rewrite Hsized. reflexivity.
  - intros Hs. specialize (IH Hs).
    destruct (first_register t) as [n | ]; [ | exact IH].
    destruct IH as [k [new [ev' [ret [ao' [Hk IH]]]]]].
    exists (S k), new, ev', ret, ao'. split; [lia | exact IH].
Qed.

End SetupOrderMain.

(** ** The ring buffers of a run *)

Section RingRun.
Context {S : Type} (hs : handler sysE S).

Lemma run_rings {A} (m : prog call A) (w : ring_world) (s : S) :
  let out := run (hsum ring_handler hs) m (w, s) in
  answered_by_rings w (trace_of out)
  /\ fst (world_of out) = rings_after (trace_of out) w.
Proof.
  revert w s. induction m as [a | R e k IH | ]; intros w s.
  - split; [exact I | reflexivity].
  - destruct e as [e | e]; cbn [run hsum fst snd].
    + destruct (ring_handler e w) as [r w1] eqn:Hh.
      specialize (IH r w1 s). cbv zeta in IH.
      destruct (run (hsum ring_handler hs) (k r) (w1, s)) as [[o w2] t].
      unfold trace_of, world_of in *. cbn [fst snd] in *.
      cbn [answered_by_rings rings_after]. rewrite Hh. cbn [fst snd].
      destruct IH as [Ha Hw]. repeat split; assumption.
    + destruct (hs R e s) as [r s1].
      specialize (IH r w s1). cbv zeta in IH.
      destruct (run (hsum ring_handler hs) (k r) (w, s1)) as [[o w2] t].
      unfold trace_of, world_of in *. cbn [fst snd] in *.
      cbn [answered_by_rings rings_after]. exact IH.
  - split; [exact I | reflexivity].
Qed.

End RingRun.

(** A ring buffer call keeps the ring buffers made so far, with their
    capacity. *)
Lemma ring_kept {R} (e : ringE R) (w : ring_world) (b : Z) (r : Ring.t) :
  rings w b = Some r -> b < next_ring w ->
  exists r', rings (snd (ring_handler e w)) b = Some r'
             /\ Ring.capacity r' = Ring.capacity r
             /\ b < next_ring (snd (ring_handler e w)).
Proof.
  intros Hr Hb.
  destruct e; cbn [ring_handler].
  - destruct (Ring.create size); cbn [snd rings next_ring].
    + destruct (b =? next_ring w) eqn:Hq; [lia | ].
      exists r. repeat split; [exact Hr | lia].
    + exists r. repeat split; assumption.
  - destruct (rings w buffer0) as [r0 | ] eqn:H0.
    + destruct (Ring.read r0 len) as [[r' bytes] n] eqn:Hread.
      cbn [snd rings next_ring set_ring].
      destruct (b =? buffer0) eqn:Hq.
      * apply Z.eqb_eq in Hq. subst b. rewrite H0 in Hr.
        injection Hr as ->. exists r'. unfold Ring.read in Hread.
        injection Hread as <- _ _. repeat split; assumption.
      * exists r. repeat split; assumption.
    + exists r. repeat split; assumption.
  - destruct (rings w buffer0) as [r0 | ] eqn:H0.
    + destruct (Ring.drain r0 len) as [r' n] eqn:Hdrain.
      cbn [snd rings next_ring set_ring].
      destruct (b =? buffer0) eqn:Hq.
      * apply Z.eqb_eq in Hq. subst b. rewrite H0 in Hr.
        injection Hr as ->. exists r'. unfold Ring.drain in Hdrain.
        injection Hdrain as <- _. repeat split; assumption.
      * exists r. repeat split; assumption.
    + exists r. repeat split; assumption.
  - destruct (rings w buffer0) as [r0 | ] eqn:H0.
    + destruct (Ring.write r0 _ len) as [r' n] eqn:Hwrite.
      cbn [snd rings next_ring set_ring].
      destruct (b =? buffer0) eqn:Hq.
      * apply Z.eqb_eq in Hq. subst b. rewrite H0 in Hr.
        injection Hr as ->. exists r'. unfold Ring.write in Hwrite.
        injection Hwrite as <- _. repeat split; assumption.
      * exists r. repeat split; assumption.
    + exists r. repeat split; assumption.
  - destruct (rings w buffer0) as [r0 | ] eqn:H0.
    + cbn [snd rings next_ring set_ring].
      destruct (b =? buffer0) eqn:Hq.
      * apply Z.eqb_eq in Hq. subst b. rewrite H0 in Hr.
        injection Hr as ->. exists (Ring.reset r).
        repeat split; assumption.
      * exists r. repeat split; assumption.
    + exists r. repeat split; assumption.
  - destruct (rings w buffer0); exists r; repeat split; assumption.
  - destruct (rings w buffer0); exists r; repeat split; assumption.
  - exists r. repeat split; assumption.
Qed.

Lemma rings_kept (t : list (event call)) (w : ring_world) (b : Z)
      (r : Ring.t) :
  rings w b = Some r -> b < next_ring w ->
  exists r', rings (rings_after t w) b = Some r'
             /\ Ring.capacity r' = Ring.capacity r.
Proof.
  revert w r. induction t as [ | [R [e | e] a] t IH]; intros w r Hr Hb.
  - exists r. split; [exact Hr | reflexivity].
  - cbn [rings_after].
    destruct (ring_kept e w b r Hr Hb) as [r1 [Hr1 [Hc1 Hb1]]].
    destruct (IH _ r1 Hr1 Hb1) as [r' [Hr' Hc']].
    exists r'. split; [exact Hr' | congruence].
  - cbn [rings_after]. apply IH; assumption.
Qed.

(** The ring buffer a call created in a run answered by [ring_handler]. *)
Lemma created_kept (t : list (event call)) (w : ring_world) (k n : nat)
      (new : event call) (size ptr : Z) :
  answered_by_rings w t ->
  nth_error t k = Some new ->
  ring_new_of new = Some (size, ptr) ->
  (k < n)%nat ->
  if 0 <? size
  then exists r, rings (rings_after (firstn n t) w) ptr = Some r
                 /\ Ring.capacity r = size
  else ptr = 0.
Proof.
  revert w k n. induction t as [ | ev t IH]; intros w k n Ha Hk Hnew Hkn.
  - destruct k; discriminate Hk.
  - destruct n as [ | n]; [lia | ]. destruct k as [ | k].
    + injection Hk as ->.
      destruct new as [R [e | e] a]; [ | discriminate Hnew].
      destruct e; try discriminate Hnew.
      unfold ring_new_of in Hnew. cbn in Hnew. injection Hnew as -> ->.
      cbn [answered_by_rings] in Ha. destruct Ha as [Hans _].
      cbn [firstn rings_after]. revert Hans. cbn [ring_handler].
      unfold Ring.create.
      destruct (0 <? size) eqn:Hpos.
      * apply Z.ltb_lt in Hpos.
        destruct (size <=? 0) eqn:Hle; [lia | ].
        cbn [fst snd]. intros ->.
        match goal with
        | |- exists r, rings (rings_after _ ?w1) _ = _ /\ _ =>
            destruct (rings_kept (firstn n t) w1 (next_ring w)
                        {| Ring.capacity := size;
                           Ring.storage := repeat 0 (Z.to_nat size);
                           Ring.readPos := 0; Ring.writePos := 0 |})
              as [r' [Hr' Hc']]
        end.
        -- cbn [rings]. rewrite Z.eqb_refl. reflexivity.
        -- cbn [next_ring]. lia.
        -- exists r'. split; [exact Hr' | exact Hc'].
      * apply Z.ltb_ge in Hpos.
        destruct (size <=? 0) eqn:Hle; [ | lia].
        cbn [fst]. intros ->. reflexivity.
    + cbn [nth_error] in Hk. cbn [firstn].
      destruct ev as [R [e | e] a]; cbn [answered_by_rings rings_after] in *.
      * destruct Ha as [_ Ha].
        apply (IH _ k n Ha Hk Hnew). lia.
      * apply (IH _ k n Ha Hk Hnew). lia.
Qed.

Lemma first_register_length (t : list (event call)) (n : nat) :
  first_register t = Some n -> (n < List.length t)%nat.
Proof.
  revert n. induction t as [ | ev t IH]; simpl; intros n Hn.
  - discriminate Hn.
  - destruct (is_register ev); [injection Hn as <-; lia | ].
    destruct (first_register t) as [m | ]; [ | discriminate Hn].
    injection Hn as <-. specialize (IH m eq_refl). lia.
Qed.

Section SetupClaimFacts.
Context {H : Headers}.

Lemma order_buffer (w : ring_world) (t : list (event call))
      (o : option (Z * struct_ao)) :
  created_before_registered t o -> answered_by_rings w t ->
  buffer_at_registration w t o.
Proof.
  unfold created_before_registered, buffer_at_registration.
  destruct (first_register t) as [n | ] eqn:Hn; [ | intros; exact I].
  intros [k [new [ev [ret [ao' [Hk [Hnew [Hsize [_ [_ [_ [Ho _]]]]]]]]]]]] Ha.
  subst o.
  cbv zeta.
  assert (Hat := created_kept t w k n new _ _ Ha Hnew Hsize Hk).
  assert (Hlen := first_register_length t n Hn).
  assert (Hend := created_kept t w k (List.length t) new _ _ Ha Hnew Hsize
                               ltac:(lia)).
  rewrite firstn_all in Hend.
  destruct (0 <? half_second_bytes ao'); [split; assumption | exact Hat].
Qed.

End SetupClaimFacts.




(** The run of C7's counterexample: the creation answers the null address,
    the callback is registered as call 16, and the setup answers
    CONTROL_OK with the null address in [p->buffer]. *)
Example setup_runs_rate0 :
  ring_calls (trace_of sample_init_run_rate0)
  = [RNew 0 0; RRepr 0; RReset 0]
  /\ first_register (trace_of sample_init_run_rate0) = Some 16%nat
  /\ option_map fst (result_of sample_init_run_rate0)
     = Some (@CONTROL_OK sample_headers)
  /\ option_map (fun x => buffer (ao_priv (snd x)))
                (result_of sample_init_run_rate0) = Some 0
  /\ rings (fst (world_of sample_init_run_rate0)) 0 = None.
Proof. vm_compute. repeat split; reflexivity. Qed.

(** Both setups, run against that framework: the ring buffer is created
    (0.5 s of 16-bit stereo at 44100 Hz, and at 48000 Hz) before the
    registration, which is call 16 of the analog run and call 28 of the
    digital one. *)
Example setup_runs :
  first_register (trace_of sample_init_run) = Some 16%nat
  /\ ring_calls (trace_of sample_init_run)
     = [RNew 88200 501; RRepr 501; RReset 501]
  /\ first_register
       (trace_of (run sample_handler (@OpenSPDIF sample_headers sample_ao)
                      (sample_world 0))) = Some 28%nat
  /\ ring_calls
       (trace_of (run sample_handler (@OpenSPDIF sample_headers sample_ao)
                      (sample_world 0)))
     = [RNew 48000 501; RRepr 501; RReset 501].
Proof. vm_compute. repeat split; reflexivity. Qed.

(** ** The console wrapper *)

Module ConredirFacts.
Import Conredir.

(** Names the answer of the handler to the call made in world [w]. *)
Ltac answer h w r w' :=
  match goal with
  | |- context [h ?R ?e w] => destruct (h R e w) as [r w']
  end.

Lemma cr_runproc_calls (sizeof_si : Z) {W} (h : handler winE W) (w : W)
      (name cmdline : wstring) :
  let out := run h (cr_runproc sizeof_si name cmdline) w in
  launch_calls sizeof_si name cmdline (win_calls (trace_of out))
  /\ result_of out = Some tt.
Proof.
  unfold cr_runproc, cr_perror, win, trigger, launch_calls. simpl.
  answer h w hin w1. answer h w1 hout w2. answer h w2 herr w3.
  answer h w3 okpi w4. destruct okpi as [ok pi].
  destruct ok; simpl.
  - answer h w4 r5 w5. answer h w5 r6 w6. answer h w6 r7 w7. simpl.
    split; [ | reflexivity].
    exists hin, hout, herr, true, pi. eexists. split; reflexivity.
  - answer h w4 r5 w5. answer h w5 r6 w6. answer h w6 r7 w7. simpl.
    split; [ | destruct r7; reflexivity].
    exists hin, hout, herr, false, pi. eexists. split; reflexivity.
Qed.

(** C10.  Every call of [cr_runproc] launches its target through
    CreateProcessW with handle inheritance enabled and the wrapper's own
    standard input, output and error handles in a STARTUPINFO flagged
    STARTF_USESTDHANDLES, and on success waits for the child before
    returning; every invocation of the wrapper whose command line and
    module path are well formed (the command line is at least as long as
    argv[0], the module path has a dot and its new name fits MAX_PATH)
    makes exactly that call of [cr_runproc], on the module path with its
    extension replaced by [exe] and the arguments appended, and returns
    0. *)
Theorem console_wrapper_launches_and_waits :
  (forall (sizeof_si : Z) W (h : handler winE W) (w : W)
          (name cmdline : wstring),
      let out := run h (cr_runproc sizeof_si name cmdline) w in
      launch_calls sizeof_si name cmdline (win_calls (trace_of out))
      /\ result_of out = Some tt)
  /\ (forall (sizeof_si : Z) W (h : handler winE W) (w : W) (argc : Z)
             (argv0 : wstring) (argv envp : list wstring) (exe' : wstring),
         let cmd := fst (h _ GetCommandLineW w) in
         let w1 := snd (h _ GetCommandLineW w) in
         let exe := fst (h _ (GetModuleFileNameW MAX_PATH) w1) in
         let args := skipn (List.length argv0) cmd in
         let out := run h (wmain sizeof_si argc (argv0 :: argv) envp) w in
         (List.length argv0 <= List.length cmd)%nat ->
         replace_extension (firstn (Z.to_nat (MAX_PATH - 1)) exe)
         = Some exe' ->
         result_of out = Some 0
         /\ exists calls,
             win_calls (trace_of out) = WOther :: WOther :: calls
             /\ launch_calls sizeof_si exe' (exe' ++ args)%list calls).
Proof.
  split.
  - intros. apply cr_runproc_calls.
  - intros sizeof_si W h w argc argv0 argv envp exe' cmd w1 exe args out
           Hlen Hext.
    subst out. unfold wmain, win, trigger. cbn [bind run].
    subst cmd w1 exe args.
    destruct (h wstring GetCommandLineW w) as [cmd w1]. cbn [fst snd] in *.
    apply Nat.ltb_ge in Hlen. rewrite Hlen. cbn [bind run].
    destruct (h wstring (GetModuleFileNameW MAX_PATH) w1) as [exe w2].
    cbn [fst snd] in *. rewrite Hext.
    rewrite run_bind.
    destruct (cr_runproc_calls sizeof_si h w2 exe'
                               (exe' ++ skipn (List.length argv0) cmd)%list)
      as [Hcalls Hres].
    destruct (run h (cr_runproc sizeof_si exe'
                                (exe' ++ skipn (List.length argv0) cmd)%list)
                  w2) as [[o w3] t].
    unfold result_of, trace_of in Hcalls, Hres. simpl in Hcalls, Hres.
    subst o. simpl. split; [reflexivity | ].
    exists (win_calls t). split; [ | exact Hcalls].
    unfold win_calls. simpl. rewrite app_nil_r. reflexivity.
Qed.

Lemma console_wrapper_launches_and_waits_witness :
  result_of (run win_ok (wmain 104 2 [wstr "mpv.com"; wstr "--version"] [])
                 O) = Some 0
  /\ exists calls,
      win_calls (trace_of (run win_ok
                               (wmain 104 2
                                      [wstr "mpv.com"; wstr "--version"] [])
                               O))
      = WOther :: WOther :: calls
      /\ launch_calls 104 (wstr "C:\mpv\mpv.exe")
                      (wstr "C:\mpv\mpv.exe" ++ wstr " --version")%list
                      calls.
Proof.
  apply (proj2 console_wrapper_launches_and_waits 104 nat win_ok O 2
               (wstr "mpv.com") [wstr "--version"] []
               (wstr "C:\mpv\mpv.exe")).
  - apply Nat.leb_le. reflexivity.
  - reflexivity.
Defined.

End ConredirFacts.

(** * Further facts *)

(** ** fourcc_repr and the format flags *)

Lemma isprint_char_of (b : Z) :
  0 <= b < 256 -> isprint (char_of b) = true -> char_of b = b /\ 32 <= b <= 126.
Proof.
  unfold isprint, char_of. intros Hb Hp.
  destruct (b <? 128) eqn:Hlt.
  - apply andb_true_iff in Hp. destruct Hp as [H1 H2].
    apply Z.leb_le in H1. apply Z.leb_le in H2. lia.
  - apply Z.ltb_ge in Hlt. apply andb_true_iff in Hp. destruct Hp as [H1 _].
    apply Z.leb_le in H1. lia.
Qed.

Lemma byte_of_shift (code k : Z) :
  0 <= k -> Z.land (Z.shiftr code k) 0xFF = (code / 2 ^ k) mod 256.
Proof.
  intros Hk. rewrite Z.shiftr_div_pow2 by exact Hk.
  change 0xFF with (Z.ones 8). rewrite Z.land_ones by lia. reflexivity.
Qed.

Lemma fcc_of_bytes (code : Z) :
  0 <= code < 2 ^ 32 ->
  exists b3 b2 b1 b0,
    fcc_of code = [b3; b2; b1; b0]
    /\ 0 <= b3 < 256 /\ 0 <= b2 < 256 /\ 0 <= b1 < 256 /\ 0 <= b0 < 256
    /\ code = b3 * 2 ^ 24 + b2 * 2 ^ 16 + b1 * 2 ^ 8 + b0.
Proof.
  intros Hc. unfold fcc_of.
  rewrite !byte_of_shift by lia.
  replace (Z.land code 0xFF) with (code mod 256)
    by (change 0xFF with (Z.ones 8); rewrite Z.land_ones by lia; reflexivity).
  eexists _, _, _, _. split; [reflexivity | ].
  change (2 ^ 24) with 16777216. change (2 ^ 16) with 65536.
  change (2 ^ 8) with 256. change (2 ^ 32) with 4294967296 in Hc.
  repeat split; try apply Z.mod_pos_bound; try lia.
  Z.to_euclidean_division_equations. lia.
Qed.

(** X1.  For a code whose four bytes are all printable, fourcc_repr gives
    the four characters between single quotes, and the code can be read
    back from them: it is the big-endian number of the four character
    codes. *)
Theorem fourcc_repr_printable_roundtrip (code : Z) :
  0 <= code < 2 ^ 32 ->
  forallb isprint (map char_of (fcc_of code)) = true ->
  exists a b c d,
    fourcc_repr code
    = String "'" (String a (String b (String c (String d "'"))))
    /\ code = Z.of_N (N_of_ascii a) * 2 ^ 24 + Z.of_N (N_of_ascii b) * 2 ^ 16
              + Z.of_N (N_of_ascii c) * 2 ^ 8 + Z.of_N (N_of_ascii d).
Proof.
  intros Hc Hp. unfold fourcc_repr. rewrite Hp.
  destruct (fcc_of_bytes code Hc)
    as [b3 [b2 [b1 [b0 [Hf [H3 [H2 [H1 [H0 Hsum]]]]]]]]].
  rewrite Hf in *. simpl in Hp.
  rewrite !andb_true_iff in Hp. destruct Hp as [P3 [P2 [P1 [P0 _]]]].
  destruct (isprint_char_of b3 H3 P3) as [E3 _].
  destruct (isprint_char_of b2 H2 P2) as [E2 _].
  destruct (isprint_char_of b1 H1 P1) as [E1 _].
  destruct (isprint_char_of b0 H0 P0) as [E0 _].
  simpl. rewrite E3, E2, E1, E0.
  eexists _, _, _, _. split; [reflexivity | ].
  rewrite !N_ascii_embedding by lia.
  rewrite !Z2N.id by lia. exact Hsum.
Qed.

Lemma fourcc_repr_printable_roundtrip_witness :
  exists a b c d,
    fourcc_repr kAudioFormatLinearPCM
    = String "'" (String a (String b (String c (String d "'"))))
    /\ kAudioFormatLinearPCM
       = Z.of_N (N_of_ascii a) * 2 ^ 24 + Z.of_N (N_of_ascii b) * 2 ^ 16
         + Z.of_N (N_of_ascii c) * 2 ^ 8 + Z.of_N (N_of_ascii d).
Proof.
  apply (fourcc_repr_printable_roundtrip kAudioFormatLinearPCM).
  - vm_compute. split; [discriminate | reflexivity].
  - reflexivity.
Defined.

(** X2.  For a status that is not four printable bytes, as the negative
    OSStatus codes are, fourcc_repr of the status converted to uint32_t
    gives the status itself in signed decimal. *)
Theorem fourcc_repr_status_decimal (status : Z) :
  - 2 ^ 31 <= status < 2 ^ 31 ->
  forallb isprint (map char_of (fcc_of (UInt32_of status))) = false ->
  fourcc_repr (UInt32_of status)
  = NilZero.string_of_int (Z.to_int status).
Proof.
  intros Hs Hp. unfold fourcc_repr. rewrite Hp. unfold printf_d.
  rewrite int_of_UInt32_of, int_of_small by exact Hs. reflexivity.
Qed.

Lemma fourcc_repr_status_decimal_witness :
  fourcc_repr (UInt32_of (-50)) = NilZero.string_of_int (Z.to_int (-50)).
Proof.
  apply (fourcc_repr_status_decimal (-50)).
  - vm_compute. split; [discriminate | reflexivity].
  - reflexivity.
Defined.

(** The two shapes of a representation, run. *)
Example fourcc_repr_runs :
  fourcc_repr kAudioFormat60958AC3 = "'cac3'"
  /\ fourcc_repr (UInt32_of (-50)) = "-50"
  /\ fourcc_repr 0 = "0".
Proof. vm_compute. repeat split; reflexivity. Qed.

(** X3.  The flags init builds for the input format read back, through
    the words ca_print_asbd prints, as what the sample format says: float
    or int, BE or LE, S or U by the three masked fields of the format;
    always packed, never aligned-high, never non-interleaved. *)
Theorem build_asbd_flag_words {H : Headers} (ao : struct_ao) :
  asbd_flag_words (mFormatFlags (build_asbd ao))
  = [if Z.land (format ao) AF_FORMAT_POINT_MASK =? AF_FORMAT_F
     then "float" else "int";
     if Z.land (format ao) AF_FORMAT_END_MASK =? AF_FORMAT_BE
     then "BE" else "LE";
     if Z.land (format ao) AF_FORMAT_SIGN_MASK =? AF_FORMAT_SI
     then "S" else "U";
     " packed"; EmptyString; EmptyString].
Proof.
  unfold build_asbd. cbn [mFormatFlags].
  destruct (Z.land (format ao) AF_FORMAT_POINT_MASK =? AF_FORMAT_F);
    destruct (Z.land (format ao) AF_FORMAT_SIGN_MASK =? AF_FORMAT_SI);
    destruct (Z.land (format ao) AF_FORMAT_END_MASK =? AF_FORMAT_BE);
    reflexivity.
Qed.

(** ** pause and resume *)

Lemma OSErr_of_zero (st : Z) : (OSErr_of st =? noErr) = (st mod 65536 =? 0).
Proof.
  unfold OSErr_of, noErr.
  change (2 ^ 16) with 65536. change (2 ^ 15) with 32768.
  destruct (st mod 65536 =? 0) eqn:Hm.
  - apply Z.eqb_eq in Hm. apply Z.eqb_eq.
    Z.to_euclidean_division_equations. lia.
  - apply Z.eqb_neq in Hm. apply Z.eqb_neq.
    Z.to_euclidean_division_equations. lia.
Qed.

(** X4.  audio_pause always makes the stop call of the session's mode and
    leaves the session paused, whatever the call answers; audio_resume on
    a paused session always makes the start call and leaves it unpaused.
    Both keep the status in a 16-bit OSErr, so a failure is reported, by
    one warning, only when the low 16 bits of the status are not zero: a
    failing status that is a multiple of 65536 passes in silence. *)
Theorem pause_resume_report_low_bits {W} (h : handler call W) (w : W)
        (ao : struct_ao) :
  (exists st w1 msgs,
      run h (audio_pause ao) w
      = (Some (upd_priv (set_paused 1) ao), w1,
         Ev (inr1 (stop_call (ao_priv ao))) st :: msgs)
      /\ forallb is_msg msgs = true
      /\ List.length msgs = if st mod 65536 =? 0 then O else 1%nat)
  /\ (exists st w1 msgs,
         run h (audio_resume (upd_priv (set_paused 1) ao)) w
         = (Some (upd_priv (set_paused 0) (upd_priv (set_paused 1) ao)), w1,
            Ev (inr1 (start_call (ao_priv ao))) st :: msgs)
         /\ forallb is_msg msgs = true
         /\ List.length msgs = if st mod 65536 =? 0 then O else 1%nat).
Proof.
  split.
  - unfold audio_pause, stop_call.
    destruct (truthy (b_digital (ao_priv ao))); unfold sys, trigger; simpl;
      destruct (h Z _ w) as [st w1]; simpl;
      rewrite OSErr_of_zero; destruct (st mod 65536 =? 0) eqn:Hm; simpl.
    all: try (destruct (h unit _ w1) as [u w2]; simpl).
    all: eexists _, _, _; split; [reflexivity | ];
      rewrite Hm; split; reflexivity.
  - unfold audio_resume, start_call. simpl.
    destruct (truthy (b_digital (ao_priv ao))); unfold sys, trigger; simpl;
      destruct (h Z _ w) as [st w1]; simpl;
      rewrite OSErr_of_zero; destruct (st mod 65536 =? 0) eqn:Hm; simpl.
    all: try (destruct (h unit _ w1) as [u w2]; simpl).
    all: eexists _, _, _; split; [reflexivity | ];
      rewrite Hm; split; reflexivity.
Qed.

(** X5.  audio_resume is idempotent: after one resume a second one makes
    no call and changes nothing, whereas audio_pause on a session that is
    already paused makes its stop call again. *)
Theorem resume_idempotent_pause_not {W} (h : handler call W) (w : W)
        (ao : struct_ao) :
  (exists ao1,
      result_of (run h (audio_resume ao) w) = Some ao1
      /\ run h (audio_resume ao1) (world_of (run h (audio_resume ao) w))
         = (Some ao1, world_of (run h (audio_resume ao) w), []))
  /\ (exists ao1 st msgs,
         result_of (run h (audio_pause ao) w) = Some ao1
         /\ trace_of (run h (audio_pause ao1)
                          (world_of (run h (audio_pause ao) w)))
            = Ev (inr1 (stop_call (ao_priv ao))) st :: msgs).
Proof.
  split.
  - destruct (audio_resume_run h w ao) as [w1 [post [Hrun _]]].
    rewrite Hrun. exists (upd_priv (set_paused 0) ao).
    split; reflexivity.
  - destruct (audio_pause_run h w ao) as [st [w1 [msgs [Hrun _]]]].
    rewrite Hrun. unfold result_of, world_of. simpl.
    destruct (audio_pause_run h w1 (upd_priv (set_paused 1) ao))
      as [st' [w2 [msgs' [Hrun' _]]]].
    exists (upd_priv (set_paused 1) ao), st', msgs'.
    rewrite Hrun'. split; reflexivity.
Qed.

(** ** control *)

Section ControlFacts.
Context {H : Headers}.

(** X6.  On a digital session the volume read back after a set is 0 on
    both channels when both volumes set were 0 and 100 on both channels
    otherwise; neither call reaches the framework and both return
    CONTROL_TRUE. *)
Theorem control_digital_set_then_get {W} (h : handler call W) (w : W)
        (ao : struct_ao) (vol arg : ao_control_vol_t) :
  truthy (b_digital (ao_priv ao)) = true ->
  exists ao1,
    run h (control ao AOCONTROL_SET_VOLUME vol) w
    = (Some (CONTROL_TRUE, ao1, vol), w, [])
    /\ run h (control ao1 AOCONTROL_GET_VOLUME arg) w
       = (Some (CONTROL_TRUE, ao1,
                if float_eqb (left vol) (float_of_int 0)
                   && float_eqb (right vol) (float_of_int 0)
                then {| left := float_of_int 0; right := float_of_int 0 |}
                else {| left := float_of_int 100;
                        right := float_of_int 100 |}),
          w, []).
Proof.
  intros Hd. unfold control. rewrite Hd.
  destruct (float_eqb (left vol) (float_of_int 0)
            && float_eqb (right vol) (float_of_int 0)).
  - exists (upd_priv (set_b_muted 1) ao). simpl. rewrite Hd.
    split; reflexivity.
  - exists (upd_priv (set_b_muted 0) ao). simpl. rewrite Hd.
    split; reflexivity.
Qed.

Lemma upd_priv_b_muted_same (ao : struct_ao) :
  upd_priv (set_b_muted (b_muted (ao_priv ao))) ao = ao.
Proof. destruct ao as [f c s b pm np p]. destruct p. reflexivity. Qed.

(** X7.  Whatever the command and whatever the framework answers, control
    returns, touches no ring buffer, starts or stops nothing, registers
    nothing, and changes nothing of the session except, possibly, the
    muted flag. *)
Theorem control_frame {W} (h : handler call W) (w : W) (ao : struct_ao)
        (cmd : aocontrol) (arg : ao_control_vol_t) :
  let out := run h (control ao cmd arg) w in
  exists ret muted arg',
    result_of out = Some (ret, upd_priv (set_b_muted muted) ao, arg')
    /\ forallb (fun ev => not_ring ev && negb (is_start ev)
                          && negb (is_stop ev) && negb (is_register ev))
               (trace_of out) = true.
Proof.
  intros out. subst out. unfold control.
  destruct cmd as [ | | code].
  - destruct (truthy (b_digital (ao_priv ao))).
    + eexists _, (b_muted (ao_priv ao)), _.
      rewrite upd_priv_b_muted_same. split; reflexivity.
    + unfold sys, trigger, check_ca_st, ca_msg. simpl.
      destruct (h _ _ w) as [[err vol] w1]. simpl.
      destruct (err =? noErr); simpl.
      * eexists _, (b_muted (ao_priv ao)), _.
        rewrite upd_priv_b_muted_same. split; reflexivity.
      * unfold sys, trigger. simpl. destruct (h unit _ w1) as [u w2]. simpl.
        eexists _, (b_muted (ao_priv ao)), _.
        rewrite upd_priv_b_muted_same. split; reflexivity.
  - destruct (truthy (b_digital (ao_priv ao))).
    + destruct (float_eqb (left arg) (float_of_int 0)
                && float_eqb (right arg) (float_of_int 0));
        eexists _, _, _; split; reflexivity.
    + unfold sys, trigger, check_ca_st, ca_msg. simpl.
      destruct (h _ _ w) as [err w1]. simpl.
      destruct (err =? noErr); simpl.
      * eexists _, (b_muted (ao_priv ao)), _.
        rewrite upd_priv_b_muted_same. split; reflexivity.
      * unfold sys, trigger. simpl. destruct (h unit _ w1) as [u w2]. simpl.
        eexists _, (b_muted (ao_priv ao)), _.
        rewrite upd_priv_b_muted_same. split; reflexivity.
  - eexists _, (b_muted (ao_priv ao)), _.
    rewrite upd_priv_b_muted_same. split; reflexivity.
Qed.

(** X8.  On an analog session GET_VOLUME and SET_VOLUME make one
    parameter call each.  When the framework refuses, control logs the
    failure once and returns CONTROL_ERROR, with the session and the
    caller's volumes as they were; when it accepts, control returns
    CONTROL_TRUE without a message.  The volume read is the parameter
    times 100.0 over 4.0, computed in double and rounded to float; the
    parameter set is the float sum of the two volumes times 4.0 over
    200.0, computed in double and rounded to float. *)
Theorem control_analog_status {W} (h : handler call W) (w : W)
        (ao : struct_ao) (arg : ao_control_vol_t) :
  truthy (b_digital (ao_priv ao)) = false ->
  (exists st vol msgs,
      trace_of (run h (control ao AOCONTROL_GET_VOLUME arg) w)
      = Ev (inr1 (AudioUnitGetParameter (theOutputUnit (ao_priv ao))))
           (st, vol) :: msgs
      /\ forallb is_msg msgs = true
      /\ List.length msgs = (if st =? noErr then O else 1%nat)
      /\ result_of (run h (control ao AOCONTROL_GET_VOLUME arg) w)
         = Some (if st =? noErr
                 then (CONTROL_TRUE, ao,
                       {| left := volume_of_parameter vol;
                          right := volume_of_parameter vol |})
                 else (CONTROL_ERROR, ao, arg)))
  /\ (exists st msgs,
         trace_of (run h (control ao AOCONTROL_SET_VOLUME arg) w)
         = Ev (inr1 (AudioUnitSetParameter
                       (theOutputUnit (ao_priv ao))
                       (parameter_of_volumes (left arg) (right arg))))
              st :: msgs
         /\ forallb is_msg msgs = true
         /\ List.length msgs = (if st =? noErr then O else 1%nat)
         /\ result_of (run h (control ao AOCONTROL_SET_VOLUME arg) w)
            = Some (if st =? noErr then CONTROL_TRUE else CONTROL_ERROR,
                    ao, arg)).
Proof.
  intros Hd. unfold control. rewrite Hd.
  unfold sys, trigger, check_ca_st, ca_msg. simpl. split.
  - destruct (h _ _ w) as [[st vol] w1]. simpl.
    destruct (st =? noErr) eqn:Hst; simpl.
    + eexists _, _, _. split; [reflexivity | ]. rewrite Hst.
      repeat split.
    + unfold sys, trigger. simpl. destruct (h unit _ w1) as [u w2]. simpl.
      eexists _, _, _. split; [reflexivity | ]. rewrite Hst.
      repeat split.
  - destruct (h _ _ w) as [st w1]. simpl.
    destruct (st =? noErr) eqn:Hst; simpl.
    + eexists _, _. split; [reflexivity | ]. rewrite Hst.
      repeat split.
    + unfold sys, trigger. simpl. destruct (h unit _ w1) as [u w2]. simpl.
      eexists _, _. split; [reflexivity | ]. rewrite Hst.
      repeat split.
Qed.

End ControlFacts.

Lemma control_digital_set_then_get_witness :
  exists ao1,
    run sample_handler
        (@control sample_headers (sample_ao_digital 0) AOCONTROL_SET_VOLUME
                  {| left := float_of_int 0; right := float_of_int 0 |})
        (sample_world 0)
    = (Some (1, ao1, {| left := float_of_int 0; right := float_of_int 0 |}),
       sample_world 0, [])
    /\ run sample_handler
           (@control sample_headers ao1 AOCONTROL_GET_VOLUME
                     {| left := float_of_int 7; right := float_of_int 7 |})
           (sample_world 0)
       = (Some (1, ao1,
                {| left := float_of_int 0; right := float_of_int 0 |}),
          sample_world 0, []).
Proof.
  apply (@control_digital_set_then_get
           sample_headers _ sample_handler (sample_world 0)
           (sample_ao_digital 0)
           {| left := float_of_int 0; right := float_of_int 0 |}
           {| left := float_of_int 7; right := float_of_int 7 |}).
  reflexivity.
Defined.

Lemma control_analog_status_witness :
  exists st msgs,
    trace_of (run sample_handler
                  (@control sample_headers sample_ao AOCONTROL_SET_VOLUME
                            {| left := float_of_int 50;
                               right := float_of_int 50 |})
                  (sample_world 0))
    = Ev (inr1 (AudioUnitSetParameter
                  2000
                  (parameter_of_volumes (float_of_int 50)
                                        (float_of_int 50)))) st :: msgs
    /\ forallb is_msg msgs = true
    /\ List.length msgs = (if st =? noErr then O else 1%nat)
    /\ result_of (run sample_handler
                      (@control sample_headers sample_ao
                                AOCONTROL_SET_VOLUME
                                {| left := float_of_int 50;
                                   right := float_of_int 50 |})
                      (sample_world 0))
       = Some (if st =? noErr then 1 else -2, sample_ao,
               {| left := float_of_int 50; right := float_of_int 50 |}).
Proof.
  apply (proj2 (@control_analog_status
                  sample_headers _ sample_handler (sample_world 0)
                  sample_ao
                  {| left := float_of_int 50; right := float_of_int 50 |}
                  eq_refl)).
Defined.

(** The framework's 0.1f reads as a volume of exactly 2.5f, and volumes of
    50 and 50 set the parameter 2.0f. *)
Example volume_rounding :
  volume_of_parameter (S754_finite false 13421773 (-27))
  = S754_finite false 10485760 (-22)
  /\ parameter_of_volumes (float_of_int 50) (float_of_int 50)
     = float_of_int 2.
Proof. vm_compute. split; reflexivity. Qed.

(** ** AudioStreamChangeFormat *)

Lemma slept_app (t1 t2 : list (event call)) :
  slept (t1 ++ t2) = slept t1 + slept t2.
Proof.
  induction t1 as [ | [R [e | e] r] t1 IH]; simpl.
  - reflexivity.
  - exact IH.
  - destruct e; simpl; rewrite IH; lia.
Qed.

Lemma reads_app (t1 t2 : list (event call)) :
  List.length (filter is_property_read (t1 ++ t2))
  = (List.length (filter is_property_read t1)
     + List.length (filter is_property_read t2))%nat.
Proof. rewrite filter_app, length_app. reflexivity. Qed.

(** The inner wait sleeps 10 ms at a time, [n] times at most, and reads no
    property. *)
Lemma wait_stream_format_changed_bound (n : nat) :
  all_paths (wait_stream_format_changed n)
            (fun t _ => 0 <= slept t <= 10000 * Z.of_nat n
                        /\ filter is_property_read t = []).
Proof.
  induction n as [ | n IH];
    cbn [wait_stream_format_changed all_paths bind sys trigger]; intros r.
  - destruct (truthy r); cbn [all_paths slept filter is_property_read];
      split; (lia || reflexivity).
  - destruct (truthy r);
      cbn [all_paths bind slept filter is_property_read];
      [split; (lia || reflexivity) | ].
    intros u. apply all_paths_impl with (2 := IH).
    intros t _ [Hs Hr]. cbn [slept filter is_property_read].
    rewrite Nat2Z.inj_succ. split; [lia | exact Hr].
Qed.

(** Each round of the outer loop sleeps at most half a second and reads
    the format once. *)
Lemma check_format_active_bound (n : nat) (i_stream_id : Z)
      (change_format : AudioStreamBasicDescription) :
  all_paths (check_format_active n i_stream_id change_format)
            (fun t _ =>
               0 <= slept t <= 500000 * Z.of_nat n
               /\ (List.length (filter is_property_read t) <= n)%nat).
Proof.
  induction n as [ | n IH].
  - simpl. split; [lia | apply Nat.le_refl].
  - cbn [check_format_active]. apply all_paths_bind.
    apply all_paths_impl with (2 := wait_stream_format_changed_bound 50).
    intros t1 [[] | ] [Hs1 Hr1]; [ | split; [lia | rewrite Hr1; simpl; lia] ].
    simpl. intros changed.
    destruct (truthy changed); simpl; intros u [err data];
      destruct data as [[] | ]; simpl; intros;
      (match goal with
       | |- context [same_format ?a ?b] => destruct (same_format a b)
       end;
       [simpl; rewrite slept_app, reads_app, Hr1; simpl; split; lia
       | apply all_paths_impl with (2 := IH); intros t _ [Hs Hr];
         rewrite slept_app, reads_app, Hr1; simpl; split; lia]).
Qed.

Lemma wait_stream_format_changed_poll (n : nat) :
  quiet is_poll (wait_stream_format_changed n).
Proof. induction n as [ | n IH]; walk; auto. Qed.

Lemma check_format_active_poll (n : nat) (i_stream_id : Z)
      (change_format : AudioStreamBasicDescription) :
  quiet is_poll (check_format_active n i_stream_id change_format).
Proof.
  induction n as [ | n IH]; [exact I | ].
  cbn [check_format_active]. apply quiet_bind.
  - apply wait_stream_format_changed_poll.
  - intros _. walk; auto.
Qed.

Lemma poll_no_listener (t : list (event call)) :
  forallb is_poll t = true ->
  existsb is_remove_listener t = false
  /\ existsb is_removed_ok t = false
  /\ existsb (fun ev => is_add_listener ev && status_ok ev) t = false
  /\ existsb (fun ev => is_property_write ev && status_ok ev) t = false.
Proof.
  induction t as [ | ev t IH]; simpl; intros Ht.
  - repeat split.
  - apply andb_true_iff in Ht. destruct Ht as [Hev Ht].
    destruct (IH Ht) as [H1 [H2 [H3 H4]]]. rewrite H1, H2, H3, H4.
    unfold is_poll in Hev. rewrite !andb_true_iff, !negb_true_iff in Hev.
    destruct Hev as [[[_ Hw] Ha] Hr].
    rewrite Hr, Ha, Hw.
    assert (Hok : is_removed_ok ev = false).
    { destruct ev as [R [e | e] r]; [reflexivity | ].
      unfold is_removed_ok. rewrite Hr. reflexivity. }
    rewrite Hok. repeat split.
Qed.

Section ChangeFormatFacts.
Context {H : Headers}.

(** Everything the facts below need, along every path. *)
Lemma AudioStreamChangeFormat_paths (i_stream_id : Z)
      (change_format : AudioStreamBasicDescription) :
  all_paths
    (AudioStreamChangeFormat i_stream_id change_format)
    (fun t o =>
       (0 <= slept t <= 2500000
        /\ (List.length (filter is_property_read t) <= 5)%nat)
       /\ o = Some (if existsb is_removed_ok t
                    then CONTROL_TRUE else CONTROL_FALSE)
       /\ existsb is_remove_listener t
          = existsb (fun ev => is_add_listener ev && status_ok ev) t
            && existsb (fun ev => is_property_write ev && status_ok ev) t).
Proof.
  unfold AudioStreamChangeFormat, ca_print_asbd, ca_msg, SetAudioProperty,
    sys, trigger.
  cbn [all_paths bind]. intros u1 u2 add.
  destruct (add =? noErr) eqn:Hadd; cbn [negb all_paths bind].
  2: { intros u3. cbn. rewrite Hadd. repeat split; lia. }
  intros set.
  destruct (set =? noErr) eqn:Hset; cbn [negb all_paths bind].
  2: { intros u3. cbn. rewrite Hadd, Hset. repeat split; lia. }
  apply all_paths_bind.
  apply all_paths_impl
    with (2 := all_paths_conj
                 call _ _ _
                 (all_paths_conj
                    call _ _ _
                    (check_format_active_bound 5 i_stream_id change_format)
                    (quiet_paths call is_poll _
                                 (check_format_active_poll
                                    5 i_stream_id change_format)))
                 (returns_all_paths
                    call _ _
                    (check_format_active_returns 5 i_stream_id
                                                 change_format))).
  intros t o [[[Hs Hr] Hq] [[] [-> _]]].
  destruct (poll_no_listener t Hq) as [N1 [N2 [N3 N4]]].
  cbn [all_paths bind]. intros rem.
  destruct (rem =? noErr) eqn:Hrem; cbn [negb all_paths bind].
  - cbn. rewrite Hadd, Hset.
    rewrite !existsb_app, N1, N2, N3, N4, slept_app, reads_app. cbn.
    rewrite Hrem. cbn. repeat split; lia.
  - intros u3. cbn. rewrite Hadd, Hset.
    rewrite !existsb_app, N1, N2, N3, N4, slept_app, reads_app. cbn.
    rewrite Hrem. cbn. repeat split; lia.
Qed.

End ChangeFormatFacts.

Section ChangeFormatProperties.
Context {H : Headers}.

(** X9.  AudioStreamChangeFormat never waits longer than 2.5 seconds in
    all and never reads the stream's format more than 5 times, whatever
    the framework answers and whether or not the listener ever fires. *)
Theorem AudioStreamChangeFormat_bounded_wait {W} (h : handler call W)
        (w : W) (i_stream_id : Z)
        (change_format : AudioStreamBasicDescription) :
  let t := trace_of (run h (AudioStreamChangeFormat i_stream_id
                                                    change_format) w) in
  0 <= slept t <= 2500000
  /\ (List.length (filter is_property_read t) <= 5)%nat.
Proof.
  intros t. subst t.
  apply (all_paths_run
           call h (AudioStreamChangeFormat i_stream_id change_format)
           (fun t _ => 0 <= slept t <= 2500000
                       /\ (List.length (filter is_property_read t) <= 5)%nat)
           w).
  apply all_paths_impl
    with (2 := AudioStreamChangeFormat_paths i_stream_id change_format).
  intros t o [Hb _]. exact Hb.
Qed.

(** X10.  AudioStreamChangeFormat always returns, and its result is
    decided by three statuses alone: CONTROL_TRUE exactly when the run
    ends in a successful removal of the listener (which needs the
    listener added and the format set), CONTROL_FALSE otherwise.  The
    format read back plays no part: giving up after the fifth mismatch
    still returns CONTROL_TRUE. *)
Theorem AudioStreamChangeFormat_result {W} (h : handler call W) (w : W)
        (i_stream_id : Z) (change_format : AudioStreamBasicDescription) :
  let out := run h (AudioStreamChangeFormat i_stream_id change_format) w in
  result_of out
  = Some (if existsb is_removed_ok (trace_of out)
          then CONTROL_TRUE else CONTROL_FALSE).
Proof.
  intros out. subst out.
  apply (all_paths_run
           call h (AudioStreamChangeFormat i_stream_id change_format)
           (fun t o => o = Some (if existsb is_removed_ok t
                                 then CONTROL_TRUE else CONTROL_FALSE))
           w).
  apply all_paths_impl
    with (2 := AudioStreamChangeFormat_paths i_stream_id change_format).
  intros t o [_ [Ho _]]. exact Ho.
Qed.

(** X11.  AudioStreamChangeFormat tries to remove its listener exactly
    when both adding it and setting the format succeeded: when the set
    fails, the listener that was just added stays installed. *)
Theorem AudioStreamChangeFormat_listener_balance {W} (h : handler call W)
        (w : W) (i_stream_id : Z)
        (change_format : AudioStreamBasicDescription) :
  let t := trace_of (run h (AudioStreamChangeFormat i_stream_id
                                                    change_format) w) in
  existsb is_remove_listener t
  = existsb (fun ev => is_add_listener ev && status_ok ev) t
    && existsb (fun ev => is_property_write ev && status_ok ev) t.
Proof.
  intros t. subst t.
  apply (all_paths_run
           call h (AudioStreamChangeFormat i_stream_id change_format)
           (fun t _ =>
              existsb is_remove_listener t
              = existsb (fun ev => is_add_listener ev && status_ok ev) t
                && existsb (fun ev => is_property_write ev && status_ok ev)
                           t)
           w).
  apply all_paths_impl
    with (2 := AudioStreamChangeFormat_paths i_stream_id change_format).
  intros t o [_ [_ Hl]]. exact Hl.
Qed.

End ChangeFormatProperties.

(** A framework that accepts every call but keeps the stream on its old
    format: the format is read five times, never matches, and the result
    is CONTROL_TRUE all the same. *)
Example change_format_gives_up_with_success :
  let out := run sample_handler
                 (@AudioStreamChangeFormat sample_headers 7 asbd_zero)
                 (sample_world 0) in
  result_of out = Some 1
  /\ List.length (filter is_property_read (trace_of out)) = 5%nat.
Proof. vm_compute. split; reflexivity. Qed.

(** ** The choice of the digital stream format *)

Section RateChoice.
Variables stream_rate revert_rate : Q.

Lemma nth_error_middle (prefix rest : list AudioStreamRangedDescription)
      (f : AudioStreamRangedDescription) :
  nth_error (prefix ++ f :: rest)
            (Z.to_nat (Z.of_nat (List.length prefix))) = Some f.
Proof.
  rewrite Nat2Z.id. rewrite nth_error_app2 by apply Nat.le_refl.
  rewrite Nat.sub_diag. reflexivity.
Qed.

Lemma rate_at_digital (l : list AudioStreamRangedDescription) (k : Z)
      (f : AudioStreamRangedDescription) :
  digital_at l k f -> rate_at l k = mSampleRate (mFormat f).
Proof. intros [_ [Hn _]]. unfold rate_at. rewrite Hn. reflexivity. Qed.

Lemma select_rate_format_spec (rest prefix : list AudioStreamRangedDescription)
      (cur bak : Z) :
  let l := (prefix ++ rest)%list in
  let j := Z.of_nat (List.length prefix) in
  (cur = -1
   \/ exists f, digital_at l cur f
                /\ Qeq_bool (mSampleRate (mFormat f)) revert_rate = true) ->
  (bak = -1 \/ exists f, digital_at l bak f) ->
  match select_rate_format l rest j stream_rate revert_rate cur bak with
  | (req, cur', bak') =>
      if existsb (rate_match stream_rate) rest then
        exists f, digital_at l req f
                  /\ Qeq_bool (mSampleRate (mFormat f)) stream_rate = true
      else
        req = -1
        /\ (if (0 <=? cur) || existsb (rate_match revert_rate) rest then
              exists f, digital_at l cur' f
                        /\ Qeq_bool (mSampleRate (mFormat f)) revert_rate
                           = true
            else cur' = -1)
        /\ (bak' = -1 \/ exists f, digital_at l bak' f)
        /\ (forall g, In g rest -> is_digital_format g = true ->
                      rate_match revert_rate g = false ->
                      0 <= bak'
                      /\ (mSampleRate (mFormat g) <= rate_at l bak')%Q)
        /\ (0 <= bak -> 0 <= bak' /\ (rate_at l bak <= rate_at l bak')%Q)
  end.
Proof.
  revert prefix cur bak.
  induction rest as [ | f rest IH]; intros prefix cur bak l j Hcur Hbak.
  - simpl. split; [reflexivity | ]. split.
    + rewrite orb_false_r. destruct (0 <=? cur) eqn:Hc.
      * destruct Hcur as [-> | Hcur]; [discriminate Hc | exact Hcur].
      * destruct Hcur as [-> | [f [[Hk _] _]]]; [reflexivity | ].
        apply Z.leb_gt in Hc. lia.
    + split; [exact Hbak | ]. split.
      * intros g [].
      * intros Hb. split; [exact Hb | apply Qle_refl].
  - assert (Hl : l = ((prefix ++ [f]) ++ rest)%list)
      by (unfold l; rewrite <- app_assoc; reflexivity).
    assert (Hj : j + 1 = Z.of_nat (List.length (prefix ++ [f])%list))
      by (unfold j; rewrite length_app; simpl; lia).
    assert (Hat : nth_error l (Z.to_nat j) = Some f)
      by apply nth_error_middle.
    assert (Hj0 : 0 <= j) by (unfold j; lia).
    cbn [select_rate_format existsb].
    change (rate_match stream_rate f)
      with (is_digital_format f
            && Qeq_bool (mSampleRate (mFormat f)) stream_rate).
    change (rate_match revert_rate f)
      with (is_digital_format f
            && Qeq_bool (mSampleRate (mFormat f)) revert_rate).
    destruct (is_digital_format f) eqn:Hdig; cbn [andb].
    2: { rewrite Hl, Hj. specialize (IH (prefix ++ [f])%list cur bak).
         cbv zeta in IH. rewrite <- Hl in *.
         specialize (IH Hcur Hbak).
         destruct (select_rate_format l rest _ _ _ cur bak)
           as [[req cur'] bak'].
         cbn [orb]. destruct (existsb (rate_match stream_rate) rest); [exact IH | ].
         destruct IH as [Hreq [Hc [Hb [Hmax Hmono]]]].
         split; [exact Hreq | ]. split; [exact Hc | ].
         split; [exact Hb | ]. split; [ | exact Hmono].
         intros g [<- | Hg] Hgd Hgr; [congruence | ].
         apply (Hmax g Hg Hgd Hgr). }
    destruct (Qeq_bool (mSampleRate (mFormat f)) stream_rate) eqn:Hsr;
      cbn [orb].
    { exists f. repeat split; assumption. }
    destruct (Qeq_bool (mSampleRate (mFormat f)) revert_rate) eqn:Hrr;
      cbn [orb].
    { rewrite Hl, Hj. specialize (IH (prefix ++ [f])%list j bak).
      cbv zeta in IH. rewrite <- Hl in *.
      assert (Hcur' : j = -1
                      \/ exists f0, digital_at l j f0
                                    /\ Qeq_bool (mSampleRate (mFormat f0))
                                                revert_rate = true)
        by (right; exists f; repeat split; assumption).
      specialize (IH Hcur' Hbak).
      destruct (select_rate_format l rest _ _ _ j bak) as [[req cur'] bak'].
      destruct (existsb (rate_match stream_rate) rest); [exact IH | ].
      destruct IH as [Hreq [Hc [Hb [Hmax Hmono]]]].
      assert (Hj1 : (0 <=? j) = true) by (apply Z.leb_le; exact Hj0).
      rewrite Hj1 in Hc. cbn [orb] in Hc. rewrite orb_true_r.
      split; [exact Hreq | ]. split; [exact Hc | ].
      split; [exact Hb | ]. split; [ | exact Hmono].
      intros g [<- | Hg] Hgd Hgr.
      - unfold rate_match in Hgr. rewrite Hdig, Hrr in Hgr. discriminate.
      - apply (Hmax g Hg Hgd Hgr). }
    destruct ((bak <? 0)
              || negb (Qle_bool (mSampleRate (mFormat f)) (rate_at l bak)))
             eqn:Hnew.
    + rewrite Hl, Hj. specialize (IH (prefix ++ [f])%list cur j).
      cbv zeta in IH. rewrite <- Hl in *.
      assert (Hbak' : j = -1 \/ exists f0, digital_at l j f0)
        by (right; exists f; repeat split; assumption).
      specialize (IH Hcur Hbak').
      destruct (select_rate_format l rest _ _ _ cur j) as [[req cur'] bak'].
      destruct (existsb (rate_match stream_rate) rest); [exact IH | ].
      destruct IH as [Hreq [Hc [Hb [Hmax Hmono]]]].
      destruct (Hmono Hj0) as [Hb0 Hle].
      assert (Hrj : rate_at l j = mSampleRate (mFormat f))
        by (unfold rate_at; rewrite Hat; reflexivity).
      rewrite Hrj in Hle.
      split; [exact Hreq | ]. split; [exact Hc | ].
      split; [exact Hb | ]. split.
      * intros g [<- | Hg] Hgd Hgr;
          [split; [exact Hb0 | exact Hle] | apply (Hmax g Hg Hgd Hgr)].
      * intros Hbk. split; [exact Hb0 | ].
        apply orb_true_iff in Hnew. destruct Hnew as [Hn | Hn].
        -- apply Z.ltb_lt in Hn. lia.
        -- apply negb_true_iff in Hn.
           apply Qle_trans with (2 := Hle).
           apply Qlt_le_weak, Qnot_le_lt. intros Hq.
           apply Qle_bool_iff in Hq. congruence.
    + rewrite Hl, Hj. specialize (IH (prefix ++ [f])%list cur bak).
      cbv zeta in IH. rewrite <- Hl in *.
      specialize (IH Hcur Hbak).
      destruct (select_rate_format l rest _ _ _ cur bak)
        as [[req cur'] bak'].
      destruct (existsb (rate_match stream_rate) rest); [exact IH | ].
      destruct IH as [Hreq [Hc [Hb [Hmax Hmono]]]].
      apply orb_false_iff in Hnew. destruct Hnew as [Hn1 Hn2].
      apply Z.ltb_ge in Hn1. apply negb_false_iff, Qle_bool_iff in Hn2.
      destruct (Hmono Hn1) as [Hb0 Hle].
      split; [exact Hreq | ]. split; [exact Hc | ].
      split; [exact Hb | ]. split; [ | exact Hmono].
      intros g [<- | Hg] Hgd Hgr.
      * split; [exact Hb0 | ].
        apply Qle_trans with (1 := Hn2). exact Hle.
      * apply (Hmax g Hg Hgd Hgr).
Qed.

End RateChoice.

(** X12. OpenSPDIF's choice among the formats of a stream that offers a
    digital one is always defined and falls on a digital format of the
    list: one at the sample rate of the audio if the list has one; else
    one at the rate the stream had before; else one whose rate no digital
    format of the list exceeds. *)
Theorem choose_stream_format_policy
        (p_format_list : list AudioStreamRangedDescription)
        (ao : struct_ao)
        (Hdigital : existsb is_digital_format p_format_list = true) :
  exists f,
    In f p_format_list
    /\ is_digital_format f = true
    /\ choose_stream_format p_format_list ao
       = Ret (upd_priv (set_stream_format (mFormat f)) ao)
    /\ (if existsb (fun g => is_digital_format g
                             && Qeq_bool (mSampleRate (mFormat g))
                                  (mSampleRate (stream_format (ao_priv ao))))
                   p_format_list
        then Qeq_bool (mSampleRate (mFormat f))
                      (mSampleRate (stream_format (ao_priv ao))) = true
        else if existsb (fun g => is_digital_format g
                                  && Qeq_bool (mSampleRate (mFormat g))
                                       (mSampleRate (sfmt_revert (ao_priv ao))))
                        p_format_list
        then Qeq_bool (mSampleRate (mFormat f))
                      (mSampleRate (sfmt_revert (ao_priv ao))) = true
        else forall g, In g p_format_list -> is_digital_format g = true ->
                       (mSampleRate (mFormat g) <= mSampleRate (mFormat f))%Q).
Proof.
  pose proof (select_rate_format_spec
                (mSampleRate (stream_format (ao_priv ao)))
                (mSampleRate (sfmt_revert (ao_priv ao)))
                p_format_list [] (-1) (-1)) as Hspec.
  cbv zeta in Hspec. cbn [app List.length Z.of_nat] in Hspec.
  specialize (Hspec (or_introl eq_refl) (or_introl eq_refl)).
  unfold rate_match, digital_at in Hspec.
  unfold choose_stream_format.
  destruct (select_rate_format p_format_list p_format_list 0 _ _ (-1) (-1))
    as [[req cur'] bak'].
  destruct (existsb _ p_format_list) eqn:Hsr in Hspec |- *.
  - try rewrite Hsr. destruct Hspec as [f [[Hk [Hn Hd]] Hq]].
    exists f. split; [apply (nth_error_In _ _ Hn) | ].
    split; [exact Hd | ]. split; [ | exact Hq].
    assert (H1 : (req >=? 0) = true) by (apply Z.geb_le; exact Hk).
    assert (H2 : (req <? 0) = false) by (apply Z.ltb_ge; exact Hk).
    rewrite H1, H2, Hn. reflexivity.
  - try rewrite Hsr. destruct Hspec as [-> [Hc [Hb [Hmax _]]]].
    cbn [Z.leb Z.compare orb] in Hc.
    change (-1 >=? 0) with false. cbv iota.
    destruct (existsb _ p_format_list) eqn:Hrr in Hc |- *.
    + try rewrite Hrr. destruct Hc as [f [[Hk [Hn Hd]] Hq]].
      exists f. split; [apply (nth_error_In _ _ Hn) | ].
      split; [exact Hd | ]. split; [ | exact Hq].
      assert (H1 : (cur' >=? 0) = true) by (apply Z.geb_le; exact Hk).
      assert (H2 : (cur' <? 0) = false) by (apply Z.ltb_ge; exact Hk).
      rewrite H1, H2, Hn. reflexivity.
    + try rewrite Hrr. subst cur'. change (-1 >=? 0) with false. cbv iota.
      assert (Hno : forall g, In g p_format_list ->
                              is_digital_format g
                              && Qeq_bool (mSampleRate (mFormat g))
                                   (mSampleRate (sfmt_revert (ao_priv ao)))
                              = false).
      { intros g Hg. destruct (_ && _) eqn:Hm; [ | reflexivity].
        assert (Hex : existsb (fun g => is_digital_format g
                                 && Qeq_bool (mSampleRate (mFormat g))
                                      (mSampleRate (sfmt_revert (ao_priv ao))))
                              p_format_list = true)
          by (apply existsb_exists; exists g; split; assumption).
        congruence. }
      apply existsb_exists in Hdigital. destruct Hdigital as [g0 [Hg0 Hd0]].
      destruct (Hmax g0 Hg0 Hd0 (Hno g0 Hg0)) as [Hk _].
      destruct Hb as [-> | [f [_ [Hn Hd]]]]; [lia | ].
      exists f. split; [apply (nth_error_In _ _ Hn) | ].
      split; [exact Hd | ]. split.
      * assert (H2 : (bak' <? 0) = false) by (apply Z.ltb_ge; exact Hk).
        rewrite H2, Hn. reflexivity.
      * intros g Hg Hgd. destruct (Hmax g Hg Hgd (Hno g Hg)) as [_ Hle].
        unfold rate_at in Hle. rewrite Hn in Hle. exact Hle.
Qed.

Lemma choose_stream_format_policy_witness :
  existsb is_digital_format
          [{| mFormat := asbd_zero; mSampleRateRange := (0%Q, 0%Q) |};
           {| mFormat := sample_ac3; mSampleRateRange := (0%Q, 0%Q) |}] = true
  /\ exists f,
      In f [{| mFormat := asbd_zero; mSampleRateRange := (0%Q, 0%Q) |};
            {| mFormat := sample_ac3; mSampleRateRange := (0%Q, 0%Q) |}]
      /\ is_digital_format f = true
      /\ choose_stream_format
           [{| mFormat := asbd_zero; mSampleRateRange := (0%Q, 0%Q) |};
            {| mFormat := sample_ac3; mSampleRateRange := (0%Q, 0%Q) |}]
           sample_ao
         = Ret (upd_priv (set_stream_format (mFormat f)) sample_ao).
Proof.
  split; [reflexivity | ].
  destruct (choose_stream_format_policy
              [{| mFormat := asbd_zero; mSampleRateRange := (0%Q, 0%Q) |};
               {| mFormat := sample_ac3; mSampleRateRange := (0%Q, 0%Q) |}]
              sample_ao eq_refl) as [f [Hin [Hd [Hc _]]]].
  exists f. split; [exact Hin | ]. split; [exact Hd | exact Hc].
Defined.

(** ** Closing the device *)

Section UninitFacts.
Context {H : Headers}.

Lemma housekeeping_filter_stop (t : list (event call)) :
  forallb housekeeping t = true -> filter is_stop t = [].
Proof.
  induction t as [ | ev t IH]; cbn [forallb filter]; intros Ht.
  - reflexivity.
  - apply andb_true_iff in Ht. destruct Ht as [Hev Ht].
    unfold housekeeping in Hev.
    rewrite !andb_true_iff, !negb_true_iff in Hev.
    destruct Hev as [[[[_ _] Hs] _] _]. rewrite Hs. apply IH, Ht.
Qed.

Lemma uninit_digital_head (ao : struct_ao) :
  exists k,
    uninit_digital ao
    = Vis (inr1 (AudioDeviceStop (i_selected_dev (ao_priv ao))
                                 (renderCallback (ao_priv ao)))) k
    /\ (forall r, quiet housekeeping (k r))
    /\ (forall r, returns (k r)
                          (fun ao' => ao' = ao
                                      \/ ao' = upd_priv (set_i_hog_pid (-1))
                                                        ao)).
Proof.
  unfold uninit_digital, sys, trigger. cbn [bind].
  eexists. split; [reflexivity | ].
  split; intros r.
  - generalize (AudioStreamChangeFormat_quiet (i_stream_id (ao_priv ao))
                                              (sfmt_revert (ao_priv ao))).
    generalize (AudioStreamChangeFormat (i_stream_id (ao_priv ao))
                                        (sfmt_revert (ao_priv ao))).
    intros chg Hchg. walk; auto.
  - generalize (AudioStreamChangeFormat_returns (i_stream_id (ao_priv ao))
                                                (sfmt_revert (ao_priv ao))).
    generalize (AudioStreamChangeFormat (i_stream_id (ao_priv ao))
                                        (sfmt_revert (ao_priv ao))).
    intros chg Hchg. walk; auto.
    all: simpl; auto.
Qed.

Lemma uninit_run {W} (h : handler call W) (w : W) (ao : struct_ao)
      (immed : bool) :
  let out := run h (uninit ao immed) w in
  let p := ao_priv ao in
  if negb immed && (bps ao =? 0) then
    result_of out = None
    /\ exists n, trace_of out = [Ev (inl1 (mp_ring_buffered (buffer p))) n]
  else
    exists pre st post ao',
      trace_of out = (pre ++ Ev (inr1 (stop_call p)) st :: post)%list
      /\ result_of out = Some ao'
      /\ (ao' = ao
          \/ (truthy (b_digital p) = true
              /\ ao' = upd_priv (set_i_hog_pid (-1)) ao))
      /\ forallb housekeeping post = true
      /\ (if immed then pre = []
          else exists n1 n2,
              pre = [Ev (inl1 (mp_ring_buffered (buffer p))) n1;
                     Ev (inl1 (mp_ring_buffered (buffer p))) n2;
                     Ev (inr1 (mp_msg MSGL_DBG2
                                 ("AO: [coreaudio] "
                                  ++ "%d bytes left @%d bps (%d usec)\n")))
                        tt;
                     Ev (inr1 (mp_sleep_us
                                 (int_of
                                    (Z.quot
                                       (int64_of (1000000 * int_of n1))
                                       (bps ao))))) tt]).
Proof.
  intros out p. subst out.
  assert (Htail : forall w0 : W,
             exists st w1 post ao',
               run h (if negb (truthy (b_digital p))
                      then sys (AudioOutputUnitStop (theOutputUnit p)) ;;;
                           sys (AudioUnitUninitialize (theOutputUnit p)) ;;;
                           sys (AudioComponentInstanceDispose
                                  (theOutputUnit p)) ;;;
                           Ret ao
                      else uninit_digital ao) w0
               = (Some ao', w1, Ev (inr1 (stop_call p)) st :: post)
               /\ (ao' = ao
                   \/ (truthy (b_digital p) = true
                       /\ ao' = upd_priv (set_i_hog_pid (-1)) ao))
               /\ forallb housekeeping post = true).
  { intros w0. unfold stop_call.
    destruct (truthy (b_digital p)) eqn:Hd; cbn [negb].
    - destruct (uninit_digital_head ao) as [k [-> [Hq Hr]]].
      cbn [run]. fold p. destruct (h Z _ w0) as [st w1].
      assert (Hq' := quiet_run call housekeeping h (k st) w1 (Hq st)).
      destruct (returns_run call h (k st) _ w1 (Hr st)) as [ao' [Hres Hao]].
      destruct (run h (k st) w1) as [[o w2] post].
      unfold result_of, trace_of in *. cbn [fst snd] in *. subst o.
      exists st, w2, post, ao'. split; [reflexivity | ].
      split; [ | exact Hq'].
      destruct Hao as [-> | ->]; [left; reflexivity | right; split; reflexivity].
    - unfold sys, trigger. cbn [bind run].
      ConredirFacts.answer h w0 st w1. ConredirFacts.answer h w1 st2 w2. ConredirFacts.answer h w2 st3 w3.
      exists st, w3, [Ev (inr1 (AudioUnitUninitialize (theOutputUnit p))) st2;
                      Ev (inr1 (AudioComponentInstanceDispose
                                  (theOutputUnit p))) st3], ao.
      split; [reflexivity | ]. split; [left; reflexivity | reflexivity]. }
  unfold uninit. fold p. rewrite run_bind.
  match goal with
  | |- context [run h (if negb (truthy (b_digital p)) then ?a else ?b)] =>
      set (tail := if negb (truthy (b_digital p)) then a else b) in *
  end.
  destruct immed; cbn [negb andb].
  - cbn [run]. destruct (Htail w) as [st [w1 [post [ao' [-> [Hao Hpost]]]]]].
    exists [], st, post, ao'. unfold trace_of, result_of. cbn [fst snd app].
    repeat split; assumption.
  - unfold ca_msg, ring, sys, trigger. cbn [bind run].
    ConredirFacts.answer h w n1 w1.
    destruct (bps ao =? 0) eqn:Hb.
    + cbn [run]. unfold trace_of, result_of. cbn [fst snd].
      split; [reflexivity | ]. exists n1. reflexivity.
    + cbn [bind run]. ConredirFacts.answer h w1 n2 w2. ConredirFacts.answer h w2 u1 w3.
      ConredirFacts.answer h w3 u2 w4. destruct u1, u2.
      destruct (Htail w4) as [st [w5 [post [ao' [-> [Hao Hpost]]]]]].
      eexists _, st, post, ao'. unfold trace_of, result_of. cbn [fst snd].
      split; [reflexivity | ]. split; [reflexivity | ].
      split; [exact Hao | ]. split; [exact Hpost | ].
      exists n1, n2. reflexivity.
Qed.

(** X13. [uninit] runs into undefined behaviour exactly when it is asked
    to wait for the queued audio ([immed] false) on a session whose [bps]
    is 0: the wait divides by [ao->bps].  Otherwise it returns, whatever
    the calls answer, and leaves the session as it was, except that a
    digital session may have its [i_hog_pid] set to -1. *)
Theorem uninit_result {W} (h : handler call W) (w : W) (ao : struct_ao)
        (immed : bool) :
  match result_of (run h (uninit ao immed) w) with
  | None => immed = false /\ bps ao = 0
  | Some ao' =>
      immed || negb (bps ao =? 0) = true
      /\ (ao' = ao
          \/ (truthy (b_digital (ao_priv ao)) = true
              /\ ao' = upd_priv (set_i_hog_pid (-1)) ao))
  end.
Proof.
  assert (Hrun := uninit_run h w ao immed). cbv zeta in Hrun.
  destruct immed; cbn [negb andb orb] in *.
  - destruct Hrun as [pre [st [post [ao' [_ [-> [Hao _]]]]]]].
    split; [reflexivity | exact Hao].
  - destruct (bps ao =? 0) eqn:Hb.
    + destruct Hrun as [-> _]. split; [reflexivity | ].
      apply Z.eqb_eq, Hb.
    + destruct Hrun as [pre [st [post [ao' [_ [-> [Hao _]]]]]]].
      split; [reflexivity | exact Hao].
Qed.

(** X14. Whenever [uninit] is defined, its calls are, in this order: the
    wait for the queued audio, absent when [immed] is set and otherwise
    two queries of the bytes buffered, a message and one sleep of
    1000000 * buffered / bps microseconds computed from the first query;
    then the stop call of the session's mode; then calls that neither
    touch the ring buffer nor start, stop or register a callback nor set
    the volume. *)
Theorem uninit_waits_then_stops {W} (h : handler call W) (w : W)
        (ao : struct_ao) (immed : bool)
        (Hdefined : immed || negb (bps ao =? 0) = true) :
  exists pre st post,
    trace_of (run h (uninit ao immed) w)
    = (pre ++ Ev (inr1 (stop_call (ao_priv ao))) st :: post)%list
    /\ forallb housekeeping post = true
    /\ (if immed then pre = []
        else exists n1 n2,
            pre = [Ev (inl1 (mp_ring_buffered (buffer (ao_priv ao)))) n1;
                   Ev (inl1 (mp_ring_buffered (buffer (ao_priv ao)))) n2;
                   Ev (inr1 (mp_msg MSGL_DBG2
                               ("AO: [coreaudio] "
                                ++ "%d bytes left @%d bps (%d usec)\n"))) tt;
                   Ev (inr1 (mp_sleep_us
                               (int_of
                                  (Z.quot (int64_of (1000000 * int_of n1))
                                          (bps ao))))) tt]).
Proof.
  assert (Hrun := uninit_run h w ao immed). cbv zeta in Hrun.
  assert (Hc : negb immed && (bps ao =? 0) = false).
  { destruct immed; [reflexivity | ]. cbn [negb andb orb] in *.
    apply negb_true_iff, Hdefined. }
  rewrite Hc in Hrun.
  destruct Hrun as [pre [st [post [ao' [Ht [_ [_ [Hpost Hpre]]]]]]]].
  exists pre, st, post. split; [exact Ht | ]. split; [exact Hpost | exact Hpre].
Qed.

End UninitFacts.

Lemma uninit_waits_then_stops_witness :
  exists pre st post,
    trace_of (run sample_handler (@uninit sample_headers sample_ao false)
                  (sample_world 4))
    = (pre ++ Ev (inr1 (stop_call (ao_priv sample_ao))) st :: post)%list
    /\ forallb housekeeping post = true
    /\ exists n1 n2,
        pre = [Ev (inl1 (mp_ring_buffered (buffer (ao_priv sample_ao)))) n1;
               Ev (inl1 (mp_ring_buffered (buffer (ao_priv sample_ao)))) n2;
               Ev (inr1 (mp_msg MSGL_DBG2
                           ("AO: [coreaudio] "
                            ++ "%d bytes left @%d bps (%d usec)\n"))) tt;
               Ev (inr1 (mp_sleep_us
                           (int_of
                              (Z.quot (int64_of (1000000 * int_of n1))
                                      (bps sample_ao))))) tt].
Proof.
  apply (@uninit_waits_then_stops sample_headers _ sample_handler
                                  (sample_world 4) sample_ao false).
  reflexivity.
Defined.

(** ** What [play] leaves of the session *)

Section PlayFrame.
Context {H : Headers}.

Lemma play_restore_digital_result (ao : struct_ao) :
  returns (play_restore_digital ao)
          (fun ao1 =>
             let ao0 :=
               if truthy (b_digital (ao_priv ao))
                  && truthy (b_stream_format_changed (ao_priv ao))
               then upd_priv (set_b_stream_format_changed 0) ao else ao in
             ao1 = ao0 \/ ao1 = upd_priv (set_paused 1) ao0).
Proof.
  unfold play_restore_digital.
  destruct (truthy (b_digital (ao_priv ao))
            && truthy (b_stream_format_changed (ao_priv ao)));
    [ | left; reflexivity].
  set (ao' := upd_priv (set_b_stream_format_changed 0) ao).
  assert (Hchange := AudioStreamChangeFormat_returns
                       (i_stream_id (ao_priv ao'))
                       (stream_format (ao_priv ao'))).
  assert (Hreset := reset_returns ao').
  revert Hchange Hreset.
  generalize (AudioStreamChangeFormat (i_stream_id (ao_priv ao'))
                                      (stream_format (ao_priv ao'))).
  generalize (reset ao').
  intros rst chg Hchange Hreset. cbv zeta. walk; auto.
  all: try (simpl; auto).
  apply returns_impl with (2 := Hreset). intros a0 ->. right. reflexivity.
Qed.

(** X15. [play] always returns, whatever the calls answer, and of the
    session it changes two fields at most: [paused] is 0 afterwards, and
    [b_stream_format_changed] is cleared when the session is digital and
    the flag was set; every other field is as before. *)
Theorem play_frame {W} (h : handler call W) (w : W) (ao : struct_ao)
        (output_samples num_bytes flags : Z) :
  exists wrote,
    result_of (run h (play ao output_samples num_bytes flags) w)
    = Some (wrote,
            upd_priv (set_paused 0)
                     (if truthy (b_digital (ao_priv ao))
                         && truthy (b_stream_format_changed (ao_priv ao))
                      then upd_priv (set_b_stream_format_changed 0) ao
                      else ao)).
Proof.
  unfold play. rewrite run_bind.
  destruct (returns_run call h (play_restore_digital ao) _ w
                        (play_restore_digital_result ao))
    as [ao1 [Hres Hao]].
  destruct (run h (play_restore_digital ao) w) as [[o1 w1] pre].
  unfold result_of in Hres. cbn [fst] in Hres. subst o1.
  unfold ring, trigger. cbn [bind run].
  destruct (h Z _ w1) as [wrote w2].
  destruct (audio_resume_run h w2 ao1) as [w3 [post [Hrun _]]].
  rewrite run_bind, Hrun. cbn [run]. unfold result_of. cbn [fst].
  exists wrote. cbv zeta in Hao.
  destruct Hao as [-> | ->]; [reflexivity | ].
  destruct (truthy (b_digital (ao_priv ao))
            && truthy (b_stream_format_changed (ao_priv ao)));
    destruct ao as [? ? ? ? ? ? p]; destruct p; reflexivity.
Qed.

End PlayFrame.

(** ** The search for a digital stream *)

Section StreamSearch.
Context {H : Headers}.

Lemma all_paths_bind_result {A B} (m : prog call A) (f : A -> prog call B)
      (Q : option B -> Prop) :
  (forall a, all_paths (f a) (fun _ o => Q o)) -> Q None ->
  all_paths (bind m f) (fun _ o => Q o).
Proof.
  intros Hf Hnone.
  induction m as [a | R e k IH | ]; cbn [bind all_paths].
  - apply Hf.
  - intros r. apply IH.
  - exact Hnone.
Qed.

Lemma choose_stream_format_then {B}
      (l : list AudioStreamRangedDescription) (ao : struct_ao)
      (f : struct_ao -> prog call B) (Q : option B -> Prop) :
  (forall fmt, all_paths (f (upd_priv (set_stream_format fmt) ao))
                         (fun _ o => Q o)) ->
  Q None ->
  all_paths (bind (choose_stream_format l ao) f) (fun _ o => Q o).
Proof.
  intros Hsome Hnone. unfold choose_stream_format.
  destruct (select_rate_format l l 0 _ _ (-1) (-1)) as [[req cur] bak].
  cbv zeta.
  destruct (_ <? 0); [exact Hnone | ].
  destruct (nth_error l _); [apply Hsome | exact Hnone].
Qed.

Lemma find_digital_stream_paths (p_streams : list Z) :
  forall (i : Z) (ao : struct_ao),
    all_paths
      (find_digital_stream p_streams i ao)
      (fun _ o =>
         match o with
         | None => True
         | Some ao' =>
             (i_stream_index (ao_priv ao') = i_stream_index (ao_priv ao)
              /\ i_stream_id (ao_priv ao') = i_stream_id (ao_priv ao))
             \/ (i <= i_stream_index (ao_priv ao')
                 /\ nth_error p_streams
                              (Z.to_nat (i_stream_index (ao_priv ao') - i))
                    = Some (i_stream_id (ao_priv ao')))
         end).
Proof.
  induction p_streams as [ | stream rest IH]; intros i ao;
    unfold find_digital_stream; fold find_digital_stream.
  - cbn [all_paths]. left. split; reflexivity.
  - destruct (negb (i_stream_index (ao_priv ao) <? 0));
      [cbn [all_paths]; left; split; reflexivity | ].
    assert (Hskip : forall ao1,
               i_stream_index (ao_priv ao1) = i_stream_index (ao_priv ao) ->
               i_stream_id (ao_priv ao1) = i_stream_id (ao_priv ao) ->
               all_paths
                 (find_digital_stream rest (i + 1) ao1)
                 (fun _ o =>
                    match o with
                    | None => True
                    | Some ao' =>
                        (i_stream_index (ao_priv ao')
                         = i_stream_index (ao_priv ao)
                         /\ i_stream_id (ao_priv ao')
                            = i_stream_id (ao_priv ao))
                        \/ (i <= i_stream_index (ao_priv ao')
                            /\ nth_error
                                 (stream :: rest)
                                 (Z.to_nat (i_stream_index (ao_priv ao') - i))
                               = Some (i_stream_id (ao_priv ao')))
                    end)).
    { intros ao1 Hidx Hid. apply all_paths_impl with (2 := IH (i + 1) ao1).
      intros _ [ao' | ]; [ | exact (fun x => x)].
      intros [[Hi Hs] | [Hi Hs]].
      - left. split; congruence.
      - right. split; [lia | ].
        replace (Z.to_nat (i_stream_index (ao_priv ao') - i))
          with (S (Z.to_nat (i_stream_index (ao_priv ao') - (i + 1))))
          by lia.
        exact Hs. }
    assert (Hfound : forall ao1,
               i_stream_index (ao_priv ao1) = i ->
               i_stream_id (ao_priv ao1) = stream ->
               all_paths
                 (find_digital_stream rest (i + 1) ao1)
                 (fun _ o =>
                    match o with
                    | None => True
                    | Some ao' =>
                        (i_stream_index (ao_priv ao')
                         = i_stream_index (ao_priv ao)
                         /\ i_stream_id (ao_priv ao')
                            = i_stream_id (ao_priv ao))
                        \/ (i <= i_stream_index (ao_priv ao')
                            /\ nth_error
                                 (stream :: rest)
                                 (Z.to_nat (i_stream_index (ao_priv ao') - i))
                               = Some (i_stream_id (ao_priv ao')))
                    end)).
    { intros ao1 Hidx Hid. apply all_paths_impl with (2 := IH (i + 1) ao1).
      intros _ [ao' | ]; [ | exact (fun x => x)].
      intros [[Hi Hs] | [Hi Hs]]; right.
      - rewrite Hi, Hs, Hidx, Hid. split; [lia | ].
        rewrite Z.sub_diag. reflexivity.
      - split; [lia | ].
        replace (Z.to_nat (i_stream_index (ao_priv ao') - i))
          with (S (Z.to_nat (i_stream_index (ao_priv ao') - (i + 1))))
          by lia.
        exact Hs. }
    apply all_paths_bind_result; [ | exact I]. intros [i_param_size data].
    destruct (i_param_size =? 0).
    { apply all_paths_bind_result; [ | exact I]. intros _.
      apply Hskip; reflexivity. }
    destruct data; try exact I.
    destruct (existsb is_digital_format _); [ | apply Hskip; reflexivity].
    cbv zeta.
    destruct (b_revert _ =? 0).
    + apply all_paths_bind_result; [ | exact I]. intros [err d].
      destruct (negb (err =? noErr)).
      * apply all_paths_bind_result; [ | exact I]. intros _.
        apply Hfound; destruct ao as [? ? ? ? ? ? p]; destruct p; reflexivity.
      * apply choose_stream_format_then; [ | exact I]. intros fmt.
        apply Hfound; destruct ao as [? ? ? ? ? ? p]; destruct p; reflexivity.
    + apply choose_stream_format_then; [ | exact I]. intros fmt.
      apply Hfound; destruct ao as [? ? ? ? ? ? p]; destruct p; reflexivity.
Qed.

(** X16. The search of OpenSPDIF for a digital stream, started at index
    [i] of the stream list, either leaves [i_stream_index] and
    [i_stream_id] as they were, or leaves an index at or after [i]
    together with the id the stream list holds at that index. *)
Theorem find_digital_stream_index {W} (h : handler call W) (w : W)
        (p_streams : list Z) (i : Z) (ao : struct_ao) :
  match result_of (run h (find_digital_stream p_streams i ao) w) with
  | None => True
  | Some ao' =>
      (i_stream_index (ao_priv ao') = i_stream_index (ao_priv ao)
       /\ i_stream_id (ao_priv ao') = i_stream_id (ao_priv ao))
      \/ (i <=? i_stream_index (ao_priv ao')) = true
         /\ nth_error p_streams
                      (Z.to_nat (i_stream_index (ao_priv ao') - i))
            = Some (i_stream_id (ao_priv ao'))
  end.
Proof.
  assert (Hp := all_paths_run call h _ _ w
                              (find_digital_stream_paths p_streams i ao)).
  cbv beta in Hp.
  destruct (result_of (run h (find_digital_stream p_streams i ao) w));
    [ | exact I].
  destruct Hp as [Hp | [Hi Hs]]; [left; exact Hp | right].
  split; [apply Z.leb_le, Hi | exact Hs].
Qed.

End StreamSearch.

Example find_digital_stream_runs :
  let out := run sample_handler
                 (find_digital_stream [5; 7] 0 sample_ao)
                 (sample_world 0) in
  exists ao', result_of out = Some ao'
              /\ i_stream_index (ao_priv ao') = 0
              /\ i_stream_id (ao_priv ao') = 5
              /\ b_revert (ao_priv ao') = 1.
Proof. vm_compute. eexists. repeat split; reflexivity. Qed.

(** ** The audio unit of the analog setup *)

Section AnalogSetup.
Context {H : Headers}.

Lemma init_lpcm_paths (ao : struct_ao) (asbd : AudioStreamBasicDescription)
      (device_opt : Z) (chmap_sel : mp_chmap_sel) :
  all_paths
    (init_lpcm ao asbd device_opt chmap_sel)
    (fun t o =>
       (exists ao',
           o = Some (if registered t then CONTROL_OK else CONTROL_FALSE, ao'))
       /\ List.length (filter is_instance_dispose t)
          = (if opened t && negb (registered t) then 1%nat else O)
       /\ List.length (filter is_unit_uninitialize t)
          = (if initialized t && negb (registered t) then 1%nat else O)).
Proof.
  unfold init_lpcm, coreaudio_error_audiounit, coreaudio_error_component,
    coreaudio_error, check_ca_st, print_buffer, reset, audio_pause, ca_msg,
    ring, sys, trigger.
  cbn [upd_priv set_theOutputUnit ao_priv theOutputUnit b_digital
       set_buffer].
  repeat (cbn [bind all_paths negb];
          match goal with
          | |- forall _, _ => intro
          | |- all_paths (if ?c then _ else _) _ => destruct c eqn:?
          | |- all_paths (match ?x with _ => _ end) _ => destruct x
          | |- context [bind (if ?c then _ else _) _] => destruct c eqn:?
          | |- context [bind (match ?x with _ => _ end) _] => destruct x
          end).
  all: unfold registered, opened, initialized;
    cbn [existsb filter List.length is_register is_instance_new
         is_instance_dispose is_unit_initialize is_unit_uninitialize
         unit_ok unit_status andb orb negb fst snd];
    repeat match goal with
           | Hx : (_ =? noErr) = _ |- _ => rewrite Hx
           end;
    cbn [andb orb negb List.length filter].
  all: try (split; [eexists; reflexivity | split; reflexivity]).
Qed.

(** X17. The analog setup of [init] always returns, with CONTROL_OK
    exactly when the render callback was registered and CONTROL_FALSE
    otherwise.  On failure it releases what it had acquired, once each:
    the component instance is disposed exactly when it had been opened,
    and the audio unit is uninitialised exactly when it had been
    initialised; on success neither is released. *)
Theorem init_lpcm_releases_unit {W} (h : handler call W) (w : W)
        (ao : struct_ao) (asbd : AudioStreamBasicDescription)
        (device_opt : Z) (chmap_sel : mp_chmap_sel) :
  let out := run h (init_lpcm ao asbd device_opt chmap_sel) w in
  (exists ao',
      result_of out
      = Some (if registered (trace_of out)
              then CONTROL_OK else CONTROL_FALSE, ao'))
  /\ List.length (filter is_instance_dispose (trace_of out))
     = (if opened (trace_of out) && negb (registered (trace_of out))
        then 1%nat else O)
  /\ List.length (filter is_unit_uninitialize (trace_of out))
     = (if initialized (trace_of out) && negb (registered (trace_of out))
        then 1%nat else O).
Proof.
  intros out.
  exact (all_paths_run call h _ _ w
                       (init_lpcm_paths ao asbd device_opt chmap_sel)).
Qed.

End AnalogSetup.

Example init_lpcm_runs :
  let out := run sample_handler
                 (@init_lpcm sample_headers sample_ao sample_ac3 (-1)
                             {| chmap_sel_words := [] |})
                 (sample_world 0) in
  registered (trace_of out) = true
  /\ opened (trace_of out) = true
  /\ filter is_instance_dispose (trace_of out) = [].
Proof. vm_compute. repeat split; reflexivity. Qed.

(** ** The path of the program the console wrapper launches *)

Module ConredirPath.
Import Conredir.

Lemma wcsrchr_none (s : wstring) (c : Z) :
  wcsrchr s c = None <-> forallb (fun x => negb (x =? c)) s = true.
Proof.
  induction s as [ | x s IH]; cbn [wcsrchr forallb].
  - split; reflexivity.
  - destruct (wcsrchr s c) as [i | ].
    + split; [discriminate | ]. intros Hf.
      apply andb_true_iff in Hf. destruct Hf as [_ Hf].
      apply IH in Hf. discriminate Hf.
    + destruct (x =? c); cbn [negb andb].
      * split; discriminate.
      * split; intros _; [apply IH | ]; reflexivity.
Qed.

Lemma wcsrchr_some (s : wstring) (c : Z) (i : nat) :
  wcsrchr s c = Some i ->
  exists stem old,
    s = (stem ++ c :: old)%list
    /\ List.length stem = i
    /\ forallb (fun x => negb (x =? c)) old = true.
Proof.
  revert i. induction s as [ | x s IH]; cbn [wcsrchr]; intros i Hi.
  - discriminate Hi.
  - destruct (wcsrchr s c) as [j | ] eqn:Hj.
    + injection Hi as <-.
      destruct (IH j eq_refl) as [stem [old [-> [Hlen Hold]]]].
      exists (x :: stem), old. cbn [app List.length].
      split; [reflexivity | ]. split; [congruence | exact Hold].
    + destruct (x =? c) eqn:Hx; [ | discriminate Hi].
      injection Hi as <-. apply Z.eqb_eq in Hx. subst x.
      exists [], s. split; [reflexivity | ]. split; [reflexivity | ].
      apply wcsrchr_none, Hj.
Qed.

Lemma wcsrchr_last (stem old : wstring) (c : Z) :
  forallb (fun x => negb (x =? c)) old = true ->
  wcsrchr (stem ++ c :: old)%list c = Some (List.length stem).
Proof.
  intros Hold. induction stem as [ | x stem IH]; cbn [app wcsrchr List.length].
  - apply wcsrchr_none in Hold. rewrite Hold, Z.eqb_refl. reflexivity.
  - rewrite IH. reflexivity.
Qed.

(** X18. When the path replacement of [wmain] is defined, the wrapper's
    own path splits at its last dot into a stem and a dot-free rest; the
    path of the program launched is the stem, the dot and [exe]; it fits
    the MAX_PATH buffer; and replacing the extension of that path again
    gives the same path. *)
Theorem replace_extension_last_dot (exe exe' : wstring)
        (Hext : replace_extension exe = Some exe') :
  exists stem old,
    exe = (stem ++ 46 :: old)%list
    /\ forallb (fun x => negb (x =? 46)) old = true
    /\ exe' = (stem ++ 46 :: wstr "exe")%list
    /\ Z.of_nat (List.length exe') < MAX_PATH
    /\ replace_extension exe' = Some exe'.
Proof.
  unfold replace_extension in Hext.
  destruct (wcsrchr exe 46) as [i | ] eqn:Hi; [ | discriminate Hext].
  destruct (wcsrchr_some exe 46 i Hi) as [stem [old [-> [Hlen Hold]]]].
  subst i.
  assert (Hfirst : firstn (S (List.length stem)) (stem ++ 46 :: old)%list
                   = (stem ++ [46])%list).
  { replace (S (List.length stem))
      with (List.length stem + 1)%nat by lia.
    rewrite firstn_app_2. reflexivity. }
  rewrite Hfirst in Hext. cbv zeta in Hext.
  destruct (_ <? MAX_PATH) eqn:Hfit in Hext; [ | discriminate Hext].
  injection Hext as <-. rewrite <- app_assoc in *. cbn [app] in *.
  exists stem, old. split; [reflexivity | ]. split; [exact Hold | ].
  split; [reflexivity | ]. split; [apply Z.ltb_lt, Hfit | ].
  unfold replace_extension.
  rewrite (wcsrchr_last stem (wstr "exe") 46 eq_refl).
  replace (S (List.length stem)) with (List.length stem + 1)%nat by lia.
  rewrite firstn_app_2. cbn [firstn]. rewrite <- app_assoc. cbn [app].
  rewrite Hfit. reflexivity.
Qed.

Lemma replace_extension_last_dot_witness :
  exists stem old,
    wstr "C:\my.dir\mpv.com" = (stem ++ 46 :: old)%list
    /\ forallb (fun x => negb (x =? 46)) old = true
    /\ wstr "C:\my.dir\mpv.exe" = (stem ++ 46 :: wstr "exe")%list
    /\ Z.of_nat (List.length (wstr "C:\my.dir\mpv.exe")) < MAX_PATH
    /\ replace_extension (wstr "C:\my.dir\mpv.exe")
       = Some (wstr "C:\my.dir\mpv.exe").
Proof.
  apply (replace_extension_last_dot (wstr "C:\my.dir\mpv.com")
                                    (wstr "C:\my.dir\mpv.exe")).
  reflexivity.
Defined.

End ConredirPath.

(** ** Options the parser rejects *)

Section BadOptions.
Context {H : Headers}.

(** X19. When the option parser rejects the options, [init] prints the
    help and answers the literal 0 with the session untouched: no private
    state is allocated, no ring buffer is created, and apart from the
    parse itself every call is a message or property traffic.  (The help
    listing is undefined when the framework's device array is not an
    array of ids; [init] is then undefined too.) *)
Theorem init_rejects_bad_options {W} (h : handler call W) (w : W)
        (ao : struct_ao) (params : string)
        (Hbad : fst (fst (fst (h _ (inr1 (subopt_parse params)) w))) <> 0) :
  let out := run h (init ao params) w in
  (result_of out = Some (0, ao) \/ result_of out = None)
  /\ forallb housekeeping (trace_of out) = true
  /\ ring_calls (trace_of out) = [].
Proof.
  intros out.
  assert (Hq : forallb housekeeping (trace_of out) = true).
  { subst out. unfold init, sys, trigger. cbn [bind run].
    destruct (h _ (inr1 (subopt_parse params)) w) as [[[parsed dev] help] w1].
    cbn [fst] in Hbad.
    apply Z.eqb_neq in Hbad. rewrite Hbad. cbn [negb].
    rewrite run_bind.
    assert (Hp := quiet_run call housekeeping h print_help w1
                            print_help_quiet).
    destruct (run h print_help w1) as [[[u | ] w2] t];
      unfold trace_of in *; cbn [snd run] in *.
    - rewrite app_nil_r. cbn [forallb]. exact Hp.
    - cbn [forallb]. exact Hp. }
  split; [ | split; [exact Hq | ]].
  - subst out. unfold init, sys, trigger. cbn [bind run].
    destruct (h _ (inr1 (subopt_parse params)) w) as [[[parsed dev] help] w1].
    cbn [fst] in Hbad.
    apply Z.eqb_neq in Hbad. rewrite Hbad. cbn [negb].
    rewrite run_bind.
    destruct (run h print_help w1) as [[[u | ] w2] t];
      unfold result_of; cbn [fst run]; [left | right]; reflexivity.
  - apply not_ring_calls.
    assert (Hw : forall ev, housekeeping ev = true -> not_ring ev = true).
    { intros ev Hev. unfold housekeeping in Hev.
      rewrite !andb_true_iff in Hev. apply Hev. }
    revert Hq. generalize (trace_of out). intros t.
    induction t as [ | ev t IH]; cbn [forallb]; [reflexivity | ].
    intros Ht. apply andb_true_iff in Ht. destruct Ht as [Hev Ht].
    rewrite (Hw ev Hev), (IH Ht). reflexivity.
Qed.

End BadOptions.

Lemma init_rejects_bad_options_witness :
  let out := run bad_options_handler
                 (@init sample_headers sample_ao "device_id")
                 (sample_world 0) in
  (result_of out = Some (0, sample_ao) \/ result_of out = None)
  /\ forallb housekeeping (trace_of out) = true
  /\ ring_calls (trace_of out) = [].
Proof.
  apply (@init_rejects_bad_options sample_headers _ bad_options_handler
                                   (sample_world 0) sample_ao "device_id").
  discriminate.
Defined.

Example init_rejects_bad_options_runs :
  result_of (run bad_options_handler
                 (@init sample_headers sample_ao "device_id")
                 (sample_world 0))
  = Some (0, sample_ao).
Proof. vm_compute. reflexivity. Qed.

(** ** The outcome of the digital setup *)

Section DigitalSetup.
Context {H : Headers}.

Lemma all_paths_bind_inv {A B} (m : prog call A) (f : A -> prog call B)
      (I : A -> Prop) (Q : option B -> Prop) :
  all_paths m (fun _ o => match o with Some a => I a | None => True end) ->
  (forall a, I a -> all_paths (f a) (fun _ o => Q o)) -> Q None ->
  all_paths (bind m f) (fun _ o => Q o).
Proof.
  intros Hm Hf Hnone.
  induction m as [a | R e k IH | ]; cbn [bind all_paths] in *.
  - apply Hf, Hm.
  - intros r. apply IH, Hm.
  - exact Hnone.
Qed.

Lemma all_paths_bind_returns {A B} (m : prog call A) (f : A -> prog call B)
      (I : A -> Prop) (Q : option B -> Prop) :
  returns m I ->
  (forall a, I a -> all_paths (f a) (fun _ o => Q o)) ->
  all_paths (bind m f) (fun _ o => Q o).
Proof.
  intros Hm Hf.
  induction m as [a | R e k IH | ]; cbn [bind all_paths returns] in *.
  - apply Hf, Hm.
  - intros r. apply IH, Hm.
  - destruct Hm.
Qed.

Ltac result_paths :=
  repeat (cbn [bind all_paths negb];
          match goal with
          | |- forall _, _ => intro
          | |- all_paths (if ?c then _ else _) _ => destruct c eqn:?
          | |- all_paths (match ?x with _ => _ end) _ => destruct x
          | |- context [bind (if ?c then _ else _) _] => destruct c eqn:?
          | |- context [bind (match ?x with _ => _ end) _] => destruct x
          end).

Lemma set_mixable_false_digital (ao : struct_ao) :
  all_paths (set_mixable_false ao)
            (fun _ o =>
               match o with
               | Some a => b_digital (ao_priv (snd a))
                           = b_digital (ao_priv ao)
               | None => True
               end).
Proof.
  unfold set_mixable_false, IsAudioPropertySettable, GetAudioProperty,
    SetAudioProperty, ca_msg, sys, trigger.
  result_paths. all: reflexivity.
Qed.

Lemma check_byte_order_digital (ao : struct_ao) :
  all_paths (check_byte_order ao)
            (fun _ o =>
               match o with
               | Some a => b_digital (ao_priv a) = b_digital (ao_priv ao)
               | None => True
               end).
Proof.
  unfold check_byte_order, ca_msg, sys, trigger. cbv zeta.
  destruct (truthy (Z.land (mFormatID (stream_format (ao_priv ao)))
                           kAudioFormat60958AC3)).
  all: result_paths.
  all: reflexivity.
Qed.

Lemma err_out_digital (ao : struct_ao) :
  all_paths (err_out ao)
            (fun _ o =>
               exists ao', o = Some (CONTROL_FALSE, ao')
                           /\ b_digital (ao_priv ao')
                              = b_digital (ao_priv ao)).
Proof.
  unfold err_out, SetAudioProperty, ca_msg, sys, trigger.
  result_paths. all: eexists; split; reflexivity.
Qed.

Lemma err_out1_digital (ao : struct_ao) :
  all_paths (err_out1 ao)
            (fun _ o =>
               exists ao', o = Some (CONTROL_FALSE, ao')
                           /\ b_digital (ao_priv ao')
                              = b_digital (ao_priv ao)).
Proof.
  unfold err_out1.
  destruct (truthy (b_revert (ao_priv ao))).
  - apply all_paths_bind_returns with (I := fun _ => True).
    + apply returns_bind with (Q := fun _ => True).
      * apply AudioStreamChangeFormat_returns.
      * intros a _. exact I.
    + intros _ _. apply err_out_digital.
  - cbn [bind]. apply err_out_digital.
Qed.

Lemma find_digital_stream_digital (p_streams : list Z) :
  forall (i : Z) (ao : struct_ao),
    all_paths
      (find_digital_stream p_streams i ao)
      (fun _ o =>
         match o with
         | Some ao' => b_digital (ao_priv ao') = b_digital (ao_priv ao)
         | None => True
         end).
Proof.
  induction p_streams as [ | stream rest IH]; intros i ao;
    unfold find_digital_stream; fold find_digital_stream.
  - reflexivity.
  - destruct (negb (i_stream_index (ao_priv ao) <? 0)); [reflexivity | ].
    assert (Hnext : forall ao1,
               b_digital (ao_priv ao1) = b_digital (ao_priv ao) ->
               all_paths
                 (find_digital_stream rest (i + 1) ao1)
                 (fun _ o =>
                    match o with
                    | Some ao' =>
                        b_digital (ao_priv ao') = b_digital (ao_priv ao)
                    | None => True
                    end)).
    { intros ao1 Hd. apply all_paths_impl with (2 := IH (i + 1) ao1).
      intros _ [ao' | ]; [ | exact (fun x => x)]. congruence. }
    apply all_paths_bind_result; [ | exact I]. intros [i_param_size data].
    destruct (i_param_size =? 0).
    { apply all_paths_bind_result; [ | exact I]. intros _.
      apply Hnext; reflexivity. }
    destruct data; try exact I.
    destruct (existsb is_digital_format _); [ | apply Hnext; reflexivity].
    cbv zeta.
    destruct (b_revert _ =? 0).
    + apply all_paths_bind_result; [ | exact I]. intros [err d].
      destruct (negb (err =? noErr)).
      * apply all_paths_bind_result; [ | exact I]. intros _.
        apply Hnext; reflexivity.
      * apply choose_stream_format_then; [ | exact I]. intros fmt.
        apply Hnext; reflexivity.
    + apply choose_stream_format_then; [ | exact I]. intros fmt.
      apply Hnext; reflexivity.
Qed.

Lemma OpenSPDIF_paths (ao : struct_ao) :
  all_paths
    (OpenSPDIF ao)
    (fun _ o =>
       match o with
       | Some a =>
           b_digital (ao_priv (snd a)) = 1
           /\ (fst a = CONTROL_FALSE
               \/ (fst a = CONTROL_TRUE /\ paused (ao_priv (snd a)) = 1))
       | None => True
       end).
Proof.
  assert (Herr : forall ao1,
             b_digital (ao_priv ao1) = 1 ->
             all_paths
               (err_out ao1)
               (fun _ o =>
                  match o with
                  | Some a =>
                      b_digital (ao_priv (snd a)) = 1
                      /\ (fst a = CONTROL_FALSE
                          \/ (fst a = CONTROL_TRUE
                              /\ paused (ao_priv (snd a)) = 1))
                  | None => True
                  end)).
  { intros ao1 Hd. apply all_paths_impl with (2 := err_out_digital ao1).
    intros _ o [ao' [-> Hd']]. cbn [fst snd].
    split; [congruence | left; reflexivity]. }
  assert (Herr1 : forall ao1,
             b_digital (ao_priv ao1) = 1 ->
             all_paths
               (err_out1 ao1)
               (fun _ o =>
                  match o with
                  | Some a =>
                      b_digital (ao_priv (snd a)) = 1
                      /\ (fst a = CONTROL_FALSE
                          \/ (fst a = CONTROL_TRUE
                              /\ paused (ao_priv (snd a)) = 1))
                  | None => True
                  end)).
  { intros ao1 Hd. apply all_paths_impl with (2 := err_out1_digital ao1).
    intros _ o [ao' [-> Hd']]. cbn [fst snd].
    split; [congruence | left; reflexivity]. }
  unfold OpenSPDIF, SetAudioProperty, ca_print_asbd, print_buffer, ca_msg,
    ca_msg_a, ring, sys, trigger.
  repeat (cbn [bind all_paths negb];
          match goal with
          | |- forall _, _ => intro
          | |- True => exact I
          | |- all_paths (err_out _) _ => apply Herr
          | |- all_paths (err_out1 _) _ => apply Herr1
          | |- all_paths (if ?c then _ else _) _ => destruct c eqn:?
          | |- all_paths (match ?x with _ => _ end) _ => destruct x
          | |- all_paths (bind (set_mixable_false ?a) _) _ =>
              apply all_paths_bind_inv
                with (I := fun x => b_digital (ao_priv (snd x)) = 1);
              [apply all_paths_impl with (2 := set_mixable_false_digital a);
               intros _ [x | ] Hx; [rewrite Hx | exact I]
              | intros [? ?] ?; cbn [snd] in *
              | exact I]
          | |- all_paths (bind (find_digital_stream ?l ?i ?a) _) _ =>
              apply all_paths_bind_inv
                with (I := fun x => b_digital (ao_priv x) = 1);
              [apply all_paths_impl
                 with (2 := find_digital_stream_digital l i a);
               intros _ [x | ] Hx; [rewrite Hx | exact I]
              | intros ? ?
              | exact I]
          | |- all_paths (bind (check_byte_order ?a) _) _ =>
              apply all_paths_bind_inv
                with (I := fun x => b_digital (ao_priv x) = 1);
              [apply all_paths_impl with (2 := check_byte_order_digital a);
               intros _ [x | ] Hx; [rewrite Hx | exact I]
              | intros ? ?
              | exact I]
          | |- all_paths (bind (GetAudioPropertyArray _ _ _) _) _ =>
              apply all_paths_bind_result; [intros [? ?] | exact I]
          | |- all_paths (bind (AudioStreamChangeFormat _ _) _) _ =>
              apply all_paths_bind_result; [intros ? | exact I]
          | |- all_paths (bind (reset ?a) _) _ =>
              apply all_paths_bind_returns with (1 := reset_returns a);
              intros ? ->
          | |- context [bind (if ?c then _ else _) _] => destruct c eqn:?
          end).
  all: simpl; try assumption; try reflexivity.
  all: try (split; [assumption | right; split; reflexivity]).
Qed.

(** X20. Whenever [OpenSPDIF] is defined it answers CONTROL_FALSE, or
    CONTROL_TRUE with the session paused; and in both cases the session
    is left marked digital: no exit of [OpenSPDIF] clears [b_digital]. *)
Theorem OpenSPDIF_outcome {W} (h : handler call W) (w : W)
        (ao : struct_ao) :
  match result_of (run h (OpenSPDIF ao) w) with
  | Some a =>
      b_digital (ao_priv (snd a)) = 1
      /\ (fst a = CONTROL_FALSE
          \/ (fst a = CONTROL_TRUE /\ paused (ao_priv (snd a)) = 1))
  | None => True
  end.
Proof.
  exact (all_paths_run call h _ _ w (OpenSPDIF_paths ao)).
Qed.

End DigitalSetup.

Example OpenSPDIF_runs :
  let out := run sample_handler (@OpenSPDIF sample_headers sample_ao)
                 (sample_world 0) in
  exists ao', result_of out = Some (1, ao')
              /\ b_digital (ao_priv ao') = 1
              /\ i_stream_id (ao_priv ao') = 7
              /\ i_stream_index (ao_priv ao') = 0.
Proof. vm_compute. eexists. repeat split; reflexivity. Qed.

